(** * Analytics engine of the news-mention tracker: model and properties

    A shallow embedding of the percentage-change, ranking, heat-index and
    period-analysis code of the backend
    ([app/services/analysis_service.py], [app/services/newsapi_real_data_service.py],
    [app/services/gdelt_service.py], [app/models/heat_index.py],
    [app/api/analysis.py], [app/api/comprehensive.py]).

    Python [int] is [Z]; Python [float] is IEEE-754 binary64, taken from the
    executable specification [SpecFloat] (precision 53, emax 1024);
    [decimal.Decimal] is a sign, a coefficient and a decimal exponent;
    [dict] with string keys is [gmap string _]; [set] of strings is
    [gset string]; exceptions are an explicit result type. *)

From Stdlib Require Import ZArith List String Ascii Bool Lia Permutation Sorted.
From Stdlib Require Import Floats.SpecFloat.
From stdpp Require Import gmap strings list fin_maps sets.

Local Open Scope string_scope.
Local Open Scope Z_scope.

(** ** Python exceptions and results *)

Inductive exn : Type :=
| ValueError (msg : string)
| OverflowError
| InvalidOperation
| StorageFault (msg : string)
| HTTPException (status_code : Z) (detail : string).

Inductive py_result (A : Type) : Type :=
| Ok (a : A)
| Raise (e : exn).
Arguments Ok {A} a.
Arguments Raise {A} e.

(** ** Decimal digit strings *)

Module PyStr.

Definition digit_char (d : Z) : ascii :=
  ascii_of_nat (48 + Z.to_nat d).

Fixpoint digits_go (fuel : nat) (n : Z) (acc : string) : string :=
  match fuel with
  | O => acc
  | S f =>
      let acc' := String (digit_char (n mod 10)) acc in
      if n <? 10 then acc' else digits_go f (n / 10) acc'
  end.

(** [str(n)] for a non-negative int. *)
Definition digits (n : Z) : string :=
  digits_go (S (Z.to_nat (Z.log2 n))) n EmptyString.

Fixpoint zeros (k : nat) : string :=
  match k with O => EmptyString | S k' => String "0" (zeros k') end.

(** The digits of [n] left-padded with zeros to at least [w] characters. *)
Definition zero_pad (w : nat) (n : Z) : string :=
  let s := digits n in
  zeros (w - String.length s) ++ s.

(** [format(n, "0wd")]: zero padding counts the sign. *)
Definition format_0d (w : nat) (n : Z) : string :=
  if n <? 0 then String "-" (zero_pad (w - 1) (- n)) else zero_pad w n.

(** [str(n)] for an int. *)
Definition str_int (n : Z) : string :=
  if n <? 0 then String "-" (digits (- n)) else digits n.

End PyStr.

(** ** Python floats (binary64) *)

Module PyFloat.

Definition prec : Z := 53.
Definition emax : Z := 1024.

Abbreviation float := spec_float.

(** An integer as an unnormalised significand with exponent 0. *)
Definition raw_of_Z (z : Z) : float :=
  match z with
  | Z0 => S754_zero false
  | Zpos p => S754_finite false p 0
  | Zneg p => S754_finite true p 0
  end.

(** The binary64 nearest (ties to even) to the rational [n / d], [d > 0]. *)
Definition of_ratio (n d : Z) : float :=
  SFdiv prec emax (raw_of_Z n) (raw_of_Z d).

(** [float(n)]. *)
Definition of_int (z : Z) : float := binary_normalize prec emax z 0 false.

Definition is_finite (x : float) : bool :=
  match x with
  | S754_zero _ | S754_finite _ _ _ => true
  | _ => false
  end.

Definition sign_bit (x : float) : bool :=
  match x with
  | S754_zero s | S754_infinity s | S754_finite s _ _ => s
  | S754_nan => false
  end.

Definition fzero : float := S754_zero false.

Definition fmul (x y : float) : float := SFmul prec emax x y.
Definition fadd (x y : float) : float := SFadd prec emax x y.
Definition fdiv (x y : float) : float := SFdiv prec emax x y.
Definition flt (x y : float) : bool := SFltb x y.
Definition fle (x y : float) : bool := SFleb x y.
Definition fgt (x y : float) : bool := SFltb y x.
Definition fge (x y : float) : bool := SFleb y x.

(** Structural equality; on the canonical floats the operations return it
    is equality of values apart from the sign of zero. *)
Definition same (x y : float) : bool :=
  match x, y with
  | S754_zero s1, S754_zero s2 => Bool.eqb s1 s2
  | S754_infinity s1, S754_infinity s2 => Bool.eqb s1 s2
  | S754_nan, S754_nan => true
  | S754_finite s1 m1 e1, S754_finite s2 m2 e2 =>
      Bool.eqb s1 s2 && Pos.eqb m1 m2 && Z.eqb e1 e2
  | _, _ => false
  end.

(** The exact value of the finite float [m * 2^e] as a fraction. *)
Definition num_den (m : positive) (e : Z) : Z * Z :=
  if 0 <=? e then (Zpos m * 2 ^ e, 1) else (Zpos m, 2 ^ (- e)).

(** [n / d] rounded to the nearest integer, ties to even ([0 <= n], [0 < d]). *)
Definition rne_div (n d : Z) : Z :=
  let q := n / d in
  let r := n mod d in
  match 2 * r ?= d with
  | Lt => q
  | Gt => q + 1
  | Eq => if Z.even q then q else q + 1
  end.

(** [|x| * 10^nd] rounded to the nearest integer, ties to even, on the exact
    binary value of [x]. *)
Definition scaled_round (nd : nat) (x : float) : Z :=
  match x with
  | S754_finite _ m e =>
      let '(n, d) := num_den m e in rne_div (n * 10 ^ Z.of_nat nd) d
  | _ => 0
  end.

(** [round(x, nd)] for [nd >= 0]: correctly rounded decimal, read back as
    the nearest float. *)
Definition py_round (nd : nat) (x : float) : float :=
  match x with
  | S754_finite s _ _ =>
      let k := scaled_round nd x in
      if k =? 0 then S754_zero s
      else of_ratio (if s then - k else k) (10 ^ Z.of_nat nd)
  | _ => x
  end.

(** [format(x, ".{nd}f")]. *)
Definition format_f (nd : nat) (x : float) : string :=
  match x with
  | S754_nan => "nan"
  | S754_infinity s => if s then "-inf" else "inf"
  | _ =>
      let k := scaled_round nd x in
      let p := 10 ^ Z.of_nat nd in
      (if sign_bit x then "-" else "") ++
      PyStr.digits (k / p) ++
      match nd with
      | O => ""
      | _ => "." ++ PyStr.zero_pad nd (k mod p)
      end
  end.

(** *** Shortest round-trip decimal ([repr(x)] / [str(x)]) *)

(** Largest [k >= 0] with [10^k * d <= n], given [d <= n]. *)
Fixpoint log10_up (fuel : nat) (n d k : Z) : Z :=
  match fuel with
  | O => k
  | S f => if 10 ^ (k + 1) * d <=? n then log10_up f n d (k + 1) else k
  end.

(** Smallest [j >= 1] with [d <= n * 10^j], given [n < d]. *)
Fixpoint log10_down (fuel : nat) (n d j : Z) : Z :=
  match fuel with
  | O => j
  | S f => if d <=? n * 10 ^ j then j else log10_down f n d (j + 1)
  end.

(** [floor (log10 (n / d))] for [0 < n], [0 < d]. *)
Definition floor_log10 (n d : Z) : Z :=
  if d <=? n then log10_up 400 n d 0 else - log10_down 400 n d 1.

(** The float read from the decimal [c * 10^sh]. *)
Definition of_decimal (s : bool) (c sh : Z) : float :=
  if c =? 0 then S754_zero s
  else
    let c' := if s then - c else c in
    if 0 <=? sh then of_ratio (c' * 10 ^ sh) 1 else of_ratio c' (10 ^ (- sh)).

(** The candidate with [nd] significant digits, if one reads back as
    [S754_finite s m e]: the closer of the two neighbours of the exact value
    (the lower one on a tie only if it is even). *)
Definition repr_candidate (s : bool) (m : positive) (e : Z) (nd : Z)
  : option (Z * Z) :=
  let '(n, d) := num_den m e in
  let sh := floor_log10 n d - nd + 1 in
  let lo := if 0 <=? sh then n / (d * 10 ^ sh) else (n * 10 ^ (- sh)) / d in
  let hi := lo + 1 in
  let x := S754_finite s m e in
  let ok_lo := same (of_decimal s lo sh) x in
  let ok_hi := same (of_decimal s hi sh) x in
  let lo_closer :=
    match 2 * n * 10 ^ Z.max (- sh) 0 ?= (2 * lo + 1) * d * 10 ^ Z.max sh 0 with
    | Lt => true
    | Eq => Z.even lo
    | Gt => false
    end in
  match ok_lo, ok_hi with
  | true, true => Some (if lo_closer then lo else hi, sh)
  | true, false => Some (lo, sh)
  | false, true => Some (hi, sh)
  | false, false => None
  end.

Fixpoint repr_search (fuel : nat) (s : bool) (m : positive) (e : Z) (nd : Z)
  : Z * Z :=
  match fuel with
  | O => (0, 0)
  | S f =>
      match repr_candidate s m e nd with
      | Some r => r
      | None => repr_search f s m e (nd + 1)
      end
  end.

(** Digits and exponent [(c, sh)] of the shortest decimal [c * 10^sh] that
    reads back as the finite non-zero float; 17 digits always suffice. *)
Definition repr_digits (s : bool) (m : positive) (e : Z) : Z * Z :=
  repr_search 17 s m e 1.

End PyFloat.

(** ** [decimal.Decimal] *)

Module PyDecimal.

Import PyFloat.

(** A finite decimal: sign, coefficient and exponent, value
    [(-1)^sign * coeff * 10^exp]. *)
Record decimal : Type := mkDecimal {
  dsign : bool;
  dcoeff : Z;
  dexp : Z
}.

(** The default context precision. *)
Definition context_prec : Z := 28.

Definition num_digits (n : Z) : Z :=
  Z.of_nat (String.length (PyStr.digits n)).

(** [Decimal(str(x))] for a finite float. [str] prints the shortest
    round-trip digits, in positional notation with at least one fractional
    digit when the decimal point falls in [(-4, 16]] and in exponent notation
    otherwise; [Decimal] keeps the digits and the exponent it reads. *)
Definition of_float_str (x : float) : py_result decimal :=
  match x with
  | S754_zero s => Ok (mkDecimal s 0 (-1))
  | S754_finite s m e =>
      let '(c, sh) := repr_digits s m e in
      let decpt := sh + num_digits c in
      if (-4 <? decpt) && (decpt <=? 16) && (0 <=? sh)
      then Ok (mkDecimal s (c * 10 ^ (sh + 1)) (-1))
      else Ok (mkDecimal s c sh)
  | _ => Raise InvalidOperation
  end.

(** [d.quantize(Decimal('0.1'), rounding=ROUND_HALF_UP)]: one fractional
    digit, a discarded part of a half or more rounds away from zero; the
    result must fit the context precision. *)
Definition quantize_tenths_half_up (d : decimal) : py_result decimal :=
  let c :=
    if -1 <=? dexp d then dcoeff d * 10 ^ (dexp d + 1)
    else
      let p := 10 ^ (-1 - dexp d) in
      let q := dcoeff d / p in
      let r := dcoeff d mod p in
      if p <=? 2 * r then q + 1 else q in
  if context_prec <? num_digits c then Raise InvalidOperation
  else Ok (mkDecimal (dsign d) c (-1)).

(** [float(d)]: the nearest float. *)
Definition to_float (d : decimal) : float :=
  of_decimal (dsign d) (dcoeff d) (dexp d).

(** Truth value of a Decimal: non-zero. *)
Definition truthy (d : decimal) : bool := negb (dcoeff d =? 0).

(** [Decimal('0.0')] and [Decimal('999.0')]. *)
Definition dec_0_0 : decimal := mkDecimal false 0 (-1).
Definition dec_999_0 : decimal := mkDecimal false 9990 (-1).

(** The value in tenths, for a decimal of exponent [-1]. *)
Definition tenths (d : decimal) : Z :=
  if dsign d then - dcoeff d else dcoeff d.

End PyDecimal.

(** ** ChangeMetric: the three percentage-change code paths *)

Module ChangeMetric.

Import PyFloat PyDecimal.

(** [((current - previous) / previous) * 100]: [int / int] is the correctly
    rounded quotient and raises when it exceeds the float range; the product
    with the int [100] is a float product. *)
Definition change_float (current previous : Z) : py_result float :=
  let q := of_ratio (current - previous) previous in
  if is_finite q then Ok (fmul q (of_int 100)) else Raise OverflowError.

(** [AnalysisService._calculate_percentage_change]. *)
Definition _calculate_percentage_change (current_value previous_value : Z)
  : py_result decimal :=
  if previous_value =? 0 then
    if current_value =? 0 then Ok dec_0_0 else Ok dec_999_0
  else
    match change_float current_value previous_value with
    | Raise e => Raise e
    | Ok change =>
        match of_float_str change with
        | Raise e => Raise e
        | Ok d => quantize_tenths_half_up d
        end
    end.

(** [AnalysisService._format_percentage_change]. *)
Definition _format_percentage_change (percentage : option decimal) : string :=
  match percentage with
  | None => "N/A"
  | Some p =>
      let value := to_float p in
      if fgt value fzero then "+" ++ format_f 1 value ++ "%"
      else if flt value fzero then format_f 1 value ++ "%"
      else "0.0%"
  end.

(** What one NewsAPI month-over-month computation yields for a company. *)
Record newsapi_change : Type := mkNewsapiChange {
  change_percentage : float;
  formatted_change : string
}.

(** The inline computation shared by
    [NewsAPIRealDataService.get_newsapi_mom_analysis] (lines 150-165) and the
    [/analysis/newsapi-mom] endpoint (lines 718-733): the unrounded
    percentage and the string formatted from it. *)
Definition newsapi_inline_change (current_mentions previous_mentions : Z)
  : py_result newsapi_change :=
  if previous_mentions =? 0 then
    if current_mentions =? 0 then Ok (mkNewsapiChange (S754_zero false) "0.0%")
    else Ok (mkNewsapiChange (of_int 999) "+999.0%")
  else
    match change_float current_mentions previous_mentions with
    | Raise e => Raise e
    | Ok cp =>
        Ok (mkNewsapiChange cp
              (if fgt cp fzero then "+" ++ format_f 1 cp ++ "%"
               else if flt cp fzero then format_f 1 cp ++ "%"
               else "0.0%"))
    end.

(** [NewsAPIRealDataService.get_newsapi_mom_analysis]: the result row
    stores [round(change_percentage, 1)] beside the string. *)
Definition newsapi_service_change (current_mentions previous_mentions : Z)
  : py_result newsapi_change :=
  match newsapi_inline_change current_mentions previous_mentions with
  | Raise e => Raise e
  | Ok r => Ok (mkNewsapiChange (py_round 1 (change_percentage r)) (formatted_change r))
  end.

(** The [/analysis/newsapi-mom] endpoint stores the percentage as computed. *)
Definition newsapi_endpoint_change (current_mentions previous_mentions : Z)
  : py_result newsapi_change :=
  newsapi_inline_change current_mentions previous_mentions.

(** The specification's value: [100 * (current - previous) / previous]
    rounded to tenths, halves away from zero, in exact arithmetic. *)
Definition exact_half_up_tenths (current previous : Z) : Z :=
  let n := 1000 * (current - previous) in
  Z.sgn n * ((2 * Z.abs n + previous) / (2 * previous)).

End ChangeMetric.

(** ** Stable sorting, as [list.sort] does *)

Module PySort.

Section Insertion.
Context {A : Type}.
(** [before x y]: [x] has to come strictly before [y]. *)
Variable before : A -> A -> bool.

(** [x] goes after every element that has to come before it and in front
    of the rest, so elements that compare equal keep their order. *)
Fixpoint insert_stable (x : A) (l : list A) : list A :=
  match l with
  | [] => [x]
  | y :: l' => if before y x then y :: insert_stable x l' else x :: y :: l'
  end.

Fixpoint sort_stable (l : list A) : list A :=
  match l with
  | [] => []
  | x :: l' => insert_stable x (sort_stable l')
  end.

End Insertion.

(** [l.sort(key=key)] on integer keys. *)
Definition sort_by_int {A : Type} (key : A -> Z) (l : list A) : list A :=
  sort_stable (fun a b => key a <? key b) l.

(** [l.sort(key=key, reverse=True)] on float keys. *)
Definition sort_by_float_desc {A : Type} (key : A -> PyFloat.float) (l : list A)
  : list A :=
  sort_stable (fun a b => PyFloat.flt (key b) (key a)) l.

End PySort.

(** ** RankAssigner and CrossSourceAggregator ([app/api/comprehensive.py]) *)

Module Comprehensive.

(** A result row of one source, as far as the ranking reads it: the company
    name and the integer-valued entries of the dict. *)
Record source_row : Type := mkRow {
  company_name : string;
  int_fields : gmap string Z
}.

(** [item.get(mentions_key, 0)]. *)
Definition get_mentions (item : source_row) (mentions_key : string) : Z :=
  default 0 (int_fields item !! mentions_key).

Record rank_info : Type := mkRankInfo {
  rank : Z;
  mentions : Z
}.

(** The inner loop of [calculate_proper_ranking]: start from 1 and count
    the rows whose mentions are higher. *)
Definition rank_loop (data : list source_row) (mentions_key : string)
    (mentions : Z) : Z :=
  fold_left
    (fun rank other_item =>
       if mentions <? get_mentions other_item mentions_key then rank + 1 else rank)
    data 1.

(** [calculate_proper_ranking]: later rows overwrite the entry of an
    earlier row with the same company name. *)
Definition calculate_proper_ranking (data : list source_row)
    (mentions_key : string) : gmap string rank_info :=
  fold_left
    (fun rank_map item =>
       let mentions := get_mentions item mentions_key in
       <[company_name item :=
           mkRankInfo (rank_loop data mentions_key mentions) mentions]> rank_map)
    data ∅.

(** An entry of the combined ranking before the final rank is attached. *)
Record scored_entry : Type := mkScored {
  s_company_name : string;
  s_gdelt_mentions : Z;
  s_gdelt_rank : Z;
  s_newsapi_mentions : Z;
  s_newsapi_rank : Z;
  s_combined_rank_score : Z
}.

Record combined_entry : Type := mkCombined {
  scored : scored_entry;
  final_rank : Z
}.

Definition ce_company_name (c : combined_entry) : string :=
  s_company_name (scored c).
Definition combined_rank_score (c : combined_entry) : Z :=
  s_combined_rank_score (scored c).

(** The set of all company names of the two sources. *)
Definition all_companies (gdelt_data newsapi_data : list source_row)
  : gset string :=
  list_to_set (map company_name gdelt_data) ∪
  list_to_set (map company_name newsapi_data).

(** The body of the loop over [all_companies]. *)
Definition score_company (gdelt_data newsapi_data : list source_row)
    (gdelt_rank_map newsapi_rank_map : gmap string rank_info)
    (name : string) : scored_entry :=
  let gdelt_info := gdelt_rank_map !! name in
  let newsapi_info := newsapi_rank_map !! name in
  let gdelt_rank :=
    match gdelt_info with
    | Some i => rank i
    | None => Z.of_nat (length gdelt_data) + 1
    end in
  let newsapi_rank :=
    match newsapi_info with
    | Some i => rank i
    | None => Z.of_nat (length newsapi_data) + 1
    end in
  mkScored name
    (match gdelt_info with Some i => mentions i | None => 0 end)
    gdelt_rank
    (match newsapi_info with Some i => mentions i | None => 0 end)
    newsapi_rank
    (gdelt_rank + newsapi_rank).

(** The loop that attaches [final_rank]: 1 plus the number of entries with
    a strictly lower score. *)
Definition final_rank_loop (ranking : list scored_entry) (score : Z) : Z :=
  fold_left
    (fun rank other_item =>
       if s_combined_rank_score other_item <? score then rank + 1 else rank)
    ranking 1.

(** [calculate_comprehensive_ranking]. The iteration order of the Python
    set is the order of [elements]. *)
Definition calculate_comprehensive_ranking
    (gdelt_data newsapi_data : list source_row) : list combined_entry :=
  let gdelt_rank_map := calculate_proper_ranking gdelt_data "current_month_mentions" in
  let newsapi_rank_map := calculate_proper_ranking newsapi_data "current_mentions" in
  let comprehensive_ranking :=
    map (score_company gdelt_data newsapi_data gdelt_rank_map newsapi_rank_map)
        (elements (all_companies gdelt_data newsapi_data)) in
  let sorted := PySort.sort_by_int s_combined_rank_score comprehensive_ranking in
  map (fun item => mkCombined item (final_rank_loop sorted (s_combined_rank_score item)))
      sorted.

(** The three keys [calculate_ranking_changes] adds to an entry. *)
Record rank_change_info : Type := mkChange {
  previous_rank : option Z;
  rank_change : option Z;
  rank_change_direction : option string
}.

(** An entry of the returned ranking: the combined entry and, when the
    comparison with the previous month was made, the three added keys. *)
Record ranking_item : Type := mkItem {
  entry : combined_entry;
  change : option rank_change_info
}.



(** The map from company name to final rank of the previous month. *)
Definition build_prev_rank_map (prev_comprehensive_ranking : list combined_entry)
  : gmap string Z :=
  fold_left (fun m item => <[ce_company_name item := final_rank item]> m)
            prev_comprehensive_ranking ∅.

(** The body of the loop over [current_ranking]. *)
Definition enhance (prev_rank_map : gmap string Z) (item : combined_entry)
  : ranking_item :=
  let current_rank := final_rank item in
  let prev_rank := prev_rank_map !! ce_company_name item in
  match prev_rank with
  | Some p =>
      let rc := p - current_rank in
      mkItem item
        (Some (mkChange prev_rank (Some rc)
                 (Some (if 0 <? rc then "up"
                        else if rc <? 0 then "down"
                        else "same"))))
  | None => mkItem item (Some (mkChange None None None))
  end.

(** The [try] block and the [except] branch of [calculate_ranking_changes],
    given the outcome of fetching the two result sets of the previous
    month. *)
Definition ranking_changes_from
    (previous_data : py_result (list source_row * list source_row))
    (current_ranking : list combined_entry) : list ranking_item :=
  match previous_data with
  | Ok (prev_gdelt_data, prev_newsapi_data) =>
      let prev_comprehensive_ranking :=
        calculate_comprehensive_ranking prev_gdelt_data prev_newsapi_data in
      let prev_rank_map := build_prev_rank_map prev_comprehensive_ranking in
      map (enhance prev_rank_map) current_ranking
  | Raise _ => map (fun item => mkItem item None) current_ranking
  end.

End Comprehensive.

(** ** Month keys: parsing and formatting *)

Module PyMonth.

(** The ASCII characters [int] strips as whitespace: tab to carriage
    return, the four separators 0x1c to 0x1f, and the space. *)
Definition is_space (c : ascii) : bool :=
  let n := nat_of_ascii c in
  ((9 <=? n)%nat && (n <=? 13)%nat) || ((28 <=? n)%nat && (n <=? 31)%nat)
  || (n =? 32)%nat.

Definition is_digit (c : ascii) : bool :=
  let n := nat_of_ascii c in (48 <=? n)%nat && (n <=? 57)%nat.

Definition digit_val (c : ascii) : Z := Z.of_nat (nat_of_ascii c) - 48.

Definition is_char (c d : ascii) : bool := (nat_of_ascii c =? nat_of_ascii d)%nat.

(** [s.split(sep)] for a one-character separator. *)
Fixpoint split_on (sep : ascii) (s : string) : list string :=
  match s with
  | EmptyString => [EmptyString]
  | String c s' =>
      if is_char c sep then EmptyString :: split_on sep s'
      else
        match split_on sep s' with
        | [] => [String c EmptyString]
        | part :: parts => String c part :: parts
        end
  end.

Fixpoint lstrip (l : list ascii) : list ascii :=
  match l with
  | c :: l' => if is_space c then lstrip l' else l
  | [] => []
  end.

Definition strip (l : list ascii) : list ascii :=
  rev (lstrip (rev (lstrip l))).

(** Decimal digits, single underscores allowed between two digits. *)
Fixpoint parse_digits (l : list ascii) (acc : Z) (after_digit : bool)
  : option Z :=
  match l with
  | [] => if after_digit then Some acc else None
  | c :: l' =>
      if is_digit c then parse_digits l' (10 * acc + digit_val c) true
      else if is_char c "_" && after_digit then parse_digits l' acc false
      else None
  end.

(** [int(s)] on an ASCII string: surrounding whitespace, an optional sign,
    decimal digits. *)
Definition py_int (s : string) : py_result Z :=
  let bad := Raise (ValueError "invalid literal for int() with base 10") in
  match strip (list_ascii_of_string s) with
  | [] => bad
  | c :: l =>
      if is_char c "-" then
        match parse_digits l 0 false with Some n => Ok (- n) | None => bad end
      else if is_char c "+" then
        match parse_digits l 0 false with Some n => Ok n | None => bad end
      else
        match parse_digits (c :: l) 0 false with Some n => Ok n | None => bad end
  end.

(** [year, month = map(int, target_month.split("-"))]: the parts are
    converted on demand while the two targets are filled, so a third part
    is a [ValueError] as well. *)
Definition parse_year_month (target_month : string) : py_result (Z * Z) :=
  match split_on "-" target_month with
  | [y; m] =>
      match py_int y with
      | Raise e => Raise e
      | Ok year =>
          match py_int m with
          | Raise e => Raise e
          | Ok month => Ok (year, month)
          end
      end
  | [] | [_] => Raise (ValueError "not enough values to unpack")
  | y :: m :: extra :: _ =>
      match py_int y with
      | Raise e => Raise e
      | Ok _ =>
          match py_int m with
          | Raise e => Raise e
          | Ok _ =>
              match py_int extra with
              | Raise e => Raise e
              | Ok _ => Raise (ValueError "too many values to unpack")
              end
          end
      end
  end.

(** [f"{year:04d}-{month:02d}"]. *)
Definition format_year_month (year month : Z) : string :=
  PyStr.format_0d 4 year ++ "-" ++ PyStr.format_0d 2 month.

(** The month before, with the year rolling over in January. *)
Definition previous_month_of (year month : Z) : string :=
  if month =? 1 then format_year_month (year - 1) 12
  else format_year_month year (month - 1).

(** The month directive of [strptime]: [1[0-2]|0[1-9]|[1-9]], first
    alternative that matches. *)
Definition match_month (l : list ascii) : option (Z * list ascii) :=
  let one_digit :=
    match l with
    | c :: r =>
        if is_digit c && negb (is_char c "0") then Some (digit_val c, r)
        else None
    | [] => None
    end in
  match l with
  | c :: d :: r =>
      if is_char c "1" && is_digit d && (digit_val d <=? 2)
      then Some (10 + digit_val d, r)
      else if is_char c "0" && is_digit d && negb (is_char d "0")
      then Some (digit_val d, r)
      else one_digit
  | _ => one_digit
  end.

(** [datetime.strptime(month, "%Y-%m")] on an ASCII string: four digits, a
    hyphen, a month from 1 to 12, nothing left over, and a year that
    [datetime] accepts. *)
Definition strptime_Y_m (month : string) : py_result (Z * Z) :=
  let no_match := Raise (ValueError "time data does not match format '%Y-%m'") in
  match list_ascii_of_string month with
  | y1 :: y2 :: y3 :: y4 :: dash :: rest =>
      if is_digit y1 && is_digit y2 && is_digit y3 && is_digit y4
         && is_char dash "-"
      then
        match match_month rest with
        | Some (m, []) =>
            let year :=
              1000 * digit_val y1 + 100 * digit_val y2
              + 10 * digit_val y3 + digit_val y4 in
            if year =? 0 then Raise (ValueError "year 0 is out of range")
            else Ok (year, m)
        | Some (_, _ :: _) => Raise (ValueError "unconverted data remains")
        | None => no_match
        end
      else no_match
  | _ => no_match
  end.

End PyMonth.

(** ** Storage: tables, operations, faults and the log of operations *)

Module Storage.

Import PyFloat PyDecimal.

Record Company : Type := mkCompany {
  company_id : Z;
  cleaned_name : string;
  status : string
}.

Record MonthlyMention : Type := mkMention {
  mm_company_id : Z;
  year_month : string;
  mention_count : Z;
  data_source : string
}.

(** A row of [monthly_yoy_analysis] or of [monthly_mom_analysis]; the two
    tables differ in the name of the previous-period column only. *)
Record MonthlyAnalysis : Type := mkAnalysis {
  a_id : Z;
  a_company_id : Z;
  analysis_month : string;
  current_month_mentions : Z;
  previous_mentions : Z;
  monthly_change_percentage : option decimal;
  a_status : string
}.

Record HeatIndex : Type := mkHeat {
  h_company_id : Z;
  h_year_month : string;
  heat_index : float;
  avg_volume_percent : float;
  peak_volume_percent : float
}.

Record database : Type := mkDatabase {
  companies : list Company;
  monthly_mentions : list MonthlyMention;
  monthly_yoy_analysis : list MonthlyAnalysis;
  monthly_mom_analysis : list MonthlyAnalysis;
  heat_indices : list HeatIndex
}.

Inductive analysis_table : Type := YoY | MoM.

(** The operations the engine sends to the store. *)
Inductive db_op : Type :=
| SelectActiveCompanies (company_ids : option (list Z))
| SelectMention (company : Z) (month : string) (sources : list string)
| SelectAnalysis (t : analysis_table) (company : Z) (month : string)
| SelectAnalysesOfMonth (t : analysis_table) (month : string)
    (company_ids : option (list Z)) (active_only : bool)
| SelectHeat (company : Z) (month : string)
| UpsertAnalysis (t : analysis_table) (company : Z) (month : string).

(** A session: the data, which operations fault, and the operations sent
    so far (most recent first). *)
Record session : Type := mkSession {
  data : database;
  faulty : db_op -> bool;
  log : list db_op
}.

(** A computation that talks to the store. *)
Definition M (A : Type) : Type := session -> py_result A * session.

#[export] Instance M_ret : MRet M := fun A a s => (Ok a, s).
#[export] Instance M_bind : MBind M := fun A B f m s =>
  match m s with
  | (Ok a, s') => f a s'
  | (Raise e, s') => (Raise e, s')
  end.

Definition raise {A : Type} (e : exn) : M A := fun s => (Raise e, s).

Definition lift {A : Type} (r : py_result A) : M A := fun s => (r, s).

(** [try: body except Exception as e: handler e]. *)
Definition try_except {A : Type} (body : M A) (handler : exn -> M A) : M A :=
  fun s =>
    match body s with
    | (Ok a, s') => (Ok a, s')
    | (Raise e, s') => handler e s'
    end.

(** Send one operation: it is logged, then faults or runs on the data. *)
Definition perform {A : Type} (op : db_op) (run : database -> A * database)
  : M A :=
  fun s =>
    let s' := mkSession (data s) (faulty s) (op :: log s) in
    if faulty s op then (Raise (StorageFault "storage operation failed"), s')
    else
      let '(a, d) := run (data s) in
      (Ok a, mkSession d (faulty s) (op :: log s)).

Definition str_eqb (a b : string) : bool := bool_decide (a = b).

Definition truthy_ids (company_ids : option (list Z)) : option (list Z) :=
  match company_ids with
  | Some (i :: l) => Some (i :: l)
  | _ => None
  end.

Definition id_in (ids : list Z) (i : Z) : bool := existsb (Z.eqb i) ids.

(** [query(Company).filter(Company.id.in_(ids), status == "active").all()],
    without the id filter when [company_ids] is empty or [None]. *)
Definition active_companies (company_ids : option (list Z)) : M (list Company) :=
  perform (SelectActiveCompanies company_ids)
    (fun d =>
       (filter (fun c =>
                  str_eqb (status c) "active" &&
                  match truthy_ids company_ids with
                  | Some ids => id_in ids (company_id c)
                  | None => true
                  end) (companies d), d)).

(** The first mention row of the company and month whose source is one of
    [sources] (any source when [sources] is empty). *)
Definition find_mention (d : database) (company : Z) (month : string)
    (sources : list string) : option MonthlyMention :=
  List.find (fun r =>
               (mm_company_id r =? company) && str_eqb (year_month r) month &&
               match sources with
               | [] => true
               | _ => existsb (str_eqb (data_source r)) sources
               end) (monthly_mentions d).

(** [query(MonthlyMention).filter(company, month, source in sources).first()]. *)
Definition first_mention (company : Z) (month : string) (sources : list string)
  : M (option MonthlyMention) :=
  perform (SelectMention company month sources)
    (fun d => (find_mention d company month sources, d)).

Definition analysis_rows (t : analysis_table) (d : database)
  : list MonthlyAnalysis :=
  match t with
  | YoY => monthly_yoy_analysis d
  | MoM => monthly_mom_analysis d
  end.

Definition set_analysis_rows (t : analysis_table) (rows : list MonthlyAnalysis)
    (d : database) : database :=
  match t with
  | YoY => mkDatabase (companies d) (monthly_mentions d) rows
             (monthly_mom_analysis d) (heat_indices d)
  | MoM => mkDatabase (companies d) (monthly_mentions d)
             (monthly_yoy_analysis d) rows (heat_indices d)
  end.

Definition first_analysis (t : analysis_table) (company : Z) (month : string)
  : M (option MonthlyAnalysis) :=
  perform (SelectAnalysis t company month)
    (fun d =>
       (List.find (fun r => (a_company_id r =? company)
                       && str_eqb (analysis_month r) month)
             (analysis_rows t d), d)).

Definition company_of (d : database) (cid : Z) : option Company :=
  List.find (fun c => company_id c =? cid) (companies d).

(** [query(T).join(Company).filter(T.analysis_month == month, ...).all()]:
    each row with its company. The operation stands for the query and for
    the look-ups of [analysis.company] that follow it row by row, so the
    log does not count the statements the engine sends for it. *)
Definition analyses_of_month (t : analysis_table) (month : string)
    (company_ids : option (list Z)) (active_only : bool)
  : M (list (MonthlyAnalysis * Company)) :=
  perform (SelectAnalysesOfMonth t month company_ids active_only)
    (fun d =>
       (omap (fun r =>
                match company_of d (a_company_id r) with
                | Some c =>
                    if str_eqb (analysis_month r) month
                       && (negb active_only || str_eqb (status c) "active")
                       && match truthy_ids company_ids with
                          | Some ids => id_in ids (a_company_id r)
                          | None => true
                          end
                    then Some (r, c) else None
                | None => None
                end) (analysis_rows t d), d)).

Definition first_heat (company : Z) (month : string) : M (option HeatIndex) :=
  perform (SelectHeat company month)
    (fun d =>
       (List.find (fun r => (h_company_id r =? company)
                       && str_eqb (h_year_month r) month)
             (heat_indices d), d)).

Definition next_id (rows : list MonthlyAnalysis) : Z :=
  1 + fold_right Z.max 0 (map a_id rows).

(** Update the existing row of (company, month) or add a new one, then
    commit. *)
Definition upsert_analysis (t : analysis_table) (company : Z) (month : string)
    (existing : option MonthlyAnalysis)
    (current previous : Z) (pct : decimal) : M unit :=
  perform (UpsertAnalysis t company month)
    (fun d =>
       let rows := analysis_rows t d in
       let rows' :=
         match existing with
         | Some old =>
             map (fun r =>
                    if a_id r =? a_id old
                    then mkAnalysis (a_id r) (a_company_id r) (analysis_month r)
                           current previous (Some pct) "success"
                    else r) rows
         | None =>
             (rows ++ [mkAnalysis (next_id rows) company month
                         current previous (Some pct) "success"])%list
         end in
       (tt, set_analysis_rows t rows' d)).

Definition is_write (op : db_op) : bool :=
  match op with
  | UpsertAnalysis _ _ _ => true
  | _ => false
  end.

(** A flush that failed leaves the session refusing all further work
    until it is rolled back, and the engine never rolls back. The fault
    setting is fixed, so the session is in that state when its log holds a
    write that faults. *)
Definition pending_rollback (s : session) : bool :=
  existsb (fun op => is_write op && faulty s op) (log s).

(** Reading a column of a loaded row ([company.cleaned_name]): after a
    flush that failed the row is expired, and the refresh raises
    [PendingRollbackError]. *)
Definition read_attribute {A : Type} (a : A) : M A :=
  fun s =>
    if pending_rollback s then (Raise (StorageFault "PendingRollbackError"), s)
    else (Ok a, s).

(** A session in which nothing has been sent to the store yet. *)
Definition fresh (d : database) (f : db_op -> bool) : session :=
  mkSession d f [].

End Storage.

(** ** HeatIndexReducer ([gdelt_service.py], [models/heat_index.py]) *)

Module HeatIndexReducer.

Import PyFloat.

(** A parsed JSON value. An object is its list of members; a key that
    occurs twice has the value of its last occurrence. *)
#[local] Set Warnings "-register-all".
Inductive json : Type :=
| JNull
| JBool (b : bool)
| JInt (n : Z)
| JFloat (x : float)
| JStr (s : string)
| JList (items : list json)
| JDict (members : list (string * json)).

(** [d.get(key)] on the members of an object. *)
Fixpoint dict_get (members : list (string * json)) (key : string)
  : option json :=
  match members with
  | [] => None
  | (k, v) :: rest =>
      match dict_get rest key with
      | Some v' => Some v'
      | None => if Storage.str_eqb k key then Some v else None
      end
  end.

(** What a [for] loop over the value visits: the items of a list, and
    strings (never objects) for an object or a string; [None] when the
    value is not iterable. *)
Definition iterate (v : json) : option (list json) :=
  match v with
  | JList items => Some items
  | JDict members => Some (map (fun kv => JStr (fst kv)) members)
  | JStr s => Some (map (fun c => JStr (String c EmptyString)) (list_ascii_of_string s))
  | _ => None
  end.

(** The float a data point contributes, if it is an object whose ["value"]
    is a number ([bool] counts as [int]); [Raise] when [float] overflows. *)
Definition point_value (point : json) : py_result (option float) :=
  match point with
  | JDict members =>
      match dict_get members "value" with
      | Some (JFloat x) => Ok (Some x)
      | Some (JInt n) =>
          let x := of_int n in
          if is_finite x then Ok (Some x) else Raise OverflowError
      | Some (JBool b) => Ok (Some (of_int (if b then 1 else 0)))
      | _ => Ok None
      end
  | _ => Ok None
  end.

Fixpoint points_values (points : list json) (acc : list float)
  : py_result (list float) :=
  match points with
  | [] => Ok acc
  | p :: rest =>
      match point_value p with
      | Raise e => Raise e
      | Ok (Some x) => points_values rest (acc ++ [x])%list
      | Ok None => points_values rest acc
      end
  end.

(** The two nested loops that fill [volume_values]. *)
Fixpoint collect_volume_values (timeline : list json) (acc : list float)
  : py_result (list float) :=
  match timeline with
  | [] => Ok acc
  | JDict members :: rest =>
      match dict_get members "data" with
      | Some data_points =>
          match iterate data_points with
          | None => Raise (ValueError "object is not iterable")
          | Some points =>
              match points_values points acc with
              | Raise e => Raise e
              | Ok acc' => collect_volume_values rest acc'
              end
          end
      | None => collect_volume_values rest acc
      end
  | _ :: rest => collect_volume_values rest acc
  end.

(** [sum(volume_values)]: float additions from left to right, starting at
    zero (interpreters from 3.12 on add a compensation term, which can
    change the last bit of the sum). *)
Definition py_sum (values : list float) : float :=
  fold_left fadd values fzero.

(** [sum(volume_values) / len(volume_values)]. *)
Definition mean (values : list float) : float :=
  fdiv (py_sum values) (of_int (Z.of_nat (length values))).

(** The value computed from the collected samples: [0.0] for none, else
    the mean rounded to six decimals. *)
Definition timelinevol_of_values (volume_values : list float) : float :=
  match volume_values with
  | [] => fzero
  | _ => py_round 6 (mean volume_values)
  end.

Record heat_response : Type := mkHeatResponse {
  success : bool;
  timelinevol_value : float;
  data_points_count : option Z
}.

(** [GDELTAPIService._process_heat_index_response] on the parsed response
    ([None] or an object). *)
Definition _process_heat_index_response (data : option (list (string * json)))
  : heat_response :=
  match data with
  | None | Some [] => mkHeatResponse true fzero None
  | Some members =>
      match dict_get members "timeline" with
      | None => mkHeatResponse true fzero None
      | Some timeline =>
          match iterate timeline with
          | None => mkHeatResponse false fzero None
          | Some items =>
              match collect_volume_values items [] with
              | Raise _ => mkHeatResponse false fzero None
              | Ok [] => mkHeatResponse true fzero None
              | Ok volume_values =>
                  mkHeatResponse true (timelinevol_of_values volume_values)
                    (Some (Z.of_nat (length volume_values)))
              end
          end
      end
  end.

(** The float literals of the ladder. *)
Definition f_1_0 : float := of_ratio 1 1.
Definition f_0_5 : float := of_ratio 5 10.
Definition f_0_2 : float := of_ratio 2 10.
Definition f_0_1 : float := of_ratio 1 10.

(** [HeatIndex.heat_level]. *)
Definition heat_level (heat_index : float) : string :=
  if fge heat_index f_1_0 then "极热"
  else if fge heat_index f_0_5 then "很热"
  else if fge heat_index f_0_2 then "较热"
  else if fge heat_index f_0_1 then "温热"
  else if fgt heat_index fzero then "微热"
  else "冷门".

(** The reducer: the heat index stored for the samples and its level. *)
Definition compute_heat (volume_values : list float) : float * string :=
  let heat_index := timelinevol_of_values volume_values in
  (heat_index, heat_level heat_index).

End HeatIndexReducer.

(** ** PeriodAnalyzer: the per-source analyses *)

Module PeriodAnalyzer.

Import PyFloat PyDecimal ChangeMetric Storage PyMonth.

(** One entry of a result list: a computed row, or the row recorded when
    the computation for the company raised. *)
Inductive company_result : Type :=
| ResultRow (company_id : Z) (company_name : string) (analysis_month : string)
    (current_mentions previous_mentions : Z)
    (change_percentage : option float) (formatted_change : string)
    (status : string)
| FailedRow (company_id : Z) (company_name : string) (error : exn).

Definition result_status (r : company_result) : string :=
  match r with
  | ResultRow _ _ _ _ _ _ _ st => st
  | FailedRow _ _ _ => "failed"
  end.

Record analysis_summary : Type := mkSummary {
  target_month : string;
  previous_month : string;
  total_companies : Z;
  successful_analyses : Z;
  failed_analyses : Z;
  results : list company_result
}.

(** [x.mention_count if x else 0]. *)
Definition count_or_0 (row : option MonthlyMention) : Z :=
  match row with
  | Some r => mention_count r
  | None => 0
  end.

(** [AnalysisService._calculate_company_yoy]. *)
Definition _calculate_company_yoy (company : Company)
    (target_month previous_month : string) : M company_result :=
  current_data ← first_mention (company_id company) target_month [];
  previous_data ← first_mention (company_id company) previous_month [];
  let current_mentions := count_or_0 current_data in
  let previous_mentions := count_or_0 previous_data in
  change_percentage ←
    lift (_calculate_percentage_change current_mentions previous_mentions);
  existing_analysis ← first_analysis YoY (company_id company) target_month;
  _ ← upsert_analysis YoY (company_id company) target_month existing_analysis
        current_mentions previous_mentions change_percentage;
  mret (ResultRow (company_id company) (cleaned_name company) target_month
          current_mentions previous_mentions
          (if truthy change_percentage then Some (to_float change_percentage)
           else None)
          (_format_percentage_change (Some change_percentage))
          "success").

(** A [for] loop over [items] that threads an accumulator. *)
Fixpoint for_each {A B : Type} (items : list A) (body : B -> A -> M B) (acc : B)
  : M B :=
  match items with
  | [] => mret acc
  | x :: rest => acc' ← body acc x; for_each rest body acc'
  end.

(** The counters and the result list a loop over the companies fills. *)
Definition tally : Type := list company_result * Z * Z.

Definition record_result (acc : tally) (r : company_result) : tally :=
  let '(results, successful, failed) := acc in
  if str_eqb (result_status r) "success"
  then ((results ++ [r])%list, successful + 1, failed)
  else ((results ++ [r])%list, successful, failed + 1).

Definition bad_month : exn := ValueError "月份格式错误，应为YYYY-MM".

(** [target_month] when given and not empty, else the current month. *)
Definition month_or_now (now : Z * Z) (target_month : option string) : string :=
  match target_month with
  | Some (String c s) => String c s
  | _ => format_year_month (fst now) (snd now)
  end.

(** [AnalysisService.calculate_monthly_yoy_analysis]; [now] is the year
    and month of the clock. The handler of the loop reads
    [company.cleaned_name] first: when the commit of the company failed
    that read raises, and the exception leaves the loop. *)
Definition calculate_monthly_yoy_analysis (now : Z * Z)
    (target_month : option string) (company_ids : option (list Z))
  : M analysis_summary :=
  let target_month := month_or_now now target_month in
  match parse_year_month target_month with
  | Raise _ => raise bad_month
  | Ok (target_year, target_month_num) =>
      let previous_year := target_year - 1 in
      let previous_month := format_year_month previous_year target_month_num in
      companies ← active_companies company_ids;
      acc ← for_each companies
              (fun acc company =>
                 try_except
                   (result ← _calculate_company_yoy company target_month
                               previous_month;
                    mret (record_result acc result))
                   (fun e =>
                      company_name ← read_attribute (cleaned_name company);
                      let '(results, successful, failed) := acc in
                      mret ((results ++ [FailedRow (company_id company)
                                           company_name e])%list,
                            successful, failed + 1)))
              ([], 0, 0);
      let '(results, successful_count, failed_count) := acc in
      mret (mkSummary target_month previous_month
              (Z.of_nat (length companies)) successful_count failed_count
              results)
  end.

(** A row of the NewsAPI month-over-month analysis. *)
Record newsapi_row : Type := mkNewsapiRow {
  n_company_id : Z;
  n_company_name : string;
  n_current_month : string;
  n_previous_month : string;
  n_current_mentions : Z;
  n_previous_mentions : Z;
  n_change_percentage : float;
  n_formatted_change : string;
  n_status : string
}.

Record newsapi_analysis : Type := mkNewsapiAnalysis {
  na_target_month : string;
  na_previous_month : string;
  na_total_companies : Z;
  na_results : list newsapi_row
}.

(** The loop body of [NewsAPIRealDataService.get_newsapi_mom_analysis]. *)
Definition newsapi_company_row (company : Company)
    (target_month previous_month : string) : M newsapi_row :=
  current_data ← first_mention (company_id company) target_month ["newsapi"];
  previous_data ← first_mention (company_id company) previous_month ["newsapi"];
  let current_mentions := count_or_0 current_data in
  let previous_mentions := count_or_0 previous_data in
  ch ← lift (newsapi_service_change current_mentions previous_mentions);
  mret (mkNewsapiRow (company_id company) (cleaned_name company)
          target_month previous_month current_mentions previous_mentions
          (ChangeMetric.change_percentage ch) (ChangeMetric.formatted_change ch)
          (match current_data, previous_data with
           | None, None => "no_data"
           | _, _ => "success"
           end)).

(** [NewsAPIRealDataService.get_newsapi_mom_analysis]. *)
Definition get_newsapi_mom_analysis (target_month : string)
  : M newsapi_analysis :=
  '(year, month) ← lift (parse_year_month target_month);
  let previous_month := previous_month_of year month in
  companies ← active_companies None;
  results ← for_each companies
              (fun results company =>
                 row ← newsapi_company_row company target_month previous_month;
                 mret (results ++ [row])%list)
              [];
  let results := PySort.sort_by_float_desc n_change_percentage results in
  mret (mkNewsapiAnalysis target_month previous_month
          (Z.of_nat (length results)) results).

(** The loop body of the [/analysis/newsapi-mom] endpoint. *)
Definition endpoint_company_row (company : Company)
    (target_month previous_month : string) : M company_result :=
  current_data ← first_mention (company_id company) target_month ["newsapi"];
  previous_data ← first_mention (company_id company) previous_month ["newsapi"];
  let current_mentions := count_or_0 current_data in
  let previous_mentions := count_or_0 previous_data in
  ch ← lift (newsapi_endpoint_change current_mentions previous_mentions);
  mret (ResultRow (company_id company) (cleaned_name company) target_month
          current_mentions previous_mentions
          (Some (ChangeMetric.change_percentage ch))
          (ChangeMetric.formatted_change ch) "success").

(** The [/analysis/newsapi-mom] endpoint of [app/api/analysis.py]. *)
Definition newsapi_mom_endpoint (target_month : string)
    (company_ids : option (list Z)) : M analysis_summary :=
  match parse_year_month target_month with
  | Raise _ => raise (HTTPException 400 "月份格式错误，应为YYYY-MM")
  | Ok (target_year, target_month_num) =>
      let previous_month := previous_month_of target_year target_month_num in
      companies ← active_companies company_ids;
      acc ← for_each companies
              (fun acc company =>
                 try_except
                   (result ← endpoint_company_row company target_month
                               previous_month;
                    let '(results, successful, failed) := acc in
                    mret ((results ++ [result])%list, successful + 1, failed))
                   (fun e =>
                      let '(results, successful, failed) := acc in
                      mret ((results ++ [FailedRow (company_id company)
                                           (cleaned_name company) e])%list,
                            successful, failed + 1)))
              ([], 0, 0);
      let '(results, successful_count, failed_count) := acc in
      mret (mkSummary target_month previous_month
              (Z.of_nat (length companies)) successful_count failed_count
              results)
  end.

(** *** Reading stored analyses back *)

(** [MonthlyYoYAnalysis.formatted_change] and
    [MonthlyMoMAnalysis.formatted_change]. *)
Definition model_formatted_change (pct : option decimal) : string :=
  match pct with
  | None => "N/A"
  | Some d =>
      let percentage := to_float d in
      if fgt percentage fzero then "+" ++ format_f 1 percentage ++ "%"
      else if flt percentage fzero then format_f 1 percentage ++ "%"
      else "0.0%"
  end.

(** A result built from a stored row and its company. *)
Record stored_result : Type := mkStored {
  sr_id : Z;
  sr_company_id : Z;
  sr_company_name : string;
  sr_analysis_month : string;
  sr_current_month_mentions : Z;
  sr_previous_mentions : Z;
  sr_monthly_change_percentage : option decimal;
  sr_status : string;
  sr_formatted_change : string
}.

Record stored_summary : Type := mkStoredSummary {
  ss_results : list stored_result;
  ss_total_companies : Z;
  ss_successful_analyses : Z;
  ss_failed_analyses : Z
}.

Definition stored_of (rc : MonthlyAnalysis * Company) : stored_result :=
  let '(a, c) := rc in
  mkStored (a_id a) (a_company_id a) (cleaned_name c) (analysis_month a)
    (current_month_mentions a) (previous_mentions a)
    (monthly_change_percentage a) (a_status a)
    (model_formatted_change (monthly_change_percentage a)).

(** The sort key [float(x.monthly_change_percentage or 0)]: a missing
    percentage and a zero one both give [float(0)]. *)
Definition sort_key (x : stored_result) : float :=
  match sr_monthly_change_percentage x with
  | Some d => if truthy d then to_float d else of_int 0
  | None => of_int 0
  end.

Definition count_status (results : list stored_result) : Z * Z :=
  fold_left
    (fun acc r =>
       if str_eqb (sr_status r) "success" then (fst acc + 1, snd acc)
       else (fst acc, snd acc + 1))
    results (0, 0).

(** The shared body of [get_monthly_yoy_results] and
    [get_monthly_mom_results]. *)
Definition get_monthly_results (t : analysis_table) (month : string)
    (company_ids : option (list Z)) : M stored_summary :=
  analyses ← analyses_of_month t month company_ids false;
  let results := map stored_of analyses in
  let '(successful_count, failed_count) := count_status results in
  let results := PySort.sort_by_float_desc sort_key results in
  mret (mkStoredSummary results (Z.of_nat (length results))
          successful_count failed_count).

(** [AnalysisService.get_monthly_yoy_results]. *)
Definition get_monthly_yoy_results := get_monthly_results YoY.

(** [AnalysisService.get_monthly_mom_results]. *)
Definition get_monthly_mom_results := get_monthly_results MoM.

(** A row of the [/analysis/monthly-mom] response. *)
Record enhanced_result : Type := mkEnhanced {
  base : stored_result;
  e_heat_index : option float;
  e_heat_level : string;
  e_avg_volume_percent : float;
  e_peak_volume_percent : float
}.

Definition enhance_with_heat (month : string) (item : stored_result)
  : M enhanced_result :=
  heat_record ← first_heat (sr_company_id item) month;
  mret (match heat_record with
        | Some h =>
            mkEnhanced item (Some (heat_index h))
              (HeatIndexReducer.heat_level (heat_index h))
              (avg_volume_percent h) (peak_volume_percent h)
        | None => mkEnhanced item None "冷门" fzero fzero
        end).

Fixpoint fallback_rows (i : Z) (month : string) (companies : list Company)
  : list stored_result :=
  match companies with
  | [] => []
  | c :: rest =>
      mkStored (i + 1) (company_id c) (cleaned_name c) month 0 0
        (Some dec_0_0) "no_data" "N/A" :: fallback_rows (i + 1) month rest
  end.

(** The [/analysis/monthly-mom] endpoint of [app/api/analysis.py]. *)
Definition get_monthly_mom_analysis (now : Z * Z) (month : option string)
    (company_ids : option (list Z)) : M (list enhanced_result * stored_summary) :=
  let month := month_or_now now month in
  match strptime_Y_m month with
  | Raise _ => raise (HTTPException 400 "月份格式错误，应为YYYY-MM")
  | Ok _ =>
      result ← try_except (get_monthly_mom_results month company_ids)
                 (fun _ =>
                    companies ← active_companies company_ids;
                    mret (mkStoredSummary (fallback_rows 0 month companies)
                            (Z.of_nat (length companies)) 0
                            (Z.of_nat (length companies))));
      enhanced_results ← for_each (ss_results result)
                           (fun acc item =>
                              e ← enhance_with_heat month item;
                              mret (acc ++ [e])%list)
                           [];
      mret (enhanced_results, result)
  end.

End PeriodAnalyzer.

(** ** The combined-ranking endpoint ([app/api/comprehensive.py]) *)

Module ComprehensiveApi.

Import Storage PeriodAnalyzer Comprehensive PyMonth.

(** A row of [get_gdelt_ranking_data]. *)
Definition gdelt_row (cid : Z) (name : string) (mentions : Z) : source_row :=
  mkRow name (<["company_id" := cid]> {["current_month_mentions" := mentions]}).

(** A NewsAPI analysis row as the ranking reads it. *)
Definition newsapi_source_row (r : newsapi_row) : source_row :=
  mkRow (n_company_name r)
    (<["company_id" := n_company_id r]>
       (<["current_mentions" := n_current_mentions r]>
          {["previous_mentions" := n_previous_mentions r]})).

(** [results.sort(key=lambda x: x["current_month_mentions"], reverse=True)]. *)
Definition sort_by_mentions_desc (rows : list source_row) : list source_row :=
  PySort.sort_stable
    (fun a b => get_mentions b "current_month_mentions"
                <? get_mentions a "current_month_mentions") rows.

(** [get_gdelt_ranking_data_fallback]: a company whose lookup fails is
    skipped. *)
Definition get_gdelt_ranking_data_fallback (target_month : string)
  : M (list source_row) :=
  companies ← active_companies None;
  results ← for_each companies
              (fun results company =>
                 try_except
                   (current_data ← first_mention (company_id company)
                                     target_month ["gdelt_doc"; "gdelt_event"];
                    mret (results ++ [gdelt_row (company_id company)
                                        (cleaned_name company)
                                        (count_or_0 current_data)])%list)
                   (fun _ => mret results))
              [];
  mret (sort_by_mentions_desc results).

(** [get_gdelt_ranking_data]: the stored month-over-month rows of active
    companies, or the fallback when reading them fails. *)
Definition get_gdelt_ranking_data (target_month : string)
  : M (list source_row) :=
  try_except
    (mom_analyses ← analyses_of_month MoM target_month None true;
     mret (sort_by_mentions_desc
             (map (fun rc => gdelt_row (a_company_id (fst rc))
                               (cleaned_name (snd rc))
                               (current_month_mentions (fst rc)))
                  mom_analyses)))
    (fun _ => get_gdelt_ranking_data_fallback target_month).

(** The two result sets for a month. *)
Definition fetch_sources (month : string)
  : M (list source_row * list source_row) :=
  gdelt_data ← get_gdelt_ranking_data month;
  newsapi_result ← get_newsapi_mom_analysis month;
  mret (gdelt_data, map newsapi_source_row (na_results newsapi_result)).

(** Run a computation and hand back its outcome instead of raising. *)
Definition attempt {A : Type} (m : M A) : M (py_result A) :=
  fun s => let '(r, s') := m s in (Ok r, s').

(** [calculate_ranking_changes]. *)
Definition calculate_ranking_changes (target_month : string)
    (current_ranking : list combined_entry) : M (list ranking_item) :=
  '(year, month) ← lift (parse_year_month target_month);
  let previous_month := previous_month_of year month in
  previous_data ← attempt (fetch_sources previous_month);
  mret (ranking_changes_from previous_data current_ranking).

Record ranking_response : Type := mkResponse {
  r_target_month : string;
  r_total_companies : Z;
  r_results : list ranking_item
}.

(** The [/comprehensive/ranking] endpoint. *)
Definition get_comprehensive_ranking (target_month : string)
  : M ranking_response :=
  try_except
    ('(gdelt_data, newsapi_data) ← fetch_sources target_month;
     let comprehensive_ranking :=
       calculate_comprehensive_ranking gdelt_data newsapi_data in
     ranking_with_changes ←
       calculate_ranking_changes target_month comprehensive_ranking;
     mret (mkResponse target_month (Z.of_nat (length ranking_with_changes))
             ranking_with_changes))
    (fun _ => raise (HTTPException 500 "获取综合排名失败")).

End ComprehensiveApi.

(** ** Specification-level notions and example data *)

Module Spec.

Import Comprehensive.

(** The specification's competition rank: 1 plus the number of metrics
    strictly greater than [v]. *)
Definition spec_competition_rank (metrics : list Z) (v : Z) : Z :=
  1 + Z.of_nat (length (filter (fun o => v < o) metrics)).

(** The same rule on scores, where lower is better: 1 plus the number of
    scores strictly lower than [v]. *)
Definition spec_lowest_first_rank (scores : list Z) (v : Z) : Z :=
  1 + Z.of_nat (length (filter (fun o => o < v) scores)).

(** The last row of [data] that carries the name. *)
Fixpoint last_row_named (data : list source_row) (name : string)
  : option source_row :=
  match data with
  | [] => None
  | r :: rest =>
      match last_row_named rest name with
      | Some r' => Some r'
      | None => if bool_decide (company_name r = name) then Some r else None
      end
  end.

Definition demo_gdelt : list source_row :=
  [mkRow "A" {["current_month_mentions" := 50]};
   mkRow "B" {["current_month_mentions" := 50]};
   mkRow "C" {["current_month_mentions" := 30]}].

Definition demo_newsapi : list source_row :=
  [mkRow "A" {["current_mentions" := 5]};
   mkRow "D" {["current_mentions" := 7]};
   mkRow "A" {["current_mentions" := 9]}].

Definition demo_entry_A : combined_entry :=
  mkCombined (mkScored "A" 50 1 9 1 2) 1.


(** Source A with five rows, led by "X"; source B with five rows, none of
    them "X". *)
Definition five_gdelt : list source_row :=
  [mkRow "X" {["current_month_mentions" := 90]};
   mkRow "P" {["current_month_mentions" := 40]};
   mkRow "Q" {["current_month_mentions" := 30]};
   mkRow "R" {["current_month_mentions" := 20]};
   mkRow "S" {["current_month_mentions" := 10]}].

Definition five_newsapi : list source_row :=
  [mkRow "P" {["current_mentions" := 5]};
   mkRow "Q" {["current_mentions" := 4]};
   mkRow "R" {["current_mentions" := 3]};
   mkRow "S" {["current_mentions" := 2]};
   mkRow "T" {["current_mentions" := 1]}].

Definition five_entry_X : combined_entry :=
  mkCombined (mkScored "X" 90 1 0 6 7) 3.

End Spec.

(** ** The order of floats *)

Module FloatOrder.

Import PyFloat.

Definition not_nan (x : float) : Prop := x <> S754_nan.

(** The position of a float that is not NaN in the order of [SFcompare]. *)
Definition order_key (x : float) : Z * Z * Z :=
  match x with
  | S754_nan => (0, 0, 0)
  | S754_zero _ => (0, 0, 0)
  | S754_infinity s => (if s then -2 else 2, 0, 0)
  | S754_finite s m e => if s then (-1, - e, Zneg m) else (1, e, Zpos m)
  end.

Definition lex_lt (a b : Z * Z * Z) : Prop :=
  let '(a1, a2, a3) := a in
  let '(b1, b2, b3) := b in
  a1 < b1 \/ (a1 = b1 /\ (a2 < b2 \/ (a2 = b2 /\ a3 < b3))).

End FloatOrder.

(** ** Example databases *)

Module Demo.

Import PyDecimal Storage.

Definition no_fault : db_op -> bool := fun _ => false.

Definition dec_20_00 : decimal := mkDecimal false 2000 (-2).
Definition dec_minus_5_00 : decimal := mkDecimal true 500 (-2).

(** Three stored month-over-month rows for 2025-09: a fall of 5%, a row
    without a percentage, a rise of 20%. *)
Definition db_stored : database :=
  mkDatabase
    [mkCompany 1 "Acme" "active"; mkCompany 2 "Bolt" "active";
     mkCompany 3 "Core" "active"]
    [mkMention 1 "2025-09" 12 "newsapi"; mkMention 1 "2025-08" 10 "newsapi";
     mkMention 3 "2025-09" 3 "newsapi"]
    []
    [mkAnalysis 1 1 "2025-09" 95 100 (Some dec_minus_5_00) "success";
     mkAnalysis 2 2 "2025-09" 0 0 None "failed";
     mkAnalysis 3 3 "2025-09" 12 10 (Some dec_20_00) "success"]
    [].

End Demo.

(** Further example data. *)

Module Demo2.

Import Storage.

(** One active company and no mention rows at all. *)
Definition db_no_mentions : database :=
  mkDatabase [mkCompany 1 "Acme" "active"] [] [] [] [].


End Demo2.

(** Predicates used to state the status rules. *)

Module StatusSpec.

Import Storage PeriodAnalyzer.

(** A row whose computation completed reports "success"; a failed row
    reports the failure. *)
Definition completed_is_success (r : company_result) : Prop :=
  match r with
  | ResultRow _ _ _ _ _ _ _ st => st = "success"
  | FailedRow _ _ _ => True
  end.

(** The status rule of the NewsAPI service, against the data [d]. *)
Definition newsapi_status_rule (d : database) (row : newsapi_row) : Prop :=
  let current :=
    find_mention d (n_company_id row) (n_current_month row) ["newsapi"] in
  let previous :=
    find_mention d (n_company_id row) (n_previous_month row) ["newsapi"] in
  (n_status row = "no_data" <-> current = None /\ previous = None)
  /\ (n_status row = "success" <-> ~ (current = None /\ previous = None))
  /\ (n_status row = "no_data" ->
      n_current_mentions row = 0 /\ n_previous_mentions row = 0).

End StatusSpec.

(** ** Exact values of floats *)

Module FloatValue.

Import PyFloat.

(** The exact value of [x] is at least the fraction [n / d] ([0 < d]). *)
Definition value_ge (x : float) (n d : Z) : Prop :=
  match x with
  | S754_zero _ => n <= 0
  | S754_finite s m e =>
      let '(num, den) := num_den m e in
      n * den <= (if s then - num else num) * d
  | S754_infinity s => s = false
  | S754_nan => False
  end.

(** The exact value of [x] is positive. *)
Definition value_pos (x : float) : Prop :=
  match x with
  | S754_finite false _ _ | S754_infinity false => True
  | _ => False
  end.

(** [x] is a binary64: its significand and exponent are in canonical form. *)
Definition is_binary64 (x : float) : Prop := valid_binary prec emax x = true.

End FloatValue.

(** ** The log of a computation *)

Module LogSpec.

Import Storage.

(** Whatever the outcome, the computation only adds operations to the
    log. *)
Definition log_grows {A : Type} (m : M A) : Prop :=
  forall s, exists ops, log (snd (m s)) = (ops ++ log s)%list.

(** The log after the computation ends with [op] on top of the old log:
    [op] was the first operation sent. *)
Definition first_sends {A : Type} (m : M A) (op : db_op) : Prop :=
  forall s, exists ops, log (snd (m s)) = (ops ++ op :: log s)%list.

End LogSpec.
(** ** What a computation may do to the store *)

Module Effects.

Import Storage.

(** Every state the computation can end in holds data related by [R] to
    the data it started from. *)
Definition preserves {A : Type} (R : database -> database -> Prop) (m : M A)
  : Prop :=
  forall s, R (data s) (data (snd (m s))).

(** Every operation the computation sends satisfies [P]. *)
Definition sends_only {A : Type} (P : db_op -> Prop) (m : M A) : Prop :=
  forall s, exists ops,
    log (snd (m s)) = (ops ++ log s)%list /\ Forall P ops.


(** The computation leaves every table as it was and sends no write. *)
Definition read_only {A : Type} (m : M A) : Prop :=
  preserves eq m /\ sends_only (fun op => is_write op = false) m.

(** Only the table [t] differs. *)
Definition same_but (t : analysis_table) (d d' : database) : Prop :=
  companies d' = companies d
  /\ monthly_mentions d' = monthly_mentions d
  /\ heat_indices d' = heat_indices d
  /\ match t with
     | YoY => monthly_mom_analysis d' = monthly_mom_analysis d
     | MoM => monthly_yoy_analysis d' = monthly_yoy_analysis d
     end.

(** A read, or an upsert into table [t] for the month. *)
Definition read_or_upsert (t : analysis_table) (month : string) (op : db_op)
  : Prop :=
  match op with
  | UpsertAnalysis t' _ month' => t' = t /\ month' = month
  | _ => True
  end.

End Effects.

(** ** Notions used to state the batch properties *)

Module BatchSpec.

Import Storage PeriodAnalyzer.


(** The companies that a query for the active companies returns on [d]. *)
Definition selected_companies (d : database) (company_ids : option (list Z))
  : list Company :=
  filter (fun c =>
            str_eqb (status c) "active" &&
            match truthy_ids company_ids with
            | Some ids => id_in ids (company_id c)
            | None => true
            end) (companies d).


(** The key of a stored analysis row. *)
Definition is_row_of (company : Z) (month : string) (a : MonthlyAnalysis)
  : bool :=
  (a_company_id a =? company) && str_eqb (analysis_month a) month.

(** The rows of an analysis table after the look-up and upsert that
    [_calculate_company_yoy] makes for (company, month). *)
Definition upserted (rows : list MonthlyAnalysis) (company : Z) (month : string)
    (current previous : Z) (pct : PyDecimal.decimal) : list MonthlyAnalysis :=
  match List.find (is_row_of company month) rows with
  | Some old =>
      map (fun r =>
             if a_id r =? a_id old
             then mkAnalysis (a_id r) (a_company_id r) (analysis_month r)
                    current previous (Some pct) "success"
             else r) rows
  | None =>
      (rows ++ [mkAnalysis (next_id rows) company month
                  current previous (Some pct) "success"])%list
  end.

(** The percentage a result row shows for a stored percentage. *)
Definition shown_percentage (pct : option PyDecimal.decimal)
  : option PyFloat.float :=
  match pct with
  | Some p => if PyDecimal.truthy p then Some (PyDecimal.to_float p) else None
  | None => None
  end.


(** A row of the GDELT ranking stands for an active company of [d]. *)
Definition row_of_active (d : database) (r : Comprehensive.source_row) : Prop :=
  exists c, c ∈ companies d /\ status c = "active"
            /\ Comprehensive.company_name r = cleaned_name c
            /\ Comprehensive.int_fields r !! "company_id" = Some (company_id c).

End BatchSpec.

(** Example fault settings. *)

Module Demo3.

Import Storage.

(** Every look-up of the mentions of company 2 fails. *)
Definition fault_company_2 : db_op -> bool :=
  fun op => match op with
            | SelectMention 2 _ _ => true
            | _ => false
            end.


(** Reading the stored analyses of a month fails. *)
Definition fault_stored_analyses : db_op -> bool :=
  fun op => match op with
            | SelectAnalysesOfMonth _ _ _ _ => true
            | _ => false
            end.

End Demo3.

(** ** The sign of a float *)

Module FloatSign.

Import PyFloat.

(** [x] is a number whose sign bit is [s]. *)
Definition has_sign (s : bool) (x : float) : Prop :=
  x <> S754_nan /\ sign_bit x = s.

End FloatSign.

(** ** Checks on formatted month keys *)

Module MonthSpec.

Import PyStr PyMonth.

(** [key.isascii()]: every character is below 128. The month readers of
    the model follow Python on such keys. *)
Definition isascii (key : string) : bool :=
  forallb (fun c => (nat_of_ascii c <? 128)%nat) (list_ascii_of_string key).

(** [format(y, "04d")] is four digits that read back as [y]. *)
Definition four_digits_of (y : Z) : bool :=
  match list_ascii_of_string (format_0d 4 y) with
  | [a; b; c; d] =>
      is_digit a && is_digit b && is_digit c && is_digit d
      && (1000 * digit_val a + 100 * digit_val b + 10 * digit_val c
          + digit_val d =? y)
  | _ => false
  end.

(** [format(m, "02d")] is consumed entirely by the month directive, as [m]. *)
Definition month_digits_of (m : Z) : bool :=
  match match_month (list_ascii_of_string (format_0d 2 m)) with
  | Some (m', []) => m' =? m
  | _ => false
  end.

End MonthSpec.

(** ** The order of the heat levels *)

Module HeatSpec.

(** The six levels, from the coldest (0) to the hottest (5). *)
Definition level_order (level : string) : Z :=
  if Storage.str_eqb level "极热" then 5
  else if Storage.str_eqb level "很热" then 4
  else if Storage.str_eqb level "较热" then 3
  else if Storage.str_eqb level "温热" then 2
  else if Storage.str_eqb level "微热" then 1
  else 0.

End HeatSpec.

(** Example answers of GDELT and fault settings of the heat store. *)

Module Demo4.

Import PyFloat Storage HeatIndexReducer.

(** GDELT answers with two samples, 1.2 and 0.8, for every company but
    "Bolt", whose request fails. *)
Definition gdelt_answers (company_name timespan : string)
  : py_result (option (list (string * json))) :=
  if str_eqb company_name "Bolt" then Raise (ValueError "request failed")
  else
    Ok (Some [("timeline",
               JList [JDict [("series", JStr "Volume Intensity");
                             ("data",
                              JList [JDict [("value", JFloat (of_ratio 12 10))];
                                     JDict [("value", JFloat (of_ratio 8 10))]])]])]).

(** One heat record of 2025-09 for each of the three companies. *)
Definition db_heat : database :=
  mkDatabase
    [mkCompany 1 "Acme" "active"; mkCompany 2 "Bolt" "active";
     mkCompany 3 "Core" "active"]
    [] [] []
    [mkHeat 1 "2025-09" (of_ratio 3 10) (of_ratio 3 10) fzero;
     mkHeat 2 "2025-09" (of_ratio 15 10) (of_ratio 15 10) fzero;
     mkHeat 3 "2025-09" (of_ratio 5 100) (of_ratio 5 100) fzero;
     mkHeat 1 "2025-08" (of_ratio 9 10) (of_ratio 9 10) fzero].

End Demo4.

(** ** Calendar dates, as [datetime] computes them *)

Module PyDate.

Definition _is_leap (year : Z) : bool :=
  (year mod 4 =? 0) && (negb (year mod 100 =? 0) || (year mod 400 =? 0)).

Definition _days_before_year (year : Z) : Z :=
  let y := year - 1 in
  y * 365 + y / 4 - y / 100 + y / 400.

Definition _DAYS_IN_MONTH : list Z :=
  [-1; 31; 28; 31; 30; 31; 30; 31; 31; 30; 31; 30; 31].

Definition _DAYS_BEFORE_MONTH : list Z :=
  [-1; 0; 31; 59; 90; 120; 151; 181; 212; 243; 273; 304; 334].

Definition _days_in_month (year month : Z) : Z :=
  if (month =? 2) && _is_leap year then 29
  else nth (Z.to_nat month) _DAYS_IN_MONTH 0.

Definition _days_before_month (year month : Z) : Z :=
  nth (Z.to_nat month) _DAYS_BEFORE_MONTH 0
  + (if (2 <? month) && _is_leap year then 1 else 0).

Definition _ymd2ord (year month day : Z) : Z :=
  _days_before_year year + _days_before_month year month + day.

(** [datetime(year, month, day)]: midnight of that day, as the ordinal of
    the day (1 is 1 January of year 1). *)
Definition datetime (year month day : Z) : py_result Z :=
  if negb ((1 <=? year) && (year <=? 9999))
  then Raise (ValueError ("year " ++ PyStr.str_int year ++ " is out of range"))
  else if negb ((1 <=? month) && (month <=? 12))
  then Raise (ValueError "month must be in 1..12")
  else if negb ((1 <=? day) && (day <=? _days_in_month year month))
  then Raise (ValueError "day is out of range for month")
  else Ok (_ymd2ord year month day).

(** [d - timedelta(days=n)]. *)
Definition minus_days (d n : Z) : py_result Z :=
  if d - n <? 1 then Raise OverflowError else Ok (d - n).

(** [(end_date - start_date).days] for two midnights. *)
Definition days_between (start_date end_date : Z) : Z := end_date - start_date.

End PyDate.

(** ** The heat-index service ([app/services/heat_index_service.py]) and
    the heat query of [GDELTAPIService] *)

Module HeatStore.

Import PyFloat PyMonth PyDate Storage HeatIndexReducer.

(** The operations the service sends to the store. *)
Inductive heat_op : Type :=
| SelectActive (company_ids : option (list Z))
| SelectHeatRow (company : Z) (month : string)
| CommitHeat (company : Z) (month : string)
| SelectHeatRanking (month : string) (limit : Z).

Definition store_fault : exn := StorageFault "storage operation failed".

(** What the session raises once a flush has failed. *)
Definition pending_rollback_error : exn := StorageFault "PendingRollbackError".

(** The timespan [query_company_heat_index] asks GDELT for. *)
Definition heat_timespan (start_date end_date : Z) : string :=
  let days_diff := days_between start_date end_date in
  if days_diff <=? 1 then "1d"
  else if days_diff <=? 7 then "1w"
  else if days_diff <=? 30 then "1month"
  else "3months".

(** [GDELTAPIService._create_heat_error_response]. *)
Definition _create_heat_error_response : heat_response :=
  mkHeatResponse false fzero None.

(** The first and the last day of a month, as the service computes them. *)
Definition month_range (year month : Z) : py_result (Z * Z) :=
  match datetime year month 1 with
  | Raise e => Raise e
  | Ok start_date =>
      match (if month =? 12 then datetime (year + 1) 1 1
             else datetime year (month + 1) 1) with
      | Raise e => Raise e
      | Ok first_of_next =>
          match minus_days first_of_next 1 with
          | Raise e => Raise e
          | Ok end_date => Ok (start_date, end_date)
          end
      end
  end.

(** A row of the result list of [calculate_monthly_heat_index]. *)
Inductive heat_row : Type :=
| StoredRow (company_id : Z) (company_name : string) (action : string)
    (timelinevol_value : float) (heat_level : string) (success : bool)
| FailedHeatRow (company_id : Z) (company_name : string) (error : exn).

(** [r.get("success", False)]. *)
Definition row_success (r : heat_row) : bool :=
  match r with
  | StoredRow _ _ _ _ _ ok => ok
  | FailedHeatRow _ _ _ => false
  end.

Definition row_company_id (r : heat_row) : Z :=
  match r with
  | StoredRow cid _ _ _ _ _ => cid
  | FailedHeatRow cid _ _ => cid
  end.

Inductive heat_summary : Type :=
| NoCompanies
| Calculated (year_month : string) (total_companies successful_companies : Z)
    (results : list heat_row).

(** The first row that satisfies [P] is replaced by its image. *)
Fixpoint update_first (P : HeatIndex -> bool) (f : HeatIndex -> HeatIndex)
    (rows : list HeatIndex) : list HeatIndex :=
  match rows with
  | [] => []
  | r :: rest => if P r then f r :: rest else r :: update_first P f rest
  end.

Definition is_heat_of (company : Z) (month : string) (r : HeatIndex) : bool :=
  (h_company_id r =? company) && str_eqb (h_year_month r) month.

Definition set_heat_indices (rows : list HeatIndex) (d : database) : database :=
  mkDatabase (companies d) (monthly_mentions d) (monthly_yoy_analysis d)
    (monthly_mom_analysis d) rows.

(** A row of [get_monthly_heat_rankings], without the company's display
    name and the time stamp. *)
Record ranking_row : Type := mkRanking {
  rk_rank : Z;
  rk_company_id : Z;
  rk_cleaned_name : string;
  rk_heat_index : float;
  rk_heat_level : string;
  rk_avg_volume_percent : float;
  rk_peak_volume_percent : float
}.

Record rankings_response : Type := mkRankings {
  rankings : list ranking_row;
  rr_year_month : string;
  total_rankings : Z
}.

Section Service.

(** Which operations on the store raise. *)
Variable fails : heat_op -> bool.

(** The answer of GDELT to a query with a timespan: the parsed body, or
    the exception of the request. *)
Variable gdelt : string -> string -> py_result (option (list (string * json))).

(** [GDELTAPIService.query_company_heat_index]. *)
Definition query_company_heat_index (company_name : string)
    (start_date end_date : Z) : heat_response :=
  match gdelt company_name (heat_timespan start_date end_date) with
  | Ok data => _process_heat_index_response data
  | Raise _ => _create_heat_error_response
  end.

(** [GDELTAPIService.batch_query_heat_index]: the batches fill one dict,
    in the order of the names. *)
Definition batch_query_heat_index (company_names : list string)
    (start_date end_date : Z) : gmap string heat_response :=
  fold_left
    (fun results name =>
       <[name := query_company_heat_index name start_date end_date]> results)
    company_names ∅.

(** The body of the loop of [calculate_monthly_heat_index] for one company:
    the row it appends and the heat records it leaves.  A look-up that
    fails is caught, and the handler appends a failed row.  A commit that
    fails is caught too, but the handler then reads [company.id] on the
    session whose flush failed: that read raises [PendingRollbackError],
    and the exception leaves the loop. *)
Definition store_heat_index (year_month : string)
    (heat_results : gmap string heat_response) (company : Company)
    (heat : list HeatIndex) : py_result heat_row * list HeatIndex :=
  let company_name := cleaned_name company in
  let heat_data := heat_results !! company_name in
  if fails (SelectHeatRow (company_id company) year_month)
  then (Ok (FailedHeatRow (company_id company) company_name store_fault), heat)
  else
    let existing := List.find (is_heat_of (company_id company) year_month) heat in
    let timelinevol_value :=
      match heat_data with Some r => timelinevol_value r | None => fzero end in
    let ok := match heat_data with Some r => success r | None => false end in
    if fails (CommitHeat (company_id company) year_month)
    then (Raise pending_rollback_error, heat)
    else
      match existing with
      | Some _ =>
          (Ok (StoredRow (company_id company) company_name "updated"
                 timelinevol_value (heat_level timelinevol_value) ok),
           update_first (is_heat_of (company_id company) year_month)
             (fun r => mkHeat (h_company_id r) (h_year_month r)
                         timelinevol_value timelinevol_value fzero)
             heat)
      | None =>
          (Ok (StoredRow (company_id company) company_name "created"
                 timelinevol_value (heat_level timelinevol_value) ok),
           (heat ++ [mkHeat (company_id company) year_month
                       timelinevol_value timelinevol_value fzero])%list)
      end.

(** The loop over the companies: the rows so far and the heat records. *)
Fixpoint store_heat_indices (year_month : string)
    (heat_results : gmap string heat_response) (companies : list Company)
    (results : list heat_row) (heat : list HeatIndex)
  : py_result (list heat_row) * list HeatIndex :=
  match companies with
  | [] => (Ok results, heat)
  | company :: rest =>
      match store_heat_index year_month heat_results company heat with
      | (Ok row, heat') =>
          store_heat_indices year_month heat_results rest
            (results ++ [row])%list heat'
      | (Raise e, heat') => (Raise e, heat')
      end
  end.

(** [HeatIndexService.calculate_monthly_heat_index]: the outcome and the
    data it leaves. *)
Definition calculate_monthly_heat_index (year month : Z)
    (company_ids : option (list Z)) (d : database)
  : py_result heat_summary * database :=
  if fails (SelectActive company_ids) then (Raise store_fault, d)
  else
    let companies :=
      filter (fun c =>
                str_eqb (status c) "active" &&
                match truthy_ids company_ids with
                | Some ids => id_in ids (company_id c)
                | None => true
                end) (companies d) in
    match companies with
    | [] => (Ok NoCompanies, d)
    | _ =>
        match month_range year month with
        | Raise e => (Raise e, d)
        | Ok (start_date, end_date) =>
            let heat_results :=
              batch_query_heat_index (map cleaned_name companies)
                start_date end_date in
            let year_month := format_year_month year month in
            match store_heat_indices year_month heat_results companies []
                    (heat_indices d) with
            | (Raise e, heat) => (Raise e, set_heat_indices heat d)
            | (Ok results, heat) =>
                let successful_count :=
                  Z.of_nat (length (filter (fun r => row_success r = true)
                                      results)) in
                (Ok (Calculated year_month (Z.of_nat (length results))
                       successful_count results),
                 set_heat_indices heat d)
            end
        end
    end.

(** [HeatIndexService.get_monthly_heat_rankings]: the heat records of the
    month with their companies, hottest first, at most [limit] of them (a
    negative limit is no limit), numbered from 1. *)
Definition get_monthly_heat_rankings (year_month : string) (limit : Z)
    (d : database) : py_result (list ranking_row) :=
  if fails (SelectHeatRanking year_month limit) then Raise store_fault
  else
    let joined :=
      omap (fun h =>
              match company_of d (h_company_id h) with
              | Some c =>
                  if str_eqb (h_year_month h) year_month then Some (h, c)
                  else None
              | None => None
              end) (heat_indices d) in
    let ordered :=
      PySort.sort_by_float_desc (fun hc => heat_index (fst hc)) joined in
    let rows :=
      if limit <? 0 then ordered else take (Z.to_nat limit) ordered in
    Ok (imap (fun i hc =>
                mkRanking (Z.of_nat i + 1) (company_id (snd hc))
                  (cleaned_name (snd hc)) (heat_index (fst hc))
                  (heat_level (heat_index (fst hc)))
                  (avg_volume_percent (fst hc))
                  (peak_volume_percent (fst hc)))
             rows).

(** The [/analysis/heat-rankings] endpoint of [app/api/analysis.py]. The
    key is checked with [strptime_Y_m], which reads ASCII keys as Python
    does. *)
Definition get_heat_rankings (year_month : string) (limit : Z) (d : database)
  : py_result rankings_response :=
  match strptime_Y_m year_month with
  | Raise _ => Raise (HTTPException 400 "月份格式错误，应为YYYY-MM")
  | Ok _ =>
      match get_monthly_heat_rankings year_month limit d with
      | Raise e => Raise e
      | Ok rankings =>
          Ok (mkRankings rankings year_month (Z.of_nat (length rankings)))
      end
  end.

End Service.

End HeatStore.

(** Example fault settings of the heat store. *)

Module Demo5.

Import HeatStore.

Definition no_heat_fault : heat_op -> bool := fun _ => false.

(** The record of company 3 cannot be read. *)
Definition fault_select_3 : heat_op -> bool :=
  fun op => match op with
            | SelectHeatRow 3 _ => true
            | _ => false
            end.

(** The record of company 3 cannot be committed. *)
Definition fault_commit_3 : heat_op -> bool :=
  fun op => match op with
            | CommitHeat 3 _ => true
            | _ => false
            end.

End Demo5.

(** ** The stored year-over-year results over HTTP ([app/api/analysis.py]) *)

Module AnalysisApi.

Import PyMonth Storage PeriodAnalyzer.

(** The [/analysis/monthly-yoy] endpoint: the month of the response and
    the stored results. The key is checked with [strptime_Y_m], which
    reads ASCII keys as Python does. *)
Definition get_monthly_yoy_analysis (now : Z * Z) (month : option string)
    (company_ids : option (list Z)) : M (string * stored_summary) :=
  let month := month_or_now now month in
  match strptime_Y_m month with
  | Raise _ => raise (HTTPException 400 "月份格式错误，应为YYYY-MM")
  | Ok _ =>
      result ← get_monthly_yoy_results month company_ids;
      mret (month, result)
  end.

End AnalysisApi.

(** * Properties *)

(** ** Stable sorting *)

Section SortFacts.
Context {A : Type} (before : A -> A -> bool).

Lemma insert_stable_perm (x : A) (l : list A) :
  Permutation (PySort.insert_stable before x l) (x :: l).
Proof.
  induction l as [|y l IH]; simpl; [done|].
  destruct (before y x); [|done].
  rewrite IH. apply perm_swap.
Qed.

Lemma sort_stable_perm (l : list A) :
  Permutation (PySort.sort_stable before l) l.
Proof.
  induction l as [|x l IH]; simpl; [done|].
  rewrite insert_stable_perm. by constructor.
Qed.

End SortFacts.

(** ** RankAssigner *)

Section RankFacts.
Import Comprehensive Spec.

Lemma rank_loop_from (data : list source_row) (key : string) (v acc : Z) :
  fold_left
    (fun rank other_item =>
       if v <? get_mentions other_item key then rank + 1 else rank) data acc
  = acc + Z.of_nat (length (filter (fun o => v < o)
                              (map (fun r => get_mentions r key) data))).
Proof.
  revert acc. induction data as [|r data IH]; intros acc; simpl.
  - lia.
  - rewrite IH. rewrite filter_cons.
    destruct (Z.ltb_spec v (get_mentions r key)); case_decide; simpl; lia.
Qed.

Lemma rank_loop_spec (data : list source_row) (key : string) (v : Z) :
  rank_loop data key v
  = spec_competition_rank (map (fun r => get_mentions r key) data) v.
Proof. unfold rank_loop, spec_competition_rank. apply rank_loop_from. Qed.

Lemma last_row_named_Some data name r :
  last_row_named data name = Some r -> r ∈ data /\ company_name r = name.
Proof.
  induction data as [|x data IH]; simpl; [done|].
  destruct (last_row_named data name) as [r'|].
  - intros [= ->]. destruct IH as [? ?]; [done|]. split; [by right|done].
  - case_bool_decide; [|done]. intros [= ->]. split; [by left|done].
Qed.

Lemma last_row_named_None data name :
  last_row_named data name = None <-> name ∉ map company_name data.
Proof.
  induction data as [|x data IH]; simpl.
  - split; [intros _; apply not_elem_of_nil|done].
  - rewrite not_elem_of_cons.
    destruct (last_row_named data name) as [r'|].
    + split; [done|]. intros [_ Hn]. by apply IH in Hn.
    + case_bool_decide; split; try done.
      * intros [? _]. congruence.
      * intros _. split; [congruence|by apply IH].
Qed.

Lemma proper_ranking_fold (all data : list source_row) (key name : string)
    (m : gmap string rank_info) :
  fold_left
    (fun rank_map item =>
       let mentions := get_mentions item key in
       <[company_name item :=
           mkRankInfo (rank_loop all key mentions) mentions]> rank_map)
    data m !! name
  = match last_row_named data name with
    | Some r => Some (mkRankInfo (rank_loop all key (get_mentions r key))
                        (get_mentions r key))
    | None => m !! name
    end.
Proof.
  revert m. induction data as [|x data IH]; intros m; simpl; [done|].
  rewrite IH. destruct (last_row_named data name); [done|].
  case_bool_decide as Hx.
  - subst. by rewrite lookup_insert_eq.
  - by rewrite lookup_insert_ne.
Qed.

(** The rank map holds, for each name, the rank and mentions of the last
    row with that name. *)
Lemma proper_ranking_lookup (data : list source_row) (key name : string) :
  calculate_proper_ranking data key !! name
  = (fun r => mkRankInfo
                (spec_competition_rank (map (fun o => get_mentions o key) data)
                   (get_mentions r key))
                (get_mentions r key)) <$> last_row_named data name.
Proof.
  unfold calculate_proper_ranking. rewrite proper_ranking_fold.
  destruct (last_row_named data name); simpl; [|done].
  by rewrite rank_loop_spec.
Qed.

Lemma final_rank_loop_from (ranking : list scored_entry) (score acc : Z) :
  fold_left
    (fun rank other_item =>
       if s_combined_rank_score other_item <? score then rank + 1 else rank)
    ranking acc
  = acc + Z.of_nat (length (filter (fun o => o < score)
                              (map s_combined_rank_score ranking))).
Proof.
  revert acc. induction ranking as [|r ranking IH]; intros acc; simpl.
  - lia.
  - rewrite IH. rewrite filter_cons.
    destruct (Z.ltb_spec (s_combined_rank_score r) score); case_decide; simpl; lia.
Qed.

Lemma final_rank_loop_spec (ranking : list scored_entry) (score : Z) :
  final_rank_loop ranking score
  = 1 + Z.of_nat (length (filter (fun o => o < score)
                            (map s_combined_rank_score ranking))).
Proof. apply final_rank_loop_from. Qed.

End RankFacts.

(** ** CrossSourceAggregator *)

Section CombinedFacts.
Import Comprehensive.

Variables gdelt_data newsapi_data : list source_row.

Let gdelt_rank_map := calculate_proper_ranking gdelt_data "current_month_mentions".
Let newsapi_rank_map := calculate_proper_ranking newsapi_data "current_mentions".
Let scored_list :=
  map (score_company gdelt_data newsapi_data gdelt_rank_map newsapi_rank_map)
      (elements (all_companies gdelt_data newsapi_data)).
Let sorted := PySort.sort_by_int s_combined_rank_score scored_list.

Lemma comprehensive_unfold :
  calculate_comprehensive_ranking gdelt_data newsapi_data
  = map (fun item =>
           mkCombined item (final_rank_loop sorted (s_combined_rank_score item)))
        sorted.
Proof. reflexivity. Qed.

Lemma sorted_perm : Permutation sorted scored_list.
Proof. apply sort_stable_perm. Qed.

Lemma comprehensive_names :
  Permutation
    (map ce_company_name (calculate_comprehensive_ranking gdelt_data newsapi_data))
    (elements (all_companies gdelt_data newsapi_data)).
Proof.
  rewrite comprehensive_unfold, map_map. simpl.
  change (map (fun x => ce_company_name _) sorted) with (map s_company_name sorted).
  rewrite sorted_perm. unfold scored_list. rewrite map_map. simpl.
  by rewrite map_id.
Qed.

Lemma comprehensive_scores :
  map combined_rank_score (calculate_comprehensive_ranking gdelt_data newsapi_data)
  = map s_combined_rank_score sorted.
Proof. rewrite comprehensive_unfold, map_map. reflexivity. Qed.

Lemma elem_of_all_companies (name : string) :
  name ∈ all_companies gdelt_data newsapi_data
  <-> name ∈ map company_name gdelt_data \/ name ∈ map company_name newsapi_data.
Proof. unfold all_companies. rewrite elem_of_union, !elem_of_list_to_set. done. Qed.

Lemma comprehensive_elem (c : combined_entry) :
  c ∈ calculate_comprehensive_ranking gdelt_data newsapi_data ->
  ce_company_name c ∈ all_companies gdelt_data newsapi_data
  /\ scored c = score_company gdelt_data newsapi_data gdelt_rank_map
                  newsapi_rank_map (ce_company_name c)
  /\ final_rank c = final_rank_loop sorted (combined_rank_score c).
Proof.
  rewrite comprehensive_unfold. intros Hc.
  apply list_elem_of_fmap in Hc as (item & -> & Hitem).
  rewrite sorted_perm in Hitem. unfold scored_list in Hitem.
  apply list_elem_of_fmap in Hitem as (name & -> & Hname).
  apply elem_of_elements in Hname. done.
Qed.

Lemma comprehensive_NoDup :
  NoDup (map ce_company_name
           (calculate_comprehensive_ranking gdelt_data newsapi_data)).
Proof. rewrite comprehensive_names. apply NoDup_elements. Qed.

Lemma comprehensive_covers (name : string) :
  name ∈ all_companies gdelt_data newsapi_data ->
  exists c, c ∈ calculate_comprehensive_ranking gdelt_data newsapi_data
            /\ ce_company_name c = name.
Proof.
  intros Hn. apply elem_of_elements in Hn. rewrite <- comprehensive_names in Hn.
  apply list_elem_of_fmap in Hn as (c & -> & Hc). eauto.
Qed.

End CombinedFacts.

Lemma filter_name_absent {A : Type} (f : A -> string) (l : list A) (name : string) :
  name ∉ map f l -> filter (fun x => f x = name) l = [].
Proof.
  induction l as [|x l IH]; simpl; [done|].
  rewrite not_elem_of_cons. intros [Hne Hnin]. rewrite filter_cons.
  case_decide; [congruence|]. by apply IH.
Qed.

Lemma count_one_of_NoDup {A : Type} (f : A -> string) (l : list A) (name : string) :
  NoDup (map f l) -> name ∈ map f l ->
  length (filter (fun x => f x = name) l) = 1%nat.
Proof.
  induction l as [|x l IH]; simpl.
  - intros _ H. by apply elem_of_nil in H.
  - rewrite NoDup_cons. intros [Hx Hnd] Hin. rewrite filter_cons.
    case_decide as Hfx.
    + subst name. by rewrite filter_name_absent.
    + apply elem_of_cons in Hin as [->|Hin]; [done|]. by apply IH.
Qed.

(** ** Claims on ranking *)

Section RankClaims.
Import Comprehensive Spec.

Lemma higher_count_mono (l : list Z) (v v' : Z) :
  v <= v' ->
  (length (filter (fun o => (v' < o)%Z) l) <= length (filter (fun o => (v < o)%Z) l))%nat.
Proof.
  intros Hv. induction l as [|x l IH]; simpl; [done|].
  rewrite !filter_cons. repeat case_decide; simpl; lia.
Qed.

Lemma higher_count_strict (l : list Z) (v v' : Z) :
  v < v' -> v' ∈ l ->
  (length (filter (fun o => (v' < o)%Z) l) < length (filter (fun o => (v < o)%Z) l))%nat.
Proof.
  intros Hv. induction l as [|x l IH]; simpl.
  - intros H. by apply elem_of_nil in H.
  - intros Hin. rewrite !filter_cons.
    apply elem_of_cons in Hin as [->|Hin].
    + pose proof (higher_count_mono l v x ltac:(lia)).
      repeat case_decide; simpl; lia.
    + specialize (IH Hin). repeat case_decide; simpl; lia.
Qed.

Lemma lower_count_mono (l : list Z) (v v' : Z) :
  v <= v' ->
  (length (filter (fun o => (o < v)%Z) l) <= length (filter (fun o => (o < v')%Z) l))%nat.
Proof.
  intros Hv. induction l as [|x l IH]; simpl; [done|].
  rewrite !filter_cons. repeat case_decide; simpl; lia.
Qed.

Lemma lower_count_strict (l : list Z) (v v' : Z) :
  v < v' -> v ∈ l ->
  (length (filter (fun o => (o < v)%Z) l) < length (filter (fun o => (o < v')%Z) l))%nat.
Proof.
  intros Hv. induction l as [|x l IH]; simpl.
  - intros H. by apply elem_of_nil in H.
  - intros Hin. rewrite !filter_cons.
    apply elem_of_cons in Hin as [<-|Hin].
    + pose proof (lower_count_mono l v v' ltac:(lia)).
      repeat case_decide; simpl; lia.
    + specialize (IH Hin). repeat case_decide; simpl; lia.
Qed.

(** C3. The per-source rank map has an entry for the company of every row;
    the entry carries the mentions of the last row of that name and the
    rank 1 + (number of rows with strictly more mentions); hence equal
    mentions give equal ranks and strictly more mentions give a strictly
    lower rank number. The combined ranking has an entry for every
    company of the two sources, and the final rank of every entry is
    1 + (number of entries with a strictly lower combined score); hence
    equal scores give equal final ranks and a strictly lower score gives
    a strictly lower final rank. *)
Theorem C3_competition_ranking
    (data : list source_row) (mentions_key : string)
    (gdelt_data newsapi_data : list source_row) :
  let ranks := calculate_proper_ranking data mentions_key in
  let metrics := map (fun r => get_mentions r mentions_key) data in
  let ranking := calculate_comprehensive_ranking gdelt_data newsapi_data in
  let scores := map combined_rank_score ranking in
  (forall item, item ∈ data ->
     exists info r,
       ranks !! company_name item = Some info
       /\ last_row_named data (company_name item) = Some r
       /\ mentions info = get_mentions r mentions_key
       /\ rank info = spec_competition_rank metrics (get_mentions r mentions_key))
  /\ (forall name info, ranks !! name = Some info ->
        (exists item, item ∈ data /\ company_name item = name
                      /\ mentions info = get_mentions item mentions_key)
        /\ rank info = spec_competition_rank metrics (mentions info))
  /\ (forall name info name' info',
        ranks !! name = Some info -> ranks !! name' = Some info' ->
        (mentions info' = mentions info -> rank info' = rank info)
        /\ (mentions info < mentions info' -> rank info' < rank info))
  /\ (forall name,
        name ∈ map company_name gdelt_data \/ name ∈ map company_name newsapi_data ->
        exists c, c ∈ ranking /\ ce_company_name c = name
                  /\ final_rank c
                     = spec_lowest_first_rank scores (combined_rank_score c))
  /\ Forall (fun c => final_rank c
                      = spec_lowest_first_rank scores (combined_rank_score c))
       ranking
  /\ (forall c c', c ∈ ranking -> c' ∈ ranking ->
        (combined_rank_score c = combined_rank_score c' ->
           final_rank c = final_rank c')
        /\ (combined_rank_score c < combined_rank_score c' ->
              final_rank c < final_rank c')).
Proof.
  intros ranks metrics ranking scores.
  assert (Hfinal : forall c, c ∈ ranking ->
            final_rank c = spec_lowest_first_rank scores (combined_rank_score c)).
  { intros c Hc. apply comprehensive_elem in Hc as (_ & _ & ->).
    rewrite final_rank_loop_spec. unfold spec_lowest_first_rank, scores, ranking.
    by rewrite comprehensive_scores. }
  assert (Hrank : forall name info, ranks !! name = Some info ->
            exists r, last_row_named data name = Some r
                      /\ info = mkRankInfo
                                  (spec_competition_rank metrics
                                     (get_mentions r mentions_key))
                                  (get_mentions r mentions_key)).
  { intros name info Hinfo. unfold ranks in Hinfo.
    rewrite proper_ranking_lookup in Hinfo.
    destruct (last_row_named data name) as [r|]; [|done].
    simpl in Hinfo. injection Hinfo as <-. by exists r. }
  split; [|split; [|split; [|split; [|split]]]].
  - intros item Hitem.
    destruct (last_row_named data (company_name item)) as [r|] eqn:Hr.
    + exists (mkRankInfo (spec_competition_rank metrics (get_mentions r mentions_key))
                (get_mentions r mentions_key)), r.
      unfold ranks. rewrite proper_ranking_lookup, Hr. done.
    + apply last_row_named_None in Hr. destruct Hr.
      apply list_elem_of_fmap. by exists item.
  - intros name info (r & Hr & ->)%Hrank.
    apply last_row_named_Some in Hr as [Hr1 Hr2]. simpl.
    split; [by exists r|done].
  - intros name info name' info' (r & Hr & ->)%Hrank (r' & Hr' & ->)%Hrank.
    apply last_row_named_Some in Hr' as [Hr1' Hr2']. simpl. split.
    + by intros ->.
    + intros Hlt. unfold spec_competition_rank.
      assert (Hin : get_mentions r' mentions_key ∈ metrics).
      { unfold metrics. apply list_elem_of_fmap. by exists r'. }
      pose proof (higher_count_strict metrics _ _ Hlt Hin). lia.
  - intros name Hname.
    apply elem_of_all_companies, comprehensive_covers in Hname as (c & Hc & Hcn).
    exists c. split; [done|]. split; [done|]. by apply Hfinal.
  - apply Forall_forall. intros c Hc. by apply Hfinal.
  - intros c c' Hc Hc'. rewrite (Hfinal c Hc), (Hfinal c' Hc'). split.
    + by intros ->.
    + intros Hlt. unfold spec_lowest_first_rank.
      assert (Hin : combined_rank_score c ∈ scores).
      { unfold scores. apply list_elem_of_fmap. by exists c. }
      pose proof (lower_count_strict scores _ _ Hlt Hin). lia.
Qed.

(** C4. The combined ranking has an entry for every company named in one
    of the two sources, and every entry is named after such a company. For
    a source that has no row of the entry's name the entry has mentions 0
    and rank (number of rows of the source) + 1, otherwise the mentions and
    rank of the source's rank map; the combined score is the sum of the two
    ranks. *)
Theorem C4_cross_source_scores (gdelt_data newsapi_data : list source_row) :
  let ranking := calculate_comprehensive_ranking gdelt_data newsapi_data in
  let in_union := fun n =>
    n ∈ map company_name gdelt_data \/ n ∈ map company_name newsapi_data in
  let scored_by_rule := fun c =>
    let name := ce_company_name c in
    let e := scored c in
    (name ∉ map company_name gdelt_data ->
       s_gdelt_mentions e = 0
       /\ s_gdelt_rank e = Z.of_nat (length gdelt_data) + 1)
    /\ (name ∉ map company_name newsapi_data ->
          s_newsapi_mentions e = 0
          /\ s_newsapi_rank e = Z.of_nat (length newsapi_data) + 1)
    /\ (forall info,
          calculate_proper_ranking gdelt_data "current_month_mentions" !! name
            = Some info ->
          s_gdelt_mentions e = mentions info /\ s_gdelt_rank e = rank info)
    /\ (forall info,
          calculate_proper_ranking newsapi_data "current_mentions" !! name
            = Some info ->
          s_newsapi_mentions e = mentions info /\ s_newsapi_rank e = rank info)
    /\ s_combined_rank_score e = s_gdelt_rank e + s_newsapi_rank e in
  (forall n, in_union n ->
     exists c, c ∈ ranking /\ ce_company_name c = n /\ scored_by_rule c)
  /\ (forall c, c ∈ ranking -> in_union (ce_company_name c) /\ scored_by_rule c)
  /\ Permutation (map ce_company_name ranking)
       (elements (all_companies gdelt_data newsapi_data)).
Proof.
  intros ranking in_union scored_by_rule.
  assert (Hall : forall c, c ∈ ranking ->
            in_union (ce_company_name c) /\ scored_by_rule c).
  { intros c Hc.
    destruct (comprehensive_elem _ _ _ Hc) as (Hname & Hscored & _).
    split; [by apply elem_of_all_companies|].
    unfold scored_by_rule. rewrite Hscored. unfold score_company. simpl.
    split; [|split; [|split; [|split]]].
    - intros Hn. apply last_row_named_None in Hn.
      rewrite proper_ranking_lookup, Hn. done.
    - intros Hn. apply last_row_named_None in Hn.
      rewrite proper_ranking_lookup, Hn. done.
    - intros info ->. done.
    - intros info ->. done.
    - done. }
  split; [|split; [done|apply comprehensive_names]].
  intros n Hn.
  apply elem_of_all_companies, comprehensive_covers in Hn as (c & Hc & Hcn).
  exists c. split; [done|]. split; [done|]. by apply Hall.
Qed.

(** C10. Every company name of the union of the two inputs occurs in
    exactly one entry of the combined ranking, no name occurs twice, and
    the entry of a name shows, for each source, the mentions of the last
    row of that name in the source's list. *)
Theorem C10_one_entry_per_name
    (gdelt_data newsapi_data : list source_row) (name : string) :
  name ∈ map company_name gdelt_data \/ name ∈ map company_name newsapi_data ->
  let ranking := calculate_comprehensive_ranking gdelt_data newsapi_data in
  length (filter (fun c => ce_company_name c = name) ranking) = 1%nat
  /\ NoDup (map ce_company_name ranking)
  /\ (forall c, c ∈ ranking -> ce_company_name c = name ->
        (forall r, last_row_named gdelt_data name = Some r ->
           s_gdelt_mentions (scored c) = get_mentions r "current_month_mentions")
        /\ (forall r, last_row_named newsapi_data name = Some r ->
           s_newsapi_mentions (scored c) = get_mentions r "current_mentions")).
Proof.
  intros Hname ranking.
  pose proof (comprehensive_NoDup gdelt_data newsapi_data) as Hnd.
  split; [|split; [done|]].
  - apply count_one_of_NoDup; [done|].
    apply elem_of_all_companies, elem_of_elements in Hname.
    by rewrite <- comprehensive_names in Hname.
  - intros c Hc Hcn.
    destruct (comprehensive_elem _ _ _ Hc) as (_ & Hscored & _).
    rewrite Hscored, Hcn. unfold score_company. simpl.
    split; intros r Hr; by rewrite proper_ranking_lookup, Hr.
Qed.

End RankClaims.

Section RankWitnesses.
Import Comprehensive Spec.

(** Metrics [50, 50, 30] give ranks 1, 1, 3, and the combined scores
    2, 5, 6, 7 of the example give the final ranks 1, 2, 3, 4. *)
Lemma witness_C3_ranks_1_1_3 :
  map (fun r => rank <$> calculate_proper_ranking demo_gdelt
                           "current_month_mentions" !! company_name r)
      demo_gdelt = [Some 1; Some 1; Some 3]
  /\ (forall name info,
        calculate_proper_ranking demo_gdelt "current_month_mentions" !! name
          = Some info ->
        rank info = spec_competition_rank [50; 50; 30] (mentions info))
  /\ map combined_rank_score
       (calculate_comprehensive_ranking demo_gdelt demo_newsapi) = [2; 5; 6; 7]
  /\ map final_rank (calculate_comprehensive_ranking demo_gdelt demo_newsapi)
     = [1; 2; 3; 4]
  /\ Forall (fun c => final_rank c
                      = spec_lowest_first_rank [2; 5; 6; 7] (combined_rank_score c))
       (calculate_comprehensive_ranking demo_gdelt demo_newsapi).
Proof.
  destruct (C3_competition_ranking demo_gdelt "current_month_mentions"
              demo_gdelt demo_newsapi) as (_ & H2 & _ & _ & H5 & _).
  split; [vm_compute; reflexivity|]. split.
  - intros name info Hinfo. exact (proj2 (H2 name info Hinfo)).
  - split; [vm_compute; reflexivity|]. split; [vm_compute; reflexivity|].
    exact H5.
Defined.

(** A company ranked 1 in a source of five rows and absent from the other
    source of five rows has an entry with ranks 1 and 6 and combined
    score 7. *)
Lemma witness_C4_score_7 :
  exists c,
    c ∈ calculate_comprehensive_ranking five_gdelt five_newsapi
    /\ ce_company_name c = "X"
    /\ s_gdelt_rank (scored c) = 1
    /\ s_newsapi_mentions (scored c) = 0
    /\ s_newsapi_rank (scored c) = Z.of_nat (length five_newsapi) + 1
    /\ s_combined_rank_score (scored c) = 1 + 6.
Proof.
  destruct (C4_cross_source_scores five_gdelt five_newsapi) as (H & _ & _).
  destruct (H "X") as (c & Hc & Hname & _ & Hn & Hg & _ & Hs).
  { left. vm_compute. apply list_elem_of_here. }
  exists c. split; [exact Hc|]. split; [exact Hname|].
  rewrite Hname in Hn, Hg.
  destruct (Hg (mkRankInfo 1 90)) as [_ Hgr]; [vm_compute; reflexivity|].
  destruct Hn as [Hnm Hnr].
  { vm_compute. intros H0.
    repeat (inversion H0 as [|? ? ? H']; clear H0; rename H' into H0). }
  split; [exact Hgr|]. split; [exact Hnm|]. split; [exact Hnr|].
  rewrite Hs, Hgr, Hnr. reflexivity.
Defined.

(** "A" occurs once in the first source and twice in the second: one
    entry, with the mentions of the last row of the second source. *)
Lemma witness_C10_repeated_name :
  length (filter (fun c => ce_company_name c = "A")
            (calculate_comprehensive_ranking demo_gdelt demo_newsapi)) = 1%nat
  /\ s_newsapi_mentions (scored demo_entry_A) = 9.
Proof.
  pose proof (C10_one_entry_per_name demo_gdelt demo_newsapi "A") as H.
  destruct H as (H1 & _ & H3).
  - left. vm_compute. apply list_elem_of_here.
  - split; [exact H1|].
    destruct (H3 demo_entry_A) as [_ Hn].
    + vm_compute. apply list_elem_of_here.
    + reflexivity.
    + rewrite (Hn (mkRow "A" {["current_mentions" := 9]})); [reflexivity|].
      vm_compute. reflexivity.
Defined.

End RankWitnesses.

(** ** Floats: no NaN from the arithmetic, and the order of [flt] *)

Section FloatFacts.
Import PyFloat FloatOrder.

Lemma shr_1_nonneg (mrs : shr_record) : 0 <= shr_m mrs -> 0 <= shr_m (shr_1 mrs).
Proof.
  destruct mrs as [m r s]. simpl.
  destruct m as [|p|p]; simpl; [lia| |lia].
  destruct p; simpl; lia.
Qed.

Lemma iter_pos_shr_1_nonneg (p : positive) (mrs : shr_record) :
  0 <= shr_m mrs -> 0 <= shr_m (SpecFloat.iter_pos shr_1 p mrs).
Proof.
  revert mrs. induction p as [p IH|p IH|]; intros mrs H; simpl.
  - apply IH, IH. by apply shr_1_nonneg.
  - by apply IH, IH.
  - by apply shr_1_nonneg.
Qed.

Lemma shr_fexp_nonneg (m e : Z) (l : location) :
  0 <= m -> 0 <= shr_m (fst (shr_fexp prec emax m e l)).
Proof.
  intros Hm. unfold shr_fexp, shr.
  assert (H0 : 0 <= shr_m (shr_record_of_loc m l)).
  { destruct l as [|[]]; simpl; lia. }
  destruct (fexp prec emax (Zdigits2 m + e) - e); simpl;
    [done|by apply iter_pos_shr_1_nonneg|done].
Qed.

Lemma round_nearest_even_nonneg (m : Z) (l : location) :
  0 <= m -> 0 <= round_nearest_even m l.
Proof.
  intros Hm. destruct l as [|[]]; simpl; try lia.
  destruct (Z.even m); lia.
Qed.

Lemma binary_round_aux_not_nan (sx : bool) (mx ex : Z) (lx : location) :
  0 <= mx -> binary_round_aux prec emax sx mx ex lx <> S754_nan.
Proof.
  intros Hm. unfold binary_round_aux.
  pose proof (shr_fexp_nonneg mx ex lx Hm) as H1.
  destruct (shr_fexp prec emax mx ex lx) as [mrs' e'] eqn:E1. simpl in H1.
  pose proof (shr_fexp_nonneg _ e' loc_Exact
                (round_nearest_even_nonneg _ (loc_of_shr_record mrs') H1)) as H2.
  destruct (shr_fexp prec emax (round_nearest_even _ _) e' loc_Exact)
    as [mrs'' e''] eqn:E2. simpl in H2.
  destruct (shr_m mrs'') as [|p|p]; [done| |lia].
  by destruct (e'' <=? emax - prec).
Qed.

Lemma div_core_not_nan (sx : bool) (pn pd : positive) :
  (let '(mz, ez, lz) := SFdiv_core_binary prec emax (Zpos pn) 0 (Zpos pd) 0 in
   binary_round_aux prec emax sx mz ez lz) <> S754_nan.
Proof.
  unfold SFdiv_core_binary.
  match goal with |- context [IntDef.Z.div_eucl ?a ?b] => set (A := a) end.
  assert (HA : 0 <= A).
  { unfold A. match goal with |- 0 <= match ?s with _ => _ end => destruct s end;
      [lia| apply Z.shiftl_nonneg; lia | lia]. }
  destruct (IntDef.Z.div_eucl A (Z.pos pd)) as [q r] eqn:E.
  assert (Hq : q = A / Z.pos pd).
  { unfold Z.div. change Z.div_eucl with IntDef.Z.div_eucl. by rewrite E. }
  apply binary_round_aux_not_nan. subst q. apply Z.div_pos; lia.
Qed.

Lemma of_ratio_not_nan (n d : Z) : 0 < d -> not_nan (of_ratio n d).
Proof.
  intros Hd. unfold of_ratio, not_nan.
  destruct d as [|pd|pd]; [lia| |lia].
  destruct n as [|pn|pn]; simpl; [done| |]; apply div_core_not_nan.
Qed.

Lemma fmul_not_nan (x y : float) :
  is_finite x = true -> is_finite y = true -> not_nan (fmul x y).
Proof.
  unfold fmul, not_nan.
  destruct x as [sx|sx| |sx mx ex]; destruct y as [sy|sy| |sy my ey];
    simpl; try done.
  intros _ _. apply binary_round_aux_not_nan. lia.
Qed.

Lemma of_int_not_nan (z : Z) : not_nan (of_int z).
Proof.
  unfold of_int, binary_normalize, binary_round, not_nan.
  destruct z as [|p|p]; [done| |];
    destruct (shl_align _ _ _) as [mz ez];
    apply binary_round_aux_not_nan; lia.
Qed.

Lemma of_decimal_not_nan (s : bool) (c sh : Z) : not_nan (of_decimal s c sh).
Proof.
  unfold of_decimal. destruct (c =? 0); [done|].
  destruct (Z.leb_spec 0 sh).
  - apply of_ratio_not_nan. lia.
  - apply of_ratio_not_nan. apply Z.pow_pos_nonneg; lia.
Qed.

Lemma py_round_not_nan (nd : nat) (x : float) :
  not_nan x -> not_nan (py_round nd x).
Proof.
  intros Hx. unfold py_round. destruct x as [s|s| |s m e]; try done.
  destruct (_ =? 0); [done|]. apply of_ratio_not_nan. apply Z.pow_pos_nonneg; lia.
Qed.

Lemma flt_order_key (x y : float) :
  not_nan x -> not_nan y ->
  (flt x y = true <-> lex_lt (order_key x) (order_key y)).
Proof.
  unfold flt, SFltb, not_nan.
  destruct x as [sx|sx| |sx mx ex]; destruct y as [sy|sy| |sy my ey];
    try done; intros _ _; simpl.
  all: repeat match goal with s : bool |- _ => destruct s end; simpl.
  all: try (split; [done|lia]); try (split; [lia|done]); try (split; intros; lia).
  all: destruct (Z.compare_spec ex ey); simpl;
    try (split; [done|lia]); try (split; [lia|done]); try (split; intros; lia).
  all: change (Pos.compare_cont Eq mx my) with (Pos.compare mx my);
    destruct (Pos.compare_spec mx my); simpl;
    try (split; [done|lia]); try (split; [lia|done]); try (split; intros; lia).
Qed.

Lemma fge_order_key (x y : float) :
  not_nan x -> not_nan y ->
  (fge x y = true <-> ~ lex_lt (order_key x) (order_key y)).
Proof.
  unfold fge, SFleb, not_nan.
  destruct x as [sx|sx| |sx mx ex]; destruct y as [sy|sy| |sy my ey];
    try done; intros _ _; simpl.
  all: repeat match goal with s : bool |- _ => destruct s end; simpl.
  all: try (split; [done|lia]); try (split; [lia|done]); try (split; intros; lia).
  all: destruct (Z.compare_spec ey ex); simpl;
    try (split; [done|lia]); try (split; [lia|done]); try (split; intros; lia).
  all: change (Pos.compare_cont Eq my mx) with (Pos.compare my mx);
    destruct (Pos.compare_spec my mx); simpl;
    try (split; [done|lia]); try (split; [lia|done]); try (split; intros; lia).
Qed.

End FloatFacts.

(** ** Sorted results *)

Section SortedFacts.
Context {A : Type} (before : A -> A -> bool) (P : A -> Prop).
Hypothesis before_asym :
  forall x y, P x -> P y -> before x y = true -> before y x = false.
Hypothesis before_negtrans :
  forall x y z, P x -> P y -> P z ->
    before x z = true -> before x y = true \/ before y z = true.

Let R (a b : A) : Prop := before b a = false.

Lemma insert_stable_sorted (x : A) (l : list A) :
  P x -> Forall P l -> StronglySorted R l ->
  StronglySorted R (PySort.insert_stable before x l).
Proof.
  intros Hx Hl Hs. induction l as [|y l IH]; simpl.
  - repeat constructor.
  - apply Forall_cons in Hl as [Hy Hl].
    apply StronglySorted_inv in Hs as [Hs Hyl].
    destruct (before y x) eqn:Hyx.
    + constructor; [by apply IH|].
      rewrite insert_stable_perm. constructor; [|done].
      unfold R. by apply before_asym.
    + constructor; [by constructor|].
      constructor; [done|].
      rewrite Forall_forall in Hyl, Hl. apply Forall_forall. intros z Hz.
      unfold R. destruct (before z x) eqn:Hzx; [|done].
      destruct (before_negtrans z y x) as [H|H]; auto.
      * specialize (Hyl z Hz). unfold R in Hyl. congruence.
      * congruence.
Qed.

Lemma sort_stable_sorted (l : list A) :
  Forall P l -> StronglySorted R (PySort.sort_stable before l).
Proof.
  induction l as [|x l IH]; simpl; [constructor|].
  intros [Hx Hl]%Forall_cons. apply insert_stable_sorted; auto.
  by rewrite sort_stable_perm.
Qed.

End SortedFacts.

Section FloatSort.
Import PyFloat FloatOrder.
Context {A : Type} (key : A -> float).

(** A stable descending sort on float keys without NaN leaves every
    element with a key at least as large as the keys of all later ones. *)
Lemma sort_by_float_desc_sorted (l : list A) :
  Forall (fun x => not_nan (key x)) l ->
  StronglySorted (fun a b => fge (key a) (key b) = true)
    (PySort.sort_by_float_desc key l)
  /\ Permutation (PySort.sort_by_float_desc key l) l.
Proof.
  intros Hl. split; [|apply sort_stable_perm].
  unfold PySort.sort_by_float_desc.
  pose proof (sort_stable_sorted (fun a b => flt (key b) (key a))
                (fun x => not_nan (key x))) as Hs.
  assert (Hall : Forall (fun x => not_nan (key x))
                   (PySort.sort_stable (fun a b => flt (key b) (key a)) l)).
  { by rewrite sort_stable_perm. }
  assert (Hsorted : StronglySorted
            (fun a b => flt (key a) (key b) = false)
            (PySort.sort_stable (fun a b => flt (key b) (key a)) l)).
  { apply Hs; [| |done].
    - intros x y Hx Hy H. apply (flt_order_key _ _ Hy Hx) in H.
      destruct (flt (key x) (key y)) eqn:E; [|done].
      apply (flt_order_key _ _ Hx Hy) in E.
      unfold lex_lt in *. destruct (order_key (key x)) as [[? ?] ?],
        (order_key (key y)) as [[? ?] ?]. lia.
    - intros x y z Hx Hy Hz H. apply (flt_order_key _ _ Hz Hx) in H.
      destruct (flt (key y) (key x)) eqn:E1; [by left|].
      destruct (flt (key z) (key y)) eqn:E2; [by right|]. exfalso.
      assert (N1 : ~ lex_lt (order_key (key y)) (order_key (key x))).
      { intros C. apply (flt_order_key _ _ Hy Hx) in C. congruence. }
      assert (N2 : ~ lex_lt (order_key (key z)) (order_key (key y))).
      { intros C. apply (flt_order_key _ _ Hz Hy) in C. congruence. }
      unfold lex_lt in *. destruct (order_key (key x)) as [[? ?] ?],
        (order_key (key y)) as [[? ?] ?], (order_key (key z)) as [[? ?] ?]. lia. }
  clear Hs. revert Hall Hsorted.
  generalize (PySort.sort_stable (fun a b => flt (key b) (key a)) l) as l'.
  induction l' as [|x l' IH]; intros Hall Hsorted; [constructor|].
  apply Forall_cons in Hall as [Hx Hall].
  apply StronglySorted_inv in Hsorted as [Hs Hxl].
  constructor; [by apply IH|].
  rewrite Forall_forall in Hxl, Hall. apply Forall_forall. intros y Hy.
  apply fge_order_key; [done|by apply Hall|].
  intros C. apply flt_order_key in C; [|done|by apply Hall].
  specialize (Hxl y Hy). simpl in Hxl. congruence.
Qed.

End FloatSort.

(** ** The storage monad *)

Section MonadFacts.
Import Storage.

Lemma bind_Ok {A B : Type} (m : M A) (f : A -> M B) (s s' : session) (r : B) :
  (m ≫= f) s = (Ok r, s') ->
  exists a s1, m s = (Ok a, s1) /\ f a s1 = (Ok r, s').
Proof.
  unfold mbind, M_bind. destruct (m s) as [[a|e] s1]; [eauto|done].
Qed.

Lemma ret_Ok {A : Type} (a r : A) (s s' : session) :
  (mret a : M A) s = (Ok r, s') -> r = a /\ s' = s.
Proof. unfold mret, M_ret. by intros [= -> ->]. Qed.

Lemma lift_Ok {A : Type} (x : py_result A) (r : A) (s s' : session) :
  lift x s = (Ok r, s') -> x = Ok r /\ s' = s.
Proof. unfold lift. by intros [= -> ->]. Qed.

Lemma perform_Ok {A : Type} (op : db_op) (run : database -> A * database)
    (s s' : session) (r : A) :
  perform op run s = (Ok r, s') ->
  faulty s op = false /\ r = fst (run (data s))
  /\ s' = mkSession (snd (run (data s))) (faulty s) (op :: log s).
Proof.
  unfold perform. destruct (faulty s op); [done|].
  destruct (run (data s)) as [a d]. by intros [= -> <-].
Qed.


Lemma read_attribute_state {A : Type} (a : A) (s : session) :
  snd (read_attribute a s) = s.
Proof. unfold read_attribute. by destruct (pending_rollback s). Qed.

Lemma perform_logs {A : Type} (op : db_op) (run : database -> A * database)
    (s : session) :
  log (snd (perform op run s)) = op :: log s.
Proof.
  unfold perform. destruct (faulty s op); [done|].
  by destruct (run (data s)).
Qed.

Lemma for_each_inv {A B : Type} (I : B -> Prop) (items : list A)
    (body : B -> A -> M B) :
  (forall acc x s r s', I acc -> body acc x s = (Ok r, s') -> I r) ->
  forall acc s r s',
    I acc -> PeriodAnalyzer.for_each items body acc s = (Ok r, s') -> I r.
Proof.
  intros Hbody. induction items as [|x items IH]; intros acc s r s' Hacc; simpl.
  - intros [-> _]%ret_Ok. done.
  - intros (acc' & s1 & H1 & H2)%bind_Ok. eauto.
Qed.

End MonadFacts.

(** ** C6: the order of the result lists *)

Section SortClaims.
Import PyFloat PyDecimal FloatOrder ChangeMetric Storage PeriodAnalyzer Demo.

Lemma sort_key_not_nan (x : stored_result) : not_nan (sort_key x).
Proof.
  unfold sort_key. destruct (sr_monthly_change_percentage x) as [d|].
  - destruct (truthy d); [apply of_decimal_not_nan|apply of_int_not_nan].
  - apply of_int_not_nan.
Qed.

Lemma change_float_not_nan (c p : Z) (x : float) :
  change_float c p = Ok x -> not_nan x.
Proof.
  unfold change_float.
  destruct (is_finite (of_ratio (c - p) p)) eqn:E; [|done].
  intros [= <-]. by apply fmul_not_nan.
Qed.

Lemma newsapi_inline_change_not_nan (c p : Z) (r : newsapi_change) :
  newsapi_inline_change c p = Ok r -> not_nan (change_percentage r).
Proof.
  unfold newsapi_inline_change.
  destruct (Z.eqb_spec p 0) as [->|Hne].
  - destruct (c =? 0); intros [= <-]; cbn [change_percentage]; [done|apply (of_int_not_nan 999)].
  - destruct (change_float c p) as [x|e] eqn:E; [|done].
    intros [= <-]. cbn [change_percentage]. by apply (change_float_not_nan c p).
Qed.

Lemma StronglySorted_middle {A : Type} (R : A -> A -> Prop) (l1 l2 : list A) (x : A) :
  StronglySorted R (l1 ++ x :: l2)%list ->
  Forall (fun a => R a x) l1 /\ Forall (R x) l2.
Proof.
  induction l1 as [|a l1 IH]; simpl; intros Hs.
  - apply StronglySorted_inv in Hs as [_ Hall]. split; [constructor|done].
  - apply StronglySorted_inv in Hs as [Hs Hall].
    destruct (IH Hs) as [H1 H2]. split; [|done].
    constructor; [|done]. rewrite Forall_forall in Hall. apply Hall.
    apply elem_of_app. right. apply list_elem_of_here.
Qed.

Lemma newsapi_row_not_nan (company : Company) (target previous : string)
    (s s' : session) (row : newsapi_row) :
  newsapi_company_row company target previous s = (Ok row, s') ->
  not_nan (n_change_percentage row).
Proof.
  unfold newsapi_company_row.
  intros (cur & s1 & _ & H)%bind_Ok.
  apply bind_Ok in H as (prev & s2 & _ & H).
  apply bind_Ok in H as (ch & s3 & Hch & H).
  apply ret_Ok in H as [-> _]. apply lift_Ok in Hch as [Hch _].
  cbn [n_change_percentage].
  unfold newsapi_service_change in Hch.
  destruct (newsapi_inline_change _ _) as [r|e] eqn:E; [|done].
  injection Hch as <-. cbn [change_percentage].
  apply py_round_not_nan. by apply newsapi_inline_change_not_nan in E.
Qed.

Lemma newsapi_results_not_nan (target_month : string) (s s' : session)
    (analysis : newsapi_analysis) :
  get_newsapi_mom_analysis target_month s = (Ok analysis, s') ->
  exists rows,
    na_results analysis = PySort.sort_by_float_desc n_change_percentage rows
    /\ Forall (fun r => not_nan (n_change_percentage r)) rows.
Proof.
  unfold get_newsapi_mom_analysis.
  intros ([year month] & s1 & _ & H)%bind_Ok.
  apply bind_Ok in H as (companies & s2 & _ & H).
  apply bind_Ok in H as (rows & s3 & Hrows & H).
  apply ret_Ok in H as [-> _]. exists rows. split; [done|].
  revert Hrows. apply for_each_inv; [|constructor].
  intros acc company t r t' Hacc (row & t1 & Hrow & Hret)%bind_Ok.
  apply ret_Ok in Hret as [-> _]. apply Forall_app. split; [done|].
  constructor; [|constructor]. by apply newsapi_row_not_nan in Hrow.
Qed.

(** C6 (as the code has it). The stored results of a month, which
    [get_monthly_yoy_results] and [get_monthly_mom_results] read back, come
    sorted by [float(percentage or 0)] in descending order: every entry has
    a key at least as large as the keys of all entries after it, an entry
    without a percentage has key [0.0], so no entry before it has a negative
    key and no entry after it has a positive key. The result list of
    [NewsAPIRealDataService.get_newsapi_mom_analysis] is sorted by its
    (never missing) rounded percentage in descending order. *)
Theorem C6_sorted_descending_null_as_zero
    (t : analysis_table) (month : string) (company_ids : option (list Z))
    (s s' : session) (summary : stored_summary)
    (target_month : string) (s2 s2' : session) (analysis : newsapi_analysis) :
  get_monthly_results t month company_ids s = (Ok summary, s') ->
  get_newsapi_mom_analysis target_month s2 = (Ok analysis, s2') ->
  StronglySorted (fun a b => fge (sort_key a) (sort_key b) = true)
    (ss_results summary)
  /\ (forall l1 x l2,
        ss_results summary = (l1 ++ x :: l2)%list ->
        sr_monthly_change_percentage x = None ->
        sort_key x = fzero
        /\ Forall (fun a => flt (sort_key a) fzero = false) l1
        /\ Forall (fun b => fgt (sort_key b) fzero = false) l2)
  /\ StronglySorted
       (fun a b => fge (n_change_percentage a) (n_change_percentage b) = true)
       (na_results analysis).
Proof.
  intros Hres Hnews.
  assert (Hsorted : StronglySorted
            (fun a b => fge (sort_key a) (sort_key b) = true) (ss_results summary)).
  { unfold get_monthly_results in Hres.
    apply bind_Ok in Hres as (analyses & s1 & _ & H).
    destruct (count_status _) as [ok bad].
    apply ret_Ok in H as [-> _]. cbn [ss_results].
    apply sort_by_float_desc_sorted.
    apply Forall_forall. intros x _. apply sort_key_not_nan. }
  split; [done|]. split.
  - intros l1 x l2 Hsplit Hnull. rewrite Hsplit in Hsorted.
    apply StronglySorted_middle in Hsorted as [H1 H2].
    assert (Hkey : sort_key x = fzero).
    { unfold sort_key. by rewrite Hnull. }
    rewrite Hkey in H1, H2. split; [done|]. split.
    + eapply Forall_impl; [exact H1|]. intros a Ha. cbn beta in Ha.
      apply fge_order_key in Ha; [|apply sort_key_not_nan|done].
      destruct (flt (sort_key a) fzero) eqn:E; [|done].
      apply flt_order_key in E; [done|apply sort_key_not_nan|done].
    + eapply Forall_impl; [exact H2|]. intros b Hb. cbn beta in Hb.
      apply fge_order_key in Hb; [|done|apply sort_key_not_nan].
      unfold fgt. change (SFltb fzero (sort_key b)) with (flt fzero (sort_key b)).
      destruct (flt fzero (sort_key b)) eqn:E; [|done].
      apply flt_order_key in E; [done|done|apply sort_key_not_nan].
  - apply newsapi_results_not_nan in Hnews as (rows & -> & Hrows).
    by apply sort_by_float_desc_sorted.
Qed.

(** C6 as stated fails: the row without a percentage comes back above
    the row with -5.00. *)
Lemma C6_null_sorts_above_negative :
  match fst (get_monthly_mom_results "2025-09" None (fresh db_stored no_fault)) with
  | Ok summary => map sr_monthly_change_percentage (ss_results summary)
  | Raise _ => []
  end = [Some dec_20_00; None; Some dec_minus_5_00].
Proof. vm_compute. reflexivity. Qed.

Lemma witness_C6_stored_rows :
  exists summary analysis,
    fst (get_monthly_mom_results "2025-09" None (fresh db_stored no_fault))
      = Ok summary
    /\ fst (get_newsapi_mom_analysis "2025-09" (fresh db_stored no_fault))
      = Ok analysis
    /\ StronglySorted (fun a b => fge (sort_key a) (sort_key b) = true)
         (ss_results summary)
    /\ StronglySorted
         (fun a b => fge (n_change_percentage a) (n_change_percentage b) = true)
         (na_results analysis).
Proof.
  destruct (get_monthly_mom_results "2025-09" None (fresh db_stored no_fault))
    as [[summary|e] s'] eqn:E1; [|by vm_compute in E1].
  destruct (get_newsapi_mom_analysis "2025-09" (fresh db_stored no_fault))
    as [[analysis|e] s2'] eqn:E2; [|by vm_compute in E2].
  exists summary, analysis. split; [done|]. split; [done|].
  destruct (C6_sorted_descending_null_as_zero MoM "2025-09" None
              (fresh db_stored no_fault) s' summary "2025-09"
              (fresh db_stored no_fault) s2' analysis E1 E2) as (H1 & _ & H3).
  split; [exact H1|exact H3].
Defined.

End SortClaims.

(** ** C7: rank delta against the previous month *)

Section DeltaClaims.
Import Storage PyMonth Comprehensive ComprehensiveApi Spec Demo.







End DeltaClaims.

Section DeltaWitness.
Import Storage PyMonth Comprehensive ComprehensiveApi Spec Demo Demo2.


End DeltaWitness.

(** ** C8: the status of an analysed company *)

Section StatusClaims.
Import PyFloat PyDecimal ChangeMetric Storage PyMonth PeriodAnalyzer StatusSpec
  Demo Demo2.

Lemma try_except_Ok {A : Type} (body : M A) (handler : exn -> M A)
    (s s' : session) (r : A) :
  try_except body handler s = (Ok r, s') ->
  body s = (Ok r, s')
  \/ exists e s1, body s = (Raise e, s1) /\ handler e s1 = (Ok r, s').
Proof.
  unfold try_except. destruct (body s) as [[a|e] s1]; [by left|].
  intros H. right. eauto.
Qed.

Lemma for_each_inv_state {A B : Type} (I : B -> session -> Prop)
    (items : list A) (body : B -> A -> M B) :
  (forall acc x s r s', I acc s -> body acc x s = (Ok r, s') -> I r s') ->
  forall acc s r s',
    I acc s -> for_each items body acc s = (Ok r, s') -> I r s'.
Proof.
  intros Hbody. induction items as [|x items IH]; intros acc s r s' Hacc; simpl.
  - by intros [-> ->]%ret_Ok.
  - intros (acc' & s1 & H1 & H2)%bind_Ok. eauto.
Qed.

Lemma first_mention_Ok (company : Z) (month : string) (sources : list string)
    (s s' : session) (r : option MonthlyMention) :
  first_mention company month sources s = (Ok r, s') ->
  r = find_mention (data s) company month sources /\ data s' = data s.
Proof.
  unfold first_mention. intros (_ & -> & ->)%perform_Ok. done.
Qed.

Lemma newsapi_company_row_rule (company : Company) (target previous : string)
    (s s' : session) (row : newsapi_row) :
  newsapi_company_row company target previous s = (Ok row, s') ->
  data s' = data s /\ n_previous_month row = previous
  /\ newsapi_status_rule (data s) row.
Proof.
  unfold newsapi_company_row.
  intros (cur & s1 & [-> Hd1]%first_mention_Ok & H)%bind_Ok.
  apply bind_Ok in H as (prev & s2 & [-> Hd2]%first_mention_Ok & H).
  apply bind_Ok in H as (ch & s3 & [_ ->]%lift_Ok & H).
  apply ret_Ok in H as [-> ->].
  split; [congruence|]. split; [done|].
  unfold newsapi_status_rule. cbn. rewrite Hd1.
  destruct (find_mention (data s) (company_id company) target ["newsapi"]),
    (find_mention (data s) (company_id company) previous ["newsapi"]);
    cbn; intuition (try discriminate; try congruence).
Qed.

Lemma newsapi_analysis_rule (target_month : string) (s s' : session)
    (analysis : newsapi_analysis) :
  get_newsapi_mom_analysis target_month s = (Ok analysis, s') ->
  Forall (newsapi_status_rule (data s)) (na_results analysis).
Proof.
  unfold get_newsapi_mom_analysis.
  intros ([year month] & s1 & [_ ->]%lift_Ok & H)%bind_Ok.
  apply bind_Ok in H as (companies & s2 & Hc & H).
  apply perform_Ok in Hc as (_ & _ & Hs2).
  assert (Hd2 : data s2 = data s) by (by rewrite Hs2).
  apply bind_Ok in H as (rows & s3 & Hrows & H).
  apply ret_Ok in H as [-> _]. cbn [na_results].
  unfold PySort.sort_by_float_desc. rewrite sort_stable_perm.
  assert (HI : Forall (newsapi_status_rule (data s)) rows /\ data s3 = data s);
    [|by destruct HI].
  revert Hrows.
  apply (for_each_inv_state
           (fun rows t => Forall (newsapi_status_rule (data s)) rows
                          /\ data t = data s)); [|by split].
  intros acc company t r t' [Hacc Ht] (row & t1 & Hrow & Hret)%bind_Ok.
  apply ret_Ok in Hret as [-> ->].
  apply newsapi_company_row_rule in Hrow as (Hd & _ & Hrule).
  rewrite Ht in Hrule. split; [|congruence].
  apply Forall_app. split; [done|]. constructor; [done|constructor].
Qed.

Lemma yoy_company_success (company : Company) (target previous : string)
    (s s' : session) (r : company_result) :
  _calculate_company_yoy company target previous s = (Ok r, s') ->
  completed_is_success r.
Proof.
  unfold _calculate_company_yoy.
  intros (cur & s1 & _ & H)%bind_Ok.
  apply bind_Ok in H as (prev & s2 & _ & H).
  apply bind_Ok in H as (pct & s3 & _ & H).
  apply bind_Ok in H as (existing & s4 & _ & H).
  apply bind_Ok in H as (u & s5 & _ & H).
  apply ret_Ok in H as [-> _]. done.
Qed.

Lemma endpoint_company_success (company : Company) (target previous : string)
    (s s' : session) (r : company_result) :
  endpoint_company_row company target previous s = (Ok r, s') ->
  completed_is_success r.
Proof.
  unfold endpoint_company_row.
  intros (cur & s1 & _ & H)%bind_Ok.
  apply bind_Ok in H as (prev & s2 & _ & H).
  apply bind_Ok in H as (ch & s3 & _ & H).
  apply ret_Ok in H as [-> _]. done.
Qed.

Lemma yoy_results_success (now : Z * Z) (target_month : option string)
    (company_ids : option (list Z)) (s s' : session) (summary : analysis_summary) :
  calculate_monthly_yoy_analysis now target_month company_ids s
    = (Ok summary, s') ->
  Forall completed_is_success (results summary).
Proof.
  unfold calculate_monthly_yoy_analysis.
  destruct (parse_year_month _) as [[y m]|e]; [|done].
  intros (companies & s1 & _ & H)%bind_Ok.
  apply bind_Ok in H as ([[rs ok] bad] & s2 & Hloop & H).
  apply ret_Ok in H as [-> _]. cbn [results].
  revert Hloop.
  apply (for_each_inv (fun acc : tally => Forall completed_is_success acc.1.1));
    [|constructor].
  intros [[rs0 ok0] bad0] company t r t' Hacc Hbody. cbn in Hacc.
  apply try_except_Ok in Hbody as [Hb|(e & t1 & _ & Hh)].
  - apply bind_Ok in Hb as (res & t1 & Hres & Hret).
    apply ret_Ok in Hret as [-> _].
    apply yoy_company_success in Hres.
    unfold record_result. destruct (str_eqb _ _); cbn;
      (apply Forall_app; split; [done|constructor; [done|constructor]]).
  - apply bind_Ok in Hh as (name & t2 & _ & Hh).
    apply ret_Ok in Hh as [-> _]. cbn.
    apply Forall_app; split; [done|constructor; [done|constructor]].
Qed.

Lemma endpoint_results_success (target_month : string)
    (company_ids : option (list Z)) (s s' : session) (summary : analysis_summary) :
  newsapi_mom_endpoint target_month company_ids s = (Ok summary, s') ->
  Forall completed_is_success (results summary).
Proof.
  unfold newsapi_mom_endpoint.
  destruct (parse_year_month _) as [[y m]|e]; [|done].
  intros (companies & s1 & _ & H)%bind_Ok.
  apply bind_Ok in H as ([[rs ok] bad] & s2 & Hloop & H).
  apply ret_Ok in H as [-> _]. cbn [results].
  revert Hloop.
  apply (for_each_inv (fun acc : tally => Forall completed_is_success acc.1.1));
    [|constructor].
  intros [[rs0 ok0] bad0] company t r t' Hacc Hbody. cbn in Hacc.
  apply try_except_Ok in Hbody as [Hb|(e & t1 & _ & Hh)].
  - apply bind_Ok in Hb as (res & t1 & Hres & Hret).
    apply ret_Ok in Hret as [-> _].
    apply endpoint_company_success in Hres. cbn.
    apply Forall_app; split; [done|constructor; [done|constructor]].
  - apply ret_Ok in Hh as [-> _]. cbn.
    apply Forall_app; split; [done|constructor; [done|constructor]].
Qed.

(** C8 (the defect). On a store that holds an active company and no
    mention row, the NewsAPI service reports the company with status
    "no_data", as the claim says. The [/analysis/newsapi-mom] endpoint,
    which repeats the loop of the service without its status rule, and the
    year-over-year analysis report the same company, with both counts 0,
    as "success". In general, the service follows the rule on every store,
    and on the two other paths every company whose look-up completed is
    reported as "success". *)
Theorem C8_no_data_reported_as_success :
  let s := fresh db_no_mentions no_fault in
  monthly_mentions db_no_mentions = []
  /\ (exists news,
        fst (get_newsapi_mom_analysis "2025-09" s) = Ok news
        /\ map (fun r => (n_company_id r, n_current_mentions r,
                          n_previous_mentions r, n_status r))
             (na_results news) = [(1, 0, 0, "no_data")])
  /\ (exists ep,
        fst (newsapi_mom_endpoint "2025-09" None s) = Ok ep
        /\ results ep
           = [ResultRow 1 "Acme" "2025-09" 0 0 (Some fzero) "0.0%" "success"])
  /\ fst (calculate_monthly_yoy_analysis (2025, 9) (Some "2025-09") None s)
     = Ok (mkSummary "2025-09" "2024-09" 1 1 0
             [ResultRow 1 "Acme" "2025-09" 0 0 None "0.0%" "success"])
  /\ (forall month s1 s1' news,
        get_newsapi_mom_analysis month s1 = (Ok news, s1') ->
        Forall (newsapi_status_rule (data s1)) (na_results news))
  /\ (forall month ids s1 s1' ep,
        newsapi_mom_endpoint month ids s1 = (Ok ep, s1') ->
        Forall completed_is_success (results ep))
  /\ (forall now month ids s1 s1' yoy,
        calculate_monthly_yoy_analysis now month ids s1 = (Ok yoy, s1') ->
        Forall completed_is_success (results yoy)).
Proof.
  intros s. split; [reflexivity|]. split.
  { eexists. split; vm_compute; reflexivity. }
  split.
  { eexists. split; vm_compute; reflexivity. }
  split; [vm_compute; reflexivity|]. split; [|split].
  - intros month s1 s1' news H. by apply newsapi_analysis_rule in H.
  - intros month ids s1 s1' ep H. by apply endpoint_results_success in H.
  - intros now month ids s1 s1' yoy H. by apply yoy_results_success in H.
Qed.

End StatusClaims.

(** ** Which operations reach the store *)

Section LogFacts.
Import Storage PyMonth PeriodAnalyzer Comprehensive ComprehensiveApi LogSpec.

Lemma grows_ret {A : Type} (a : A) : log_grows (mret a : M A).
Proof. intros s. by exists []. Qed.

Lemma grows_raise {A : Type} (e : exn) : log_grows (raise e : M A).
Proof. intros s. by exists []. Qed.

Lemma grows_lift {A : Type} (r : py_result A) : log_grows (lift r).
Proof. intros s. by exists []. Qed.

Lemma grows_read_attribute {A : Type} (a : A) : log_grows (read_attribute a).
Proof. intros s. exists []. by rewrite read_attribute_state. Qed.

Lemma grows_perform {A : Type} (op : db_op) (run : database -> A * database) :
  log_grows (perform op run).
Proof. intros s. exists [op]. by rewrite perform_logs. Qed.

Lemma grows_bind {A B : Type} (m : M A) (f : A -> M B) :
  log_grows m -> (forall a, log_grows (f a)) -> log_grows (m ≫= f).
Proof.
  intros Hm Hf s. unfold mbind, M_bind.
  destruct (Hm s) as [ops1 H1]. destruct (m s) as [[a|e] s1]; simpl in H1.
  - destruct (Hf a s1) as [ops2 H2]. exists (ops2 ++ ops1)%list.
    by rewrite H2, H1, app_assoc.
  - by exists ops1.
Qed.

Lemma grows_try_except {A : Type} (body : M A) (handler : exn -> M A) :
  log_grows body -> (forall e, log_grows (handler e)) ->
  log_grows (try_except body handler).
Proof.
  intros Hm Hf s. unfold try_except.
  destruct (Hm s) as [ops1 H1]. destruct (body s) as [[a|e] s1]; simpl in H1.
  - by exists ops1.
  - destruct (Hf e s1) as [ops2 H2]. exists (ops2 ++ ops1)%list.
    by rewrite H2, H1, app_assoc.
Qed.

Lemma grows_attempt {A : Type} (m : M A) : log_grows m -> log_grows (attempt m).
Proof.
  intros Hm s. unfold attempt. destruct (Hm s) as [ops H].
  destruct (m s) as [r s1]. by exists ops.
Qed.

Lemma grows_for_each {A B : Type} (items : list A) (body : B -> A -> M B) :
  (forall acc x, log_grows (body acc x)) ->
  forall acc, log_grows (for_each items body acc).
Proof.
  intros Hbody. induction items as [|x items IH]; intros acc; simpl.
  - apply grows_ret.
  - apply grows_bind; [apply Hbody|apply IH].
Qed.

Lemma first_sends_perform {A : Type} (op : db_op)
    (run : database -> A * database) :
  first_sends (perform op run) op.
Proof. intros s. exists []. by rewrite perform_logs. Qed.

Lemma first_sends_bind {A B : Type} (m : M A) (f : A -> M B) (op : db_op) :
  first_sends m op -> (forall a, log_grows (f a)) -> first_sends (m ≫= f) op.
Proof.
  intros Hm Hf s. unfold mbind, M_bind.
  destruct (Hm s) as [ops1 H1]. destruct (m s) as [[a|e] s1]; simpl in H1.
  - destruct (Hf a s1) as [ops2 H2]. exists (ops2 ++ ops1)%list.
    by rewrite H2, H1, app_assoc.
  - by exists ops1.
Qed.

Lemma first_sends_try_except {A : Type} (body : M A) (handler : exn -> M A)
    (op : db_op) :
  first_sends body op -> (forall e, log_grows (handler e)) ->
  first_sends (try_except body handler) op.
Proof.
  intros Hm Hf s. unfold try_except.
  destruct (Hm s) as [ops1 H1]. destruct (body s) as [[a|e] s1]; simpl in H1.
  - by exists ops1.
  - destruct (Hf e s1) as [ops2 H2]. exists (ops2 ++ ops1)%list.
    by rewrite H2, H1, app_assoc.
Qed.

Local Ltac grows :=
  repeat first
    [ apply grows_ret | apply grows_raise | apply grows_lift
    | apply grows_perform | apply grows_attempt
    | apply grows_for_each; intros
    | apply grows_try_except; [|intros]
    | apply grows_bind; [|intros]
    | match goal with
      | |- log_grows (let '(_, _) := ?p in _) => destruct p
      | |- log_grows (match ?p with _ => _ end) => destruct p
      end ].

Lemma grows_company_yoy (company : Company) (target previous : string) :
  log_grows (_calculate_company_yoy company target previous).
Proof.
  unfold _calculate_company_yoy, first_mention, first_analysis, upsert_analysis.
  grows.
Qed.

Lemma grows_newsapi_mom (target_month : string) :
  log_grows (get_newsapi_mom_analysis target_month).
Proof.
  unfold get_newsapi_mom_analysis, newsapi_company_row, active_companies,
    first_mention. grows.
Qed.

Lemma grows_gdelt_fallback (month : string) :
  log_grows (get_gdelt_ranking_data_fallback month).
Proof.
  unfold get_gdelt_ranking_data_fallback, active_companies, first_mention.
  grows.
Qed.

Lemma grows_ranking_changes (target_month : string)
    (current_ranking : list combined_entry) :
  (forall month, log_grows (fetch_sources month)) ->
  log_grows (calculate_ranking_changes target_month current_ranking).
Proof.
  intros Hf. unfold calculate_ranking_changes.
  apply grows_bind; [apply grows_lift|]. intros [year month].
  apply grows_bind; [apply grows_attempt, Hf|]. intros. apply grows_ret.
Qed.

Lemma gdelt_first_sends (month : string) :
  first_sends (get_gdelt_ranking_data month)
    (SelectAnalysesOfMonth MoM month None true).
Proof.
  unfold get_gdelt_ranking_data, analyses_of_month.
  apply first_sends_try_except.
  - apply first_sends_bind; [apply first_sends_perform|].
    intros. apply grows_ret.
  - intros. apply grows_gdelt_fallback.
Qed.

Lemma fetch_first_sends (month : string) :
  first_sends (fetch_sources month) (SelectAnalysesOfMonth MoM month None true).
Proof.
  unfold fetch_sources.
  apply first_sends_bind; [apply gdelt_first_sends|]. intros gdelt_data.
  apply grows_bind; [apply grows_newsapi_mom|]. intros. apply grows_ret.
Qed.

Lemma grows_fetch_sources (month : string) : log_grows (fetch_sources month).
Proof.
  intros s. destruct (fetch_first_sends month s) as [ops H].
  exists (ops ++ [SelectAnalysesOfMonth MoM month None true])%list.
  rewrite H, <- app_assoc. done.
Qed.

(** The year-over-year analysis of a month key that is two integers,
    whatever their range, asks the store for the companies first. *)
Lemma yoy_first_sends (now : Z * Z) (target_month : option string)
    (company_ids : option (list Z)) (year month : Z) :
  parse_year_month (month_or_now now target_month) = Ok (year, month) ->
  first_sends (calculate_monthly_yoy_analysis now target_month company_ids)
    (SelectActiveCompanies company_ids).
Proof.
  intros Hparse. unfold calculate_monthly_yoy_analysis. rewrite Hparse.
  unfold active_companies.
  apply first_sends_bind; [apply first_sends_perform|]. intros companies.
  apply grows_bind; [|intros [[? ?] ?]; apply grows_ret].
  apply grows_for_each. intros acc company.
  apply grows_try_except.
  - apply grows_bind; [apply grows_company_yoy|intros; apply grows_ret].
  - intros e. destruct acc as [[? ?] ?].
    apply grows_bind; [apply grows_read_attribute|intros; apply grows_ret].
Qed.

(** The combined-ranking endpoint reads the stored analyses of the month
    key it is given, whatever the key is. *)
Lemma comprehensive_first_sends (target_month : string) :
  first_sends (get_comprehensive_ranking target_month)
    (SelectAnalysesOfMonth MoM target_month None true).
Proof.
  unfold get_comprehensive_ranking.
  apply first_sends_try_except; [|intros; apply grows_raise].
  apply first_sends_bind; [apply fetch_first_sends|].
  intros [gdelt_data newsapi_data].
  apply grows_bind; [|intros; apply grows_ret].
  apply grows_ranking_changes. apply grows_fetch_sources.
Qed.

End LogFacts.

(** ** C9: validation of the month key *)

Section MonthClaims.
Import Storage PyMonth PeriodAnalyzer ComprehensiveApi LogSpec Demo.

(** The [/analysis/monthly-mom] endpoint rejects every month key that
    [strptime] rejects, and sends nothing to the store before it does. *)
Lemma monthly_mom_rejects_before_storage (now : Z * Z) (month : option string)
    (company_ids : option (list Z)) (s : session) (e : exn) :
  strptime_Y_m (month_or_now now month) = Raise e ->
  get_monthly_mom_analysis now month company_ids s
  = (Raise (HTTPException 400 "月份格式错误，应为YYYY-MM"), s).
Proof. intros H. unfold get_monthly_mom_analysis. by rewrite H. Qed.

(** The year-over-year analysis rejects a month key that does not split
    into two integers, before it sends anything to the store. *)
Lemma yoy_rejects_malformed_before_storage (now : Z * Z)
    (target_month : option string) (company_ids : option (list Z))
    (s : session) (e : exn) :
  parse_year_month (month_or_now now target_month) = Raise e ->
  calculate_monthly_yoy_analysis now target_month company_ids s
  = (Raise bad_month, s).
Proof. intros H. unfold calculate_monthly_yoy_analysis. by rewrite H. Qed.

(** C9. The month key "2025-13" is rejected by [strptime] but is two
    integers for [map(int, split("-"))]. The year-over-year analysis
    therefore takes it: on every store and for every selection of companies
    its first act is to ask the store for the companies, and on the example
    store it compares with "2024-13", reads the mentions and writes three
    analysis rows. The combined-ranking endpoint does not validate: for
    every month key its first act is to read the stored analyses of that
    key, and on the example store it answers for "2025-13". Only the
    [/analysis/monthly-mom] endpoint fails with status 400 and leaves the
    store untouched. *)
Theorem C9_month_13_reaches_storage :
  strptime_Y_m "2025-13" = Raise (ValueError "unconverted data remains")
  /\ parse_year_month "2025-13" = Ok (2025, 13)
  /\ (forall now company_ids,
        first_sends
          (calculate_monthly_yoy_analysis now (Some "2025-13") company_ids)
          (SelectActiveCompanies company_ids))
  /\ (let r := calculate_monthly_yoy_analysis (2025, 9) (Some "2025-13") None
                 (fresh db_stored no_fault) in
      (exists summary, fst r = Ok summary
                       /\ previous_month summary = "2024-13"
                       /\ successful_analyses summary = 3)
      /\ In (SelectMention 1 "2025-13" []) (log (snd r))
      /\ existsb is_write (log (snd r)) = true)
  /\ (forall target_month,
        first_sends (get_comprehensive_ranking target_month)
          (SelectAnalysesOfMonth MoM target_month None true))
  /\ (exists response,
        fst (get_comprehensive_ranking "2025-13" (fresh db_stored no_fault))
        = Ok response)
  /\ (forall s,
        get_monthly_mom_analysis (2025, 9) (Some "2025-13") None s
        = (Raise (HTTPException 400 "月份格式错误，应为YYYY-MM"), s)).
Proof.
  split; [vm_compute; reflexivity|].
  split; [vm_compute; reflexivity|].
  split; [|split; [|split; [|split]]].
  - intros now company_ids. apply (yoy_first_sends _ _ _ 2025 13).
    vm_compute. reflexivity.
  - cbv zeta. split; [|split].
    + eexists. split; [vm_compute; reflexivity|]. split; reflexivity.
    + vm_compute. tauto.
    + vm_compute. reflexivity.
  - apply comprehensive_first_sends.
  - eexists. vm_compute. reflexivity.
  - intros s.
    apply (monthly_mom_rejects_before_storage _ _ _ _
             (ValueError "unconverted data remains")).
    vm_compute. reflexivity.
Qed.

End MonthClaims.

(** ** C1 and C2: the percentage change *)

Section ChangeClaims.
Import PyFloat PyDecimal ChangeMetric.

(** What [_format_percentage_change] prints follows the sign of the float
    it formats: a leading "+" before a positive value, the value's own "-"
    for a negative one, and "0.0%" otherwise. *)
Lemma format_percentage_change_sign (d : decimal) :
  let value := to_float d in
  (fgt value fzero = true ->
     _format_percentage_change (Some d) = "+" ++ format_f 1 value ++ "%"
     /\ sign_bit value = false)
  /\ (flt value fzero = true ->
      _format_percentage_change (Some d) = format_f 1 value ++ "%"
      /\ exists rest, format_f 1 value = String "-" rest)
  /\ (fgt value fzero = false -> flt value fzero = false ->
      _format_percentage_change (Some d) = "0.0%").
Proof.
  intros value. unfold _format_percentage_change. fold value.
  split; [|split].
  - intros H. rewrite H. split; [done|].
    unfold fgt, fzero, SFltb in H. by destruct value as [?|[]| |[] ? ?].
  - intros H.
    assert (Hg : fgt value fzero = false).
    { unfold fgt, flt, fzero, SFltb in *. by destruct value as [?|[]| |[] ? ?]. }
    rewrite Hg, H. split; [done|].
    unfold flt, fzero, SFltb in H.
    destruct value as [?|[]| |[] ? ?]; try done; unfold format_f; simpl; eauto.
  - by intros -> ->.
Qed.

(** The zero and the unbounded-growth cases are the same on the three
    paths. *)
Lemma change_metric_zero_previous (current : Z) :
  0 <= current ->
  (current = 0 ->
     _calculate_percentage_change current 0 = Ok dec_0_0
     /\ _format_percentage_change (Some dec_0_0) = "0.0%"
     /\ newsapi_service_change current 0
        = Ok (mkNewsapiChange (S754_zero false) "0.0%")
     /\ newsapi_endpoint_change current 0
        = Ok (mkNewsapiChange (S754_zero false) "0.0%"))
  /\ (0 < current ->
      _calculate_percentage_change current 0 = Ok dec_999_0
      /\ _format_percentage_change (Some dec_999_0) = "+999.0%"
      /\ newsapi_service_change current 0
         = Ok (mkNewsapiChange (of_int 999) "+999.0%")
      /\ newsapi_endpoint_change current 0
         = Ok (mkNewsapiChange (of_int 999) "+999.0%")).
Proof.
  intros Hc. split.
  - intros ->. repeat split; vm_compute; reflexivity.
  - intros Hpos.
    unfold _calculate_percentage_change, newsapi_service_change,
      newsapi_endpoint_change, newsapi_inline_change.
    change (0 =? 0) with true. cbv iota.
    destruct (Z.eqb_spec current 0) as [->|_]; [lia|].
    repeat split; vm_compute; reflexivity.
Qed.

(** C1. For current 10001 and previous 10000 the NewsAPI service returns
    the value 0.0 with the string "+0.0%", and for 9999 and 10000 the value
    -0.0 with "-0.0%": the sign is taken before the value is rounded.
    [_calculate_percentage_change] with [_format_percentage_change] gives
    "0.0%" on both inputs. *)
Theorem C1_newsapi_zero_value_keeps_sign :
  newsapi_service_change 10001 10000
    = Ok (mkNewsapiChange (S754_zero false) "+0.0%")
  /\ newsapi_service_change 9999 10000
     = Ok (mkNewsapiChange (S754_zero true) "-0.0%")
  /\ _calculate_percentage_change 10001 10000 = Ok dec_0_0
  /\ _format_percentage_change (Some dec_0_0) = "0.0%"
  /\ (exists d, _calculate_percentage_change 9999 10000 = Ok d
                /\ dcoeff d = 0
                /\ _format_percentage_change (Some d) = "0.0%").
Proof.
  split; [vm_compute; reflexivity|].
  split; [vm_compute; reflexivity|].
  split; [vm_compute; reflexivity|].
  split; [vm_compute; reflexivity|].
  eexists. split; [vm_compute; reflexivity|]. split; vm_compute; reflexivity.
Qed.

(** C2. For previous 400 and current 401 the exact percentage is 0.25, so
    round-half-up gives 0.3: [_calculate_percentage_change] returns 0.3,
    the NewsAPI service returns 0.2 ([round] takes ties to even) and the
    [/analysis/newsapi-mom] endpoint returns the unrounded 0.25. For
    previous 80 and current 103 the exact percentage is 28.75, so
    round-half-up gives 28.8, but the float product is below 28.75 and
    [_calculate_percentage_change] returns 28.7. *)
Theorem C2_rounding_differs_by_path :
  exact_half_up_tenths 401 400 = 3
  /\ (exists d, _calculate_percentage_change 401 400 = Ok d /\ tenths d = 3)
  /\ (exists r, newsapi_service_change 401 400 = Ok r
                /\ change_percentage r = of_ratio 2 10
                /\ scaled_round 1 (change_percentage r) = 2)
  /\ (exists r, newsapi_endpoint_change 401 400 = Ok r
                /\ change_percentage r = of_ratio 25 100)
  /\ exact_half_up_tenths 103 80 = 288
  /\ (exists d, _calculate_percentage_change 103 80 = Ok d /\ tenths d = 287).
Proof.
  split; [reflexivity|].
  split; [eexists; split; vm_compute; reflexivity|].
  split; [eexists; split; [vm_compute; reflexivity|split; vm_compute; reflexivity]|].
  split; [eexists; split; vm_compute; reflexivity|].
  split; [reflexivity|].
  eexists; split; vm_compute; reflexivity.
Qed.

End ChangeClaims.

(** ** C5: the heat index and its level *)

Section HeatClaims.
Import PyFloat FloatOrder HeatIndexReducer.

(** Rounding to the nearest integer, ties to even, is off by at most a
    half. *)
Lemma rne_div_error (n d : Z) :
  0 <= n -> 0 < d -> 2 * Z.abs (n - rne_div n d * d) <= d.
Proof.
  intros Hn Hd. unfold rne_div.
  pose proof (Z.div_mod n d ltac:(lia)) as Hdm.
  pose proof (Z.mod_pos_bound n d Hd) as Hr.
  destruct (Z.compare_spec (2 * (n mod d)) d) as [H|H|H].
  - destruct (Z.even (n / d)); nia.
  - nia.
  - nia.
Qed.

(** The ladder of [heat_level] read as intervals: a level is reached
    exactly between its threshold and the next one up. *)
Lemma heat_level_intervals (h : float) :
  (fge h f_1_0 = true -> heat_level h = "极热")
  /\ (fge h f_0_5 = true -> fge h f_1_0 = false -> heat_level h = "很热")
  /\ (fge h f_0_2 = true -> fge h f_0_5 = false -> heat_level h = "较热")
  /\ (fge h f_0_1 = true -> fge h f_0_2 = false -> heat_level h = "温热")
  /\ (fgt h fzero = true -> fge h f_0_1 = false -> heat_level h = "微热")
  /\ (fgt h fzero = false -> heat_level h = "冷门").
Proof.
  assert (Hnan : h = S754_nan \/ not_nan h).
  { destruct h; [right|right|left|right]; done. }
  destruct Hnan as [->|Hn].
  { repeat split; intros; done. }
  assert (N1 : not_nan f_1_0) by (by vm_compute).
  assert (N5 : not_nan f_0_5) by (by vm_compute).
  assert (N2 : not_nan f_0_2) by (by vm_compute).
  assert (N01 : not_nan f_0_1) by (by vm_compute).
  assert (N0 : not_nan fzero) by (by vm_compute).
  pose proof (fge_order_key h f_1_0 Hn N1) as K1.
  pose proof (fge_order_key h f_0_5 Hn N5) as K5.
  pose proof (fge_order_key h f_0_2 Hn N2) as K2.
  pose proof (fge_order_key h f_0_1 Hn N01) as K01.
  pose proof (flt_order_key fzero h N0 Hn) as K0.
  change (flt fzero h) with (fgt h fzero) in K0.
  unfold heat_level.
  vm_compute (order_key f_1_0) in K1. vm_compute (order_key f_0_5) in K5.
  vm_compute (order_key f_0_2) in K2. vm_compute (order_key f_0_1) in K01.
  vm_compute (order_key fzero) in K0.
  destruct (order_key h) as [[a b] c]. unfold lex_lt in *.
  destruct (fge h f_1_0), (fge h f_0_5), (fge h f_0_2), (fge h f_0_1),
    (fgt h fzero); repeat split; intros; try done; exfalso;
    repeat match goal with
      | H : ?b = true <-> ?Q |- _ =>
          destruct H as [Ha Hb];
          first [ specialize (Ha eq_refl)
                | assert (~ Q) by (intros C; discriminate (Hb C)); clear Ha Hb ]
      end; lia.
Qed.

End HeatClaims.

(** ** Float thresholds against exact fractions *)

Section ThresholdFacts.
Import PyFloat FloatValue HeatIndexReducer.

Lemma digits2_pos_bounds (m : positive) :
  2 ^ (Zpos (digits2_pos m) - 1) <= Zpos m < 2 ^ Zpos (digits2_pos m).
Proof.
  induction m as [p IH|p IH|]; simpl digits2_pos.
  - rewrite Pos2Z.inj_succ.
    replace (Z.succ (Z.pos (digits2_pos p)) - 1) with (Z.succ (Z.pos (digits2_pos p) - 1)) by lia.
    rewrite !Z.pow_succ_r by lia. lia.
  - rewrite Pos2Z.inj_succ.
    replace (Z.succ (Z.pos (digits2_pos p)) - 1) with (Z.succ (Z.pos (digits2_pos p) - 1)) by lia.
    rewrite !Z.pow_succ_r by lia. lia.
  - simpl. lia.
Qed.

(** What canonical form gives: fewer than 2^53, and at least 2^52 above
    the lowest exponent. *)
Lemma bounded_mantissa (m : positive) (e : Z) :
  bounded prec emax m e = true ->
  Zpos m < 2 ^ 53 /\ -1074 <= e /\ (-1074 < e -> 2 ^ 52 <= Zpos m).
Proof.
  unfold bounded, canonical_mantissa, fexp, SpecFloat.emin, prec, emax.
  intros [Hc _]%andb_prop. apply Z.eqb_eq in Hc.
  pose proof (digits2_pos_bounds m) as [Hlo Hhi].
  set (dm := Zpos (digits2_pos m)) in *.
  assert (Hd : dm <= 53) by lia.
  split; [|split].
  - eapply Z.lt_le_trans; [exact Hhi|]. apply Z.pow_le_mono_r; lia.
  - lia.
  - intros He. assert (dm = 53) as Hdm by lia. rewrite Hdm in Hlo. exact Hlo.
Qed.

Lemma fge_threshold_exact (mc : positive) (ec n d : Z) (h : float) :
  is_binary64 h ->
  -1074 <= ec -> ec < 0 -> 0 < n -> 0 < d ->
  Zpos mc < 2 ^ 53 ->
  n * 2 ^ (- ec) <= Zpos mc * d ->
  (Zpos mc - 1) * d < n * 2 ^ (- ec) ->
  (2 ^ 53 - 1) * d < 2 * (n * 2 ^ (- ec)) ->
  (fge h (S754_finite false mc ec) = true <-> value_ge h n d).
Proof.
  intros Hv Hec0 Hec Hn Hd Hmc Hge Hpred Hlow.
  unfold fge, SFleb, value_ge.
  destruct h as [s|s| |s m e]; simpl.
  - split; [done|lia].
  - destruct s; split; done.
  - split; done.
  - unfold is_binary64 in Hv. simpl in Hv.
    apply bounded_mantissa in Hv as (Hm53 & Hemin & Hm52).
    assert (Hpc : 0 < 2 ^ (- ec)) by (apply Z.pow_pos_nonneg; lia).
    destruct s.
    + unfold num_den. destruct (Z.leb_spec 0 e).
      * split; [done|]. assert (0 < 2 ^ e) by (apply Z.pow_pos_nonneg; lia). nia.
      * split; [done|]. assert (0 < 2 ^ (- e)) by (apply Z.pow_pos_nonneg; lia). nia.
    + change (2 ^ 53) with 9007199254740992 in *.
      change (2 ^ 52) with 4503599627370496 in *.
      destruct (Z.compare_spec ec e) as [Heq|Hlt|Hgt].
      * subst e. unfold num_den. destruct (Z.leb_spec 0 ec); [lia|].
        change (Pos.compare_cont Eq mc m) with (Pos.compare mc m).
        destruct (Pos.compare_spec mc m) as [->|Hc|Hc]; split; try done.
        -- intros _. assert (Z.pos mc * d <= Z.pos m * d) by nia. lia.
        -- intros Hle. assert (Z.pos m * d <= (Z.pos mc - 1) * d) by nia. lia.
      * specialize (Hm52 ltac:(lia)). split; [intros _|done].
        assert (Hmd : 4503599627370496 * d <= Z.pos m * d) by nia.
        unfold num_den. destruct (Z.leb_spec 0 e).
        -- assert (1 <= 2 ^ e) by (apply (Z.pow_le_mono_r 2 0 e); lia).
           assert (2 <= 2 ^ (- ec)) by (apply (Z.pow_le_mono_r 2 1 (- ec)); lia).
           assert (n * 2 <= n * 2 ^ (- ec)) by nia.
           assert (Z.pos mc * d < 9007199254740992 * d) by nia.
           assert (Z.pos m * d <= Z.pos m * 2 ^ e * d) by nia.
           lia.
        -- assert (Hsplit : 2 ^ (- ec) = 2 ^ (- e) * 2 ^ (e - ec)).
           { rewrite <- Z.pow_add_r by lia. f_equal. lia. }
           assert (2 <= 2 ^ (e - ec)) by (apply (Z.pow_le_mono_r 2 1 (e - ec)); lia).
           assert (0 < 2 ^ (- e)) by (apply Z.pow_pos_nonneg; lia).
           assert (n * 2 ^ (- e) * 2 <= n * 2 ^ (- e) * 2 ^ (e - ec)) by nia.
           assert (Z.pos mc * d < 9007199254740992 * d) by nia.
           rewrite Hsplit in Hge. lia.
      * split; [done|]. unfold num_den. destruct (Z.leb_spec 0 e); [lia|].
        assert (Hsplit : 2 ^ (- e) = 2 ^ (- ec) * 2 ^ (ec - e)).
        { rewrite <- Z.pow_add_r by lia. f_equal. lia. }
        assert (2 <= 2 ^ (ec - e)) by (apply (Z.pow_le_mono_r 2 1 (ec - e)); lia).
        assert (n * 2 ^ (- ec) * 2 <= n * 2 ^ (- ec) * 2 ^ (ec - e)) by nia.
        assert (Z.pos m * d <= (9007199254740992 - 1) * d) by nia.
        rewrite Hsplit. intros Hle. lia.
Qed.

End ThresholdFacts.

Section HeatTheorem.
Import PyFloat FloatOrder FloatValue HeatIndexReducer.

Local Ltac closed_arith :=
  first [ lia
        | apply Z.leb_le; vm_compute; reflexivity
        | apply Z.ltb_lt; vm_compute; reflexivity ].

(** On binary64 values the float thresholds of the ladder decide the same
    as the exact fractions 1, 1/2, 2/10 and 1/10, and [> 0] is positivity
    of the exact value. *)
Lemma heat_thresholds_exact (x : float) :
  is_binary64 x ->
  (fge x f_1_0 = true <-> value_ge x 1 1)
  /\ (fge x f_0_5 = true <-> value_ge x 5 10)
  /\ (fge x f_0_2 = true <-> value_ge x 2 10)
  /\ (fge x f_0_1 = true <-> value_ge x 1 10)
  /\ (fgt x fzero = true <-> value_pos x).
Proof.
  intros Hx.
  change f_1_0 with (S754_finite false 4503599627370496 (-52)).
  change f_0_5 with (S754_finite false 4503599627370496 (-53)).
  change f_0_2 with (S754_finite false 7205759403792794 (-55)).
  change f_0_1 with (S754_finite false 7205759403792794 (-56)).
  split; [|split; [|split; [|split]]].
  - apply fge_threshold_exact; try done; closed_arith.
  - apply fge_threshold_exact; try done; closed_arith.
  - apply fge_threshold_exact; try done; closed_arith.
  - apply fge_threshold_exact; try done; closed_arith.
  - unfold fgt, fzero, SFltb, value_pos.
    destruct x as [s|[]| |[] m e]; simpl; split; done.
Qed.

(** C5. The heat index of no samples is 0.0 and its level is the lowest
    one. The heat index of samples is their float mean (the float sum
    divided by the count) rounded to six decimals: for a finite mean with
    exact value [n / d] it is read from the decimal [k / 10^6], where [k]
    is an integer nearest to [10^6 * n / d]. The level of the heat index is
    reached between its threshold and the next one up, in the order 1.0,
    0.5, 0.2, 0.1, above 0, else the lowest; and for every binary64 value
    the float thresholds decide as the exact fractions 1, 1/2, 2/10 and
    1/10 do. *)
Theorem C5_heat_index_and_level (samples : list float) (x : float) :
  is_binary64 x ->
  let h := timelinevol_of_values samples in
  compute_heat samples = (h, heat_level h)
  /\ (samples = [] -> h = fzero /\ heat_level h = "冷门")
  /\ (samples <> [] ->
      h = py_round 6 (fdiv (fold_left fadd samples fzero)
                        (of_int (Z.of_nat (length samples))))
      /\ forall s m e, mean samples = S754_finite s m e ->
           let n := fst (num_den m e) in
           let d := snd (num_den m e) in
           let k := rne_div (n * 10 ^ 6) d in
           h = (if k =? 0 then S754_zero s
                else of_ratio (if s then - k else k) (10 ^ 6))
           /\ 2 * Z.abs (n * 10 ^ 6 - k * d) <= d)
  /\ ((fge h f_1_0 = true -> heat_level h = "极热")
      /\ (fge h f_0_5 = true -> fge h f_1_0 = false -> heat_level h = "很热")
      /\ (fge h f_0_2 = true -> fge h f_0_5 = false -> heat_level h = "较热")
      /\ (fge h f_0_1 = true -> fge h f_0_2 = false -> heat_level h = "温热")
      /\ (fgt h fzero = true -> fge h f_0_1 = false -> heat_level h = "微热")
      /\ (fgt h fzero = false -> heat_level h = "冷门"))
  /\ ((value_ge x 1 1 -> heat_level x = "极热")
      /\ (value_ge x 5 10 -> ~ value_ge x 1 1 -> heat_level x = "很热")
      /\ (value_ge x 2 10 -> ~ value_ge x 5 10 -> heat_level x = "较热")
      /\ (value_ge x 1 10 -> ~ value_ge x 2 10 -> heat_level x = "温热")
      /\ (value_pos x -> ~ value_ge x 1 10 -> heat_level x = "微热")
      /\ (~ value_pos x -> heat_level x = "冷门")).
Proof.
  intros Hx h. split; [done|]. split; [|split; [|split]].
  - intros ->. split; vm_compute; reflexivity.
  - intros Hne.
    assert (Hh : h = py_round 6 (mean samples)).
    { unfold h, timelinevol_of_values. by destruct samples. }
    split; [exact Hh|].
    intros s m e Hm n d k. rewrite Hh, Hm. unfold py_round, scaled_round.
    subst n d k. destruct (num_den m e) as [n d] eqn:End. cbn [fst snd].
    split; [done|]. apply rne_div_error.
    + unfold num_den in End. destruct (0 <=? e); injection End as <- <-; [|lia].
      apply Z.mul_nonneg_nonneg; [|lia].
      apply Z.mul_nonneg_nonneg; [lia|]. apply Z.pow_nonneg. lia.
    + unfold num_den in End.
      destruct (Z.leb_spec 0 e); injection End as <- <-; [lia|].
      apply Z.pow_pos_nonneg; lia.
  - apply heat_level_intervals.
  - destruct (heat_thresholds_exact x Hx) as (E1 & E5 & E2 & E01 & E0).
    destruct (heat_level_intervals x) as (L1 & L5 & L2 & L01 & L0 & Lc).
    repeat split.
    + intros H. apply L1, E1, H.
    + intros H N. apply L5; [by apply E5|].
      destruct (fge x f_1_0) eqn:E; [|done]. exfalso. apply N, E1. done.
    + intros H N. apply L2; [by apply E2|].
      destruct (fge x f_0_5) eqn:E; [|done]. exfalso. apply N, E5. done.
    + intros H N. apply L01; [by apply E01|].
      destruct (fge x f_0_2) eqn:E; [|done]. exfalso. apply N, E2. done.
    + intros H N. apply L0; [by apply E0|].
      destruct (fge x f_0_1) eqn:E; [|done]. exfalso. apply N, E01. done.
    + intros N. apply Lc.
      destruct (fgt x fzero) eqn:E; [|done]. exfalso. apply N, E0. done.
Qed.

(** Samples 1.2 and 0.8 have mean 1.0, the top level; the stored value
    0.25 is between 0.2 and 0.5. *)
Lemma witness_C5_mean_one :
  compute_heat [of_ratio 12 10; of_ratio 8 10] = (f_1_0, "极热")
  /\ heat_level (of_ratio 25 100) = "较热".
Proof.
  destruct (C5_heat_index_and_level [of_ratio 12 10; of_ratio 8 10]
              (of_ratio 25 100)) as (H1 & _ & _ & _ & (_ & _ & H2 & _)).
  - vm_compute. reflexivity.
  - split.
    + rewrite H1. vm_compute. reflexivity.
    + apply H2.
      * vm_compute. discriminate.
      * vm_compute. intros H. apply H. reflexivity.
Defined.

End HeatTheorem.

(** ** The worked examples of the specification *)

Section WorkedExamples.
Import PyFloat PyDecimal ChangeMetric PyMonth Storage PeriodAnalyzer Demo.

Example change_200_150 :
  exists d, _calculate_percentage_change 150 200 = Ok d
            /\ tenths d = -250
            /\ _format_percentage_change (Some d) = "-25.0%".
Proof.
  eexists. split; [vm_compute; reflexivity|].
  split; vm_compute; reflexivity.
Qed.

Example change_100_100 :
  _calculate_percentage_change 100 100 = Ok dec_0_0
  /\ _format_percentage_change (Some dec_0_0) = "0.0%".
Proof. split; vm_compute; reflexivity. Qed.

Example change_3_4 :
  exists d, _calculate_percentage_change 4 3 = Ok d
            /\ tenths d = 333
            /\ _format_percentage_change (Some d) = "+33.3%".
Proof.
  eexists. split; [vm_compute; reflexivity|].
  split; vm_compute; reflexivity.
Qed.

Example change_0_5 :
  _calculate_percentage_change 5 0 = Ok dec_999_0
  /\ _format_percentage_change (Some dec_999_0) = "+999.0%".
Proof. split; vm_compute; reflexivity. Qed.

(** January is compared with December of the year before, month over
    month, and with January of the year before, year over year. *)
Example january_rollover :
  previous_month_of 2025 1 = "2024-12"
  /\ format_year_month (2025 - 1) 1 = "2024-01".
Proof. split; vm_compute; reflexivity. Qed.

(** One company whose lookup faults does not stop the others. *)
Example partial_failure :
  match fst (calculate_monthly_yoy_analysis (2025, 9) (Some "2025-09") None
               (fresh db_stored
                  (fun op => match op with
                             | SelectMention 2 _ _ => true
                             | _ => false
                             end))) with
  | Ok summary =>
      (map result_status (results summary),
       successful_analyses summary, failed_analyses summary)
  | Raise _ => ([], 0, 0)
  end = (["success"; "failed"; "success"], 2, 1).
Proof. vm_compute. reflexivity. Qed.

End WorkedExamples.
(** ** Further properties of the rankings ([app/api/comprehensive.py]) *)

Section RankBounds.
Import Comprehensive Spec.

Lemma higher_count_below (l : list Z) (v : Z) :
  v ∈ l -> (length (filter (fun o => (v < o)%Z) l) < length l)%nat.
Proof.
  intros Hin. apply (length_filter_lt _ _ v); [done|lia].
Qed.

Lemma lower_count_below (l : list Z) (v : Z) :
  v ∈ l -> (length (filter (fun o => (o < v)%Z) l) < length l)%nat.
Proof.
  intros Hin. apply (length_filter_lt _ _ v); [done|lia].
Qed.

Lemma lower_count_none (l : list Z) (v : Z) :
  Forall (fun o => v <= o) l -> filter (fun o => (o < v)%Z) l = [].
Proof.
  induction 1 as [|o l Ho _ IH]; [done|].
  rewrite filter_cons. destruct (decide (o < v)); [lia|done].
Qed.

Lemma proper_ranking_Some
    (data : list source_row) (mentions_key name : string) (info : rank_info) :
  calculate_proper_ranking data mentions_key !! name = Some info ->
  name ∈ map company_name data /\ 1 <= rank info <= Z.of_nat (length data).
Proof.
  intros H. rewrite proper_ranking_lookup in H.
  destruct (last_row_named data name) as [r|] eqn:E; [|done].
  simpl in H. injection H as <-. simpl.
  apply last_row_named_Some in E as [Hin Hname].
  split.
  - subst name. apply list_elem_of_fmap. by exists r.
  - unfold spec_competition_rank.
    pose proof (higher_count_below
                  (map (fun o => get_mentions o mentions_key) data)
                  (get_mentions r mentions_key)) as Hlt.
    rewrite length_map in Hlt.
    assert (get_mentions r mentions_key
              ∈ map (fun o => get_mentions o mentions_key) data) as Hm
      by (apply list_elem_of_fmap; by exists r).
    specialize (Hlt Hm). lia.
Qed.

Lemma proper_ranking_is_Some
    (data : list source_row) (mentions_key name : string) :
  name ∈ map company_name data ->
  is_Some (calculate_proper_ranking data mentions_key !! name).
Proof.
  intros Hin. rewrite proper_ranking_lookup.
  destruct (last_row_named data name) eqn:E; [by eexists|].
  by apply last_row_named_None in E.
Qed.

Lemma proper_ranking_absent
    (data : list source_row) (mentions_key name : string) :
  name ∉ map company_name data ->
  calculate_proper_ranking data mentions_key !! name = None.
Proof.
  intros Hin. rewrite proper_ranking_lookup.
  apply last_row_named_None in Hin. by rewrite Hin.
Qed.

(** X1. A rank map holds exactly the names of the rows it was built from,
    and every rank it holds lies between 1 and the number of rows. *)
Theorem proper_ranking_names_and_bounds
    (data : list source_row) (mentions_key name : string) (info : rank_info) :
  calculate_proper_ranking data mentions_key !! name = Some info ->
  name ∈ map company_name data
  /\ 1 <= rank info <= Z.of_nat (length data)
  /\ (forall other, other ∈ map company_name data ->
        is_Some (calculate_proper_ranking data mentions_key !! other)).
Proof.
  intros H. apply proper_ranking_Some in H as [Hin Hb].
  split; [done|]. split; [done|].
  intros other. apply proper_ranking_is_Some.
Qed.

Lemma proper_ranking_names_and_bounds_witness :
  "C" ∈ map company_name demo_gdelt
  /\ 1 <= rank (mkRankInfo 3 30) <= Z.of_nat (length demo_gdelt)
  /\ (forall other, other ∈ map company_name demo_gdelt ->
        is_Some (calculate_proper_ranking demo_gdelt "current_month_mentions"
                   !! other)).
Proof.
  apply (proper_ranking_names_and_bounds demo_gdelt "current_month_mentions" "C").
  vm_compute. reflexivity.
Defined.

(** X2. In the combined ranking a company that a source does not list gets
    a rank in that source that is strictly worse than the rank of every
    company the source does list. *)
Theorem absent_from_source_ranks_last
    (gdelt_data newsapi_data : list source_row) (c c' : combined_entry) :
  c ∈ calculate_comprehensive_ranking gdelt_data newsapi_data ->
  c' ∈ calculate_comprehensive_ranking gdelt_data newsapi_data ->
  (ce_company_name c ∉ map company_name gdelt_data ->
   ce_company_name c' ∈ map company_name gdelt_data ->
   s_gdelt_rank (scored c') < s_gdelt_rank (scored c))
  /\ (ce_company_name c ∉ map company_name newsapi_data ->
      ce_company_name c' ∈ map company_name newsapi_data ->
      s_newsapi_rank (scored c') < s_newsapi_rank (scored c)).
Proof.
  intros Hc Hc'.
  apply comprehensive_elem in Hc as (_ & Hs & _).
  apply comprehensive_elem in Hc' as (_ & Hs' & _).
  rewrite Hs, Hs'. unfold score_company. simpl.
  split; intros Habs Hpres.
  - rewrite (proper_ranking_absent _ _ _ Habs).
    destruct (proper_ranking_is_Some gdelt_data "current_month_mentions" _ Hpres)
      as [info Hinfo].
    rewrite Hinfo. apply proper_ranking_Some in Hinfo as [_ Hb]. lia.
  - rewrite (proper_ranking_absent _ _ _ Habs).
    destruct (proper_ranking_is_Some newsapi_data "current_mentions" _ Hpres)
      as [info Hinfo].
    rewrite Hinfo. apply proper_ranking_Some in Hinfo as [_ Hb]. lia.
Qed.

Lemma absent_from_source_ranks_last_witness :
  s_newsapi_rank (scored (mkCombined (mkScored "P" 40 2 5 1 3) 1))
  < s_newsapi_rank (scored five_entry_X).
Proof.
  refine (proj2 (absent_from_source_ranks_last five_gdelt five_newsapi
                   five_entry_X (mkCombined (mkScored "P" 40 2 5 1 3) 1) _ _) _ _).
  - apply list_elem_of_In. vm_compute. tauto.
  - apply list_elem_of_In. vm_compute. tauto.
  - rewrite list_elem_of_In. vm_compute. intuition discriminate.
  - apply list_elem_of_In. vm_compute. tauto.
Defined.

End RankBounds.

Section CombinedOrder.
Import Comprehensive Spec.

Lemma StronglySorted_weaken {A : Type} (R1 R2 : A -> A -> Prop) (l : list A) :
  (forall a b, R1 a b -> R2 a b) -> StronglySorted R1 l -> StronglySorted R2 l.
Proof.
  intros HR. induction 1 as [|x l Hl IH Hx]; constructor; [done|].
  eapply Forall_impl; [exact Hx|]. apply HR.
Qed.

Lemma sort_by_int_sorted {A : Type} (key : A -> Z) (l : list A) :
  StronglySorted (fun a b => key a <= key b) (PySort.sort_by_int key l).
Proof.
  unfold PySort.sort_by_int.
  pose proof (sort_stable_sorted (fun a b => key a <? key b) (fun _ => True)) as H.
  eapply StronglySorted_weaken; [|apply H].
  - intros a b Hab. simpl in Hab. lia.
  - intros; lia.
  - intros x y z _ _ _ Hxz.
    destruct (Z.ltb_spec (key x) (key y)); [by left|right]; lia.
  - by apply Forall_forall.
Qed.

(** X3. The combined ranking comes out in ascending order of score, the
    final ranks never decrease along it, its first entry has final rank 1,
    and every final rank lies between 1 and the number of entries. *)
Theorem comprehensive_ranking_ordered (gdelt_data newsapi_data : list source_row) :
  let ranking := calculate_comprehensive_ranking gdelt_data newsapi_data in
  StronglySorted (fun a b => combined_rank_score a <= combined_rank_score b)
    ranking
  /\ StronglySorted (fun a b => final_rank a <= final_rank b) ranking
  /\ head (map final_rank ranking) = (if ranking is [] then None else Some 1)
  /\ Forall (fun c => 1 <= final_rank c <= Z.of_nat (length ranking)) ranking.
Proof.
  intros ranking. subst ranking. rewrite comprehensive_unfold.
  set (sorted := PySort.sort_by_int _ _).
  pose proof (sort_by_int_sorted s_combined_rank_score
                (map (score_company gdelt_data newsapi_data
                        (calculate_proper_ranking gdelt_data "current_month_mentions")
                        (calculate_proper_ranking newsapi_data "current_mentions"))
                     (elements (all_companies gdelt_data newsapi_data))))
    as Hsorted.
  fold sorted in Hsorted.
  set (scores := map s_combined_rank_score sorted).
  assert (forall l, StronglySorted
                      (fun a b => s_combined_rank_score a <= s_combined_rank_score b) l ->
            StronglySorted (fun a b => combined_rank_score a <= combined_rank_score b)
              (map (fun item => mkCombined item
                                  (final_rank_loop sorted (s_combined_rank_score item))) l)
            /\ StronglySorted (fun a b => final_rank a <= final_rank b)
              (map (fun item => mkCombined item
                                  (final_rank_loop sorted (s_combined_rank_score item))) l))
    as Hmap.
  { induction 1 as [|x l Hl [IH1 IH2] Hx]; simpl; [split; constructor|].
    split; constructor; try done.
    - apply Forall_fmap. eapply Forall_impl; [exact Hx|]. done.
    - apply Forall_fmap. eapply Forall_impl; [exact Hx|].
      intros y Hxy. simpl. rewrite !final_rank_loop_spec.
      pose proof (lower_count_mono (map s_combined_rank_score sorted) _ _ Hxy).
      lia. }
  destruct (Hmap _ Hsorted) as [H1 H2].
  split; [done|]. split; [done|]. split.
  - destruct sorted as [|x rest] eqn:E; [done|]. simpl.
    rewrite final_rank_loop_spec. simpl.
    apply StronglySorted_inv in Hsorted as [_ Hx].
    rewrite filter_cons. destruct (decide _) as [Hlt|_]; [lia|].
    rewrite lower_count_none; [done|].
    by apply Forall_fmap.
  - apply Forall_fmap, Forall_forall. intros item Hitem. simpl.
    rewrite final_rank_loop_spec, !length_map.
    pose proof (lower_count_below (map s_combined_rank_score sorted)
                  (s_combined_rank_score item)) as Hlt.
    rewrite length_map in Hlt.
    assert (s_combined_rank_score item ∈ map s_combined_rank_score sorted) as Hin
      by (apply list_elem_of_fmap; by exists item).
    specialize (Hlt Hin). lia.
Qed.

End CombinedOrder.
(** ** Effects of the analyses on the store *)

Section EffectFacts.
Import Storage PyMonth PeriodAnalyzer Comprehensive ComprehensiveApi Effects.

Context (R : database -> database -> Prop).
Hypothesis R_refl : forall d, R d d.
Hypothesis R_trans : forall d1 d2 d3, R d1 d2 -> R d2 d3 -> R d1 d3.

Lemma preserves_ret {A : Type} (a : A) : preserves R (mret a : M A).
Proof. intros s. apply R_refl. Qed.

Lemma preserves_raise {A : Type} (e : exn) : preserves R (raise e : M A).
Proof. intros s. apply R_refl. Qed.

Lemma preserves_lift {A : Type} (r : py_result A) : preserves R (lift r).
Proof. intros s. apply R_refl. Qed.

Lemma preserves_read_attribute {A : Type} (a : A) :
  preserves R (read_attribute a).
Proof. intros s. rewrite read_attribute_state. apply R_refl. Qed.

Lemma preserves_perform {A : Type} (op : db_op) (run : database -> A * database) :
  (forall d, R d (snd (run d))) -> preserves R (perform op run).
Proof.
  intros Hrun s. unfold perform.
  destruct (faulty s op); simpl; [apply R_refl|].
  specialize (Hrun (data s)). destruct (run (data s)). exact Hrun.
Qed.

Lemma preserves_bind {A B : Type} (m : M A) (f : A -> M B) :
  preserves R m -> (forall a, preserves R (f a)) -> preserves R (m ≫= f).
Proof.
  intros Hm Hf s. unfold mbind, M_bind.
  specialize (Hm s). destruct (m s) as [[a|e] s1]; simpl in *; [|done].
  eapply R_trans; [exact Hm|apply Hf].
Qed.

Lemma preserves_try_except {A : Type} (body : M A) (handler : exn -> M A) :
  preserves R body -> (forall e, preserves R (handler e)) ->
  preserves R (try_except body handler).
Proof.
  intros Hm Hf s. unfold try_except.
  specialize (Hm s). destruct (body s) as [[a|e] s1]; simpl in *; [done|].
  eapply R_trans; [exact Hm|apply Hf].
Qed.

Lemma preserves_attempt {A : Type} (m : M A) :
  preserves R m -> preserves R (attempt m).
Proof.
  intros Hm s. unfold attempt. specialize (Hm s). by destruct (m s).
Qed.

Lemma preserves_for_each {A B : Type} (items : list A) (body : B -> A -> M B) :
  (forall acc x, preserves R (body acc x)) ->
  forall acc, preserves R (for_each items body acc).
Proof.
  intros Hbody. induction items as [|x rest IH]; intros acc; simpl.
  - apply preserves_ret.
  - apply preserves_bind; [apply Hbody|apply IH].
Qed.

End EffectFacts.

Section SendFacts.
Import Storage PyMonth PeriodAnalyzer Comprehensive ComprehensiveApi Effects.

Context (P : db_op -> Prop).

Lemma sends_ret {A : Type} (a : A) : sends_only P (mret a : M A).
Proof. intros s. by exists []. Qed.

Lemma sends_raise {A : Type} (e : exn) : sends_only P (raise e : M A).
Proof. intros s. by exists []. Qed.

Lemma sends_lift {A : Type} (r : py_result A) : sends_only P (lift r).
Proof. intros s. by exists []. Qed.

Lemma sends_read_attribute {A : Type} (a : A) :
  sends_only P (read_attribute a).
Proof. intros s. exists []. by rewrite read_attribute_state. Qed.

Lemma sends_perform {A : Type} (op : db_op) (run : database -> A * database) :
  P op -> sends_only P (perform op run).
Proof.
  intros Hop s. exists [op]. rewrite perform_logs. split; [done|].
  by constructor.
Qed.

Lemma sends_bind {A B : Type} (m : M A) (f : A -> M B) :
  sends_only P m -> (forall a, sends_only P (f a)) -> sends_only P (m ≫= f).
Proof.
  intros Hm Hf s. unfold mbind, M_bind.
  destruct (Hm s) as (ops & Hops & HP). destruct (m s) as [[a|e] s1]; simpl in *.
  - destruct (Hf a s1) as (ops' & Hops' & HP'). exists (ops' ++ ops)%list.
    rewrite Hops', Hops, app_assoc. split; [done|]. by apply Forall_app.
  - by exists ops.
Qed.

Lemma sends_try_except {A : Type} (body : M A) (handler : exn -> M A) :
  sends_only P body -> (forall e, sends_only P (handler e)) ->
  sends_only P (try_except body handler).
Proof.
  intros Hm Hf s. unfold try_except.
  destruct (Hm s) as (ops & Hops & HP). destruct (body s) as [[a|e] s1]; simpl in *.
  - by exists ops.
  - destruct (Hf e s1) as (ops' & Hops' & HP'). exists (ops' ++ ops)%list.
    rewrite Hops', Hops, app_assoc. split; [done|]. by apply Forall_app.
Qed.

Lemma sends_attempt {A : Type} (m : M A) :
  sends_only P m -> sends_only P (attempt m).
Proof.
  intros Hm s. unfold attempt. specialize (Hm s). by destruct (m s).
Qed.

Lemma sends_for_each {A B : Type} (items : list A) (body : B -> A -> M B) :
  (forall acc x, sends_only P (body acc x)) ->
  forall acc, sends_only P (for_each items body acc).
Proof.
  intros Hbody. induction items as [|x rest IH]; intros acc; simpl.
  - apply sends_ret.
  - apply sends_bind; [apply Hbody|apply IH].
Qed.

End SendFacts.

Section FaultFacts.
Import Storage PyMonth PeriodAnalyzer Effects.









End FaultFacts.
Section ReadOnly.
Import Storage PyMonth PeriodAnalyzer Comprehensive ComprehensiveApi Effects.

Local Ltac preserved refl trans :=
  repeat first
    [ apply (preserves_ret _ refl) | apply (preserves_raise _ refl)
    | apply (preserves_lift _ refl) | apply (preserves_read_attribute _ refl)
    | apply preserves_attempt
    | apply (preserves_perform _ refl); intros; simpl
    | apply (preserves_for_each _ refl trans); intros
    | apply (preserves_try_except _ trans); [|intros]
    | apply (preserves_bind _ trans); [|intros]
    | match goal with
      | |- preserves _ (let '(_, _) := ?p in _) => destruct p
      | |- preserves _ (match ?p with _ => _ end) => destruct p
      end ].

Local Ltac sent :=
  repeat first
    [ apply sends_ret | apply sends_raise | apply sends_lift
    | apply sends_read_attribute
    | apply sends_attempt
    | apply sends_perform
    | apply sends_for_each; intros
    | apply sends_try_except; [|intros]
    | apply sends_bind; [|intros]
    | match goal with
      | |- sends_only _ (let '(_, _) := ?p in _) => destruct p
      | |- sends_only _ (match ?p with _ => _ end) => destruct p
      end ].

Lemma same_but_refl (t : analysis_table) (d : database) : same_but t d d.
Proof. by destruct t. Qed.

Lemma same_but_trans (t : analysis_table) (d1 d2 d3 : database) :
  same_but t d1 d2 -> same_but t d2 d3 -> same_but t d1 d3.
Proof.
  unfold same_but. destruct t; intros (?&?&?&?) (?&?&?&?); repeat split; congruence.
Qed.


Lemma eq_trans_db (d1 d2 d3 : database) : d1 = d2 -> d2 = d3 -> d1 = d3.
Proof. congruence. Qed.

Lemma eq_refl_db (d : database) : d = d.
Proof. reflexivity. Qed.

Local Ltac read_only_tac :=
  split; [ preserved eq_refl_db eq_trans_db; try reflexivity
         | sent; try reflexivity ].

Lemma newsapi_mom_read_only (target_month : string) :
  read_only (get_newsapi_mom_analysis target_month).
Proof.
  unfold get_newsapi_mom_analysis, newsapi_company_row, active_companies,
    first_mention.
  read_only_tac.
Qed.

Lemma gdelt_ranking_read_only (target_month : string) :
  read_only (get_gdelt_ranking_data target_month).
Proof.
  unfold get_gdelt_ranking_data, get_gdelt_ranking_data_fallback,
    analyses_of_month, active_companies, first_mention.
  read_only_tac.
Qed.

Lemma fetch_sources_read_only (month : string) : read_only (fetch_sources month).
Proof.
  destruct (gdelt_ranking_read_only month) as [G1 G2].
  destruct (newsapi_mom_read_only month) as [N1 N2].
  unfold fetch_sources. split.
  - apply (preserves_bind _ eq_trans_db); [done|intros].
    apply (preserves_bind _ eq_trans_db); [done|intros].
    by apply preserves_ret.
  - apply sends_bind; [done|intros]. apply sends_bind; [done|intros].
    apply sends_ret.
Qed.

(** X4. The combined-ranking endpoint only reads: whatever the outcome,
    every table is left as it was and no upsert is sent to the store. *)
Theorem comprehensive_ranking_read_only (target_month : string) :
  read_only (get_comprehensive_ranking target_month).
Proof.
  pose proof fetch_sources_read_only as F.
  unfold get_comprehensive_ranking, calculate_ranking_changes. split.
  - apply (preserves_try_except _ eq_trans_db); [|intros; by apply preserves_raise].
    apply (preserves_bind _ eq_trans_db); [apply F|intros [g n]].
    apply (preserves_bind _ eq_trans_db); [|intros; by apply preserves_ret].
    apply (preserves_bind _ eq_trans_db); [by apply preserves_lift|intros [y m]].
    apply (preserves_bind _ eq_trans_db); [|intros; by apply preserves_ret].
    apply preserves_attempt, F.
  - apply sends_try_except; [|intros; apply sends_raise].
    apply sends_bind; [apply F|intros [g n]].
    apply sends_bind; [|intros; apply sends_ret].
    apply sends_bind; [apply sends_lift|intros [y m]].
    apply sends_bind; [|intros; apply sends_ret].
    apply sends_attempt, F.
Qed.

(** X5. The read paths of the period analyses only read: the stored
    results, the month-over-month endpoint with its fallback and heat
    look-ups, and both NewsAPI analyses leave every table as it was and
    send no upsert. *)
Theorem period_reads_read_only
    (now : Z * Z) (month : option string) (company_ids : option (list Z))
    (t : analysis_table) (target_month : string) :
  read_only (get_monthly_results t target_month company_ids)
  /\ read_only (get_monthly_mom_analysis now month company_ids)
  /\ read_only (newsapi_mom_endpoint target_month company_ids)
  /\ read_only (get_newsapi_mom_analysis target_month).
Proof.
  split; [|split; [|split]].
  - unfold get_monthly_results, analyses_of_month. read_only_tac.
  - unfold get_monthly_mom_analysis, get_monthly_mom_results, get_monthly_results,
      analyses_of_month, active_companies, enhance_with_heat, first_heat.
    read_only_tac.
  - unfold newsapi_mom_endpoint, endpoint_company_row, active_companies,
      first_mention.
    read_only_tac.
  - apply newsapi_mom_read_only.
Qed.

(** X6. The year-over-year calculation writes nothing but its own table:
    companies, mention counts, month-over-month rows and heat records are
    left as they were, and every write it sends is an upsert of a
    year-over-year row for the target month. *)
Theorem yoy_analysis_writes_only_yoy
    (now : Z * Z) (target_month : option string) (company_ids : option (list Z)) :
  preserves (same_but YoY)
    (calculate_monthly_yoy_analysis now target_month company_ids)
  /\ sends_only (read_or_upsert YoY (month_or_now now target_month))
       (calculate_monthly_yoy_analysis now target_month company_ids).
Proof.
  unfold calculate_monthly_yoy_analysis, _calculate_company_yoy, active_companies,
    first_mention, first_analysis, upsert_analysis.
  split.
  - preserved (same_but_refl YoY) (same_but_trans YoY).
    all: try apply same_but_refl.
    by repeat split.
  - sent; simpl; done.
Qed.

End ReadOnly.
(** ** Batches over the companies *)

Section BatchFacts.
Import PyFloat PyDecimal ChangeMetric Storage PyMonth PeriodAnalyzer BatchSpec.
Import Effects Demo Demo3.

Lemma for_each_total {A B : Type} (I : list A -> B -> session -> Prop)
    (body : B -> A -> M B) :
  (forall done acc x s, I done acc s ->
     exists r s', body acc x s = (Ok r, s') /\ I (done ++ [x])%list r s') ->
  forall items done acc s, I done acc s ->
    exists r s', for_each items body acc s = (Ok r, s')
                 /\ I (done ++ items)%list r s'.
Proof.
  intros Hbody. induction items as [|x rest IH]; intros done acc s HI; simpl.
  - exists acc, s. by rewrite app_nil_r.
  - destruct (Hbody done acc x s HI) as (r & s1 & Hr & HI1).
    destruct (IH _ _ _ HI1) as (r' & s' & Hr' & HI').
    exists r', s'. unfold mbind, M_bind. rewrite Hr.
    split; [done|]. by rewrite <- app_assoc in HI'.
Qed.

Lemma active_companies_Ok (company_ids : option (list Z)) (s s' : session)
    (cs : list Company) :
  active_companies company_ids s = (Ok cs, s') ->
  cs = selected_companies (data s) company_ids
  /\ data s' = data s /\ faulty s' = faulty s.
Proof.
  intros H. apply perform_Ok in H as (_ & -> & ->). done.
Qed.

Lemma active_companies_run (company_ids : option (list Z)) (s : session) :
  faulty s (SelectActiveCompanies company_ids) = false ->
  exists s', active_companies company_ids s
             = (Ok (selected_companies (data s) company_ids), s')
             /\ data s' = data s /\ faulty s' = faulty s.
Proof.
  intros Hf. unfold active_companies, perform. rewrite Hf. by eexists.
Qed.













End BatchFacts.
(** ** A fault in the NewsAPI service; the order of the GDELT rows *)

Section AbortFacts.
Import PyFloat PyDecimal ChangeMetric Storage PyMonth PeriodAnalyzer BatchSpec.
Import Comprehensive ComprehensiveApi Effects Demo Demo3.

Lemma for_each_raises {A B : Type} (P : session -> Prop) (body : B -> A -> M B)
    (items : list A) (x : A) :
  x ∈ items ->
  (forall acc s, P s -> exists e s', body acc x s = (Raise e, s')) ->
  (forall acc y s r s', P s -> body acc y s = (Ok r, s') -> P s') ->
  forall acc s, P s -> exists e s', for_each items body acc s = (Raise e, s').
Proof.
  intros Hin Hx Hpres. induction items as [|y rest IH].
  { by apply elem_of_nil in Hin. }
  intros acc s HP. simpl. unfold mbind, M_bind.
  destruct (body acc y s) as [[r|e] s1] eqn:E; [|eauto].
  apply elem_of_cons in Hin as [->|Hin].
  - destruct (Hx acc s HP) as (e & s' & He). congruence.
  - apply IH; [done|]. eapply Hpres; eauto.
Qed.

Lemma for_each_inv_elem {A B : Type} (I : B -> session -> Prop)
    (items : list A) (body : B -> A -> M B) :
  (forall acc x s r s', x ∈ items -> I acc s -> body acc x s = (Ok r, s') ->
     I r s') ->
  forall acc s r s',
    I acc s -> for_each items body acc s = (Ok r, s') -> I r s'.
Proof.
  induction items as [|x rest IH]; intros Hbody acc s r s' HI H; simpl in H.
  - apply ret_Ok in H as [-> ->]. done.
  - apply bind_Ok in H as (acc1 & s1 & H1 & H2).
    eapply IH; [|eapply Hbody; [apply list_elem_of_here|exact HI|exact H1]|exact H2].
    intros acc0 y s0 r0 s0' Hy. apply Hbody. by apply list_elem_of_further.
Qed.

Lemma newsapi_company_row_faults (company : Company) (target previous : string)
    (s s' : session) (row : newsapi_row) :
  newsapi_company_row company target previous s = (Ok row, s') ->
  faulty s' = faulty s.
Proof.
  unfold newsapi_company_row. intros H.
  apply bind_Ok in H as (cur & s1 & H1 & H).
  apply bind_Ok in H as (prev & s2 & H2 & H).
  apply bind_Ok in H as (ch & s3 & H3 & H).
  apply ret_Ok in H as [_ ->].
  apply lift_Ok in H3 as [_ ->].
  apply perform_Ok in H2 as (_ & _ & ->).
  apply perform_Ok in H1 as (_ & _ & ->). done.
Qed.

(** X9. The NewsAPI service has no handler around its loop: one company
    whose mention look-up fails makes the whole analysis raise, where the
    year-over-year batch and the endpoint record a failed row and go on. *)
Theorem newsapi_service_aborts_on_one_fault
    (target_month : string) (s : session) (year month : Z) (c : Company) :
  parse_year_month target_month = Ok (year, month) ->
  faulty s (SelectActiveCompanies None) = false ->
  c ∈ selected_companies (data s) None ->
  faulty s (SelectMention (company_id c) target_month ["newsapi"]) = true ->
  exists e s', get_newsapi_mom_analysis target_month s = (Raise e, s').
Proof.
  intros Hparse Hf Hc Hfault. unfold get_newsapi_mom_analysis.
  unfold mbind at 1, M_bind at 1, lift at 1. rewrite Hparse.
  destruct (active_companies_run None s Hf) as (s1 & Hsel & _ & Hf1).
  unfold mbind at 1, M_bind at 1. rewrite Hsel.
  set (body := fun (results : list newsapi_row) (company : Company) => _ ≫= _).
  destruct (for_each_raises (fun s0 => faulty s0 = faulty s) body
              (selected_companies (data s) None) c Hc)
    with (acc := @nil newsapi_row) (s := s1) as (e & s2 & Hloop).
  - intros acc s0 Hs0. subst body. simpl.
    unfold newsapi_company_row, first_mention, perform, mbind, M_bind.
    rewrite Hs0, Hfault. eauto.
  - intros acc y s0 r s0' Hs0 Hbody. subst body. simpl in Hbody.
    apply bind_Ok in Hbody as (row & s3 & Hrow & Hret).
    apply ret_Ok in Hret as [_ ->].
    apply newsapi_company_row_faults in Hrow. congruence.
  - done.
  - exists e, s2. unfold mbind, M_bind. by rewrite Hloop.
Qed.

Lemma newsapi_service_aborts_on_one_fault_witness :
  exists e s',
    get_newsapi_mom_analysis "2025-09" (fresh db_stored fault_company_2)
    = (Raise e, s').
Proof.
  apply (newsapi_service_aborts_on_one_fault "2025-09"
           (fresh db_stored fault_company_2) 2025 9 (mkCompany 2 "Bolt" "active")).
  - vm_compute. reflexivity.
  - reflexivity.
  - apply list_elem_of_In. vm_compute. tauto.
  - reflexivity.
Defined.

End AbortFacts.

Section GdeltOrder.
Import PyFloat PyDecimal ChangeMetric Storage PyMonth PeriodAnalyzer BatchSpec.
Import Comprehensive ComprehensiveApi Effects Demo Demo3.

Lemma sort_by_mentions_desc_sorted (rows : list source_row) :
  StronglySorted
    (fun a b => get_mentions b "current_month_mentions"
                <= get_mentions a "current_month_mentions")
    (sort_by_mentions_desc rows)
  /\ Permutation (sort_by_mentions_desc rows) rows.
Proof.
  unfold sort_by_mentions_desc. split; [|apply sort_stable_perm].
  pose proof (sort_stable_sorted
                (fun a b => get_mentions b "current_month_mentions"
                            <? get_mentions a "current_month_mentions")
                (fun _ => True)) as H.
  eapply StronglySorted_weaken; [|apply H].
  - intros a b Hab. simpl in Hab. lia.
  - intros; lia.
  - intros x y z _ _ _ Hxz.
    destruct (Z.ltb_spec (get_mentions y "current_month_mentions")
                (get_mentions x "current_month_mentions")); [by left|right]; lia.
  - by apply Forall_forall.
Qed.

Lemma company_of_Some (d : database) (cid : Z) (c : Company) :
  company_of d cid = Some c -> c ∈ companies d /\ company_id c = cid.
Proof.
  unfold company_of. intros H. apply find_some in H as [Hin Heq].
  split; [by apply list_elem_of_In|lia].
Qed.

Lemma selected_companies_active (d : database) (ids : option (list Z))
    (c : Company) :
  c ∈ selected_companies d ids -> c ∈ companies d /\ status c = "active".
Proof.
  unfold selected_companies. intros H.
  apply list_elem_of_filter in H as [Hp Hin]. split; [done|].
  apply Is_true_true in Hp. apply andb_true_iff in Hp as [Hs _].
  unfold str_eqb in Hs. by apply bool_decide_eq_true in Hs.
Qed.

(** X10. The GDELT rows of the combined ranking, from the stored analyses
    or from the fallback over the mention counts, come out in descending
    order of mentions and stand for active companies only. *)
Theorem gdelt_ranking_sorted_and_active
    (target_month : string) (s s' : session) (rows : list source_row) :
  get_gdelt_ranking_data target_month s = (Ok rows, s') ->
  StronglySorted
    (fun a b => get_mentions b "current_month_mentions"
                <= get_mentions a "current_month_mentions") rows
  /\ Forall (row_of_active (data s)) rows.
Proof.
  unfold get_gdelt_ranking_data. intros H.
  apply try_except_Ok in H as [H|(e & s1 & Hraise & H)].
  - apply bind_Ok in H as (analyses & s2 & Hq & Hret).
    apply ret_Ok in Hret as [-> _].
    destruct (sort_by_mentions_desc_sorted
                (map (fun rc => gdelt_row (a_company_id (fst rc))
                                  (cleaned_name (snd rc))
                                  (current_month_mentions (fst rc))) analyses))
      as [Hs Hp].
    split; [done|]. rewrite Hp. apply Forall_fmap, Forall_forall.
    intros [a c] Hac. apply perform_Ok in Hq as (_ & -> & _). simpl in Hac.
    apply list_elem_of_omap in Hac as (a0 & Ha0 & Hsome).
    destruct (company_of (data s) (a_company_id a0)) as [c0|] eqn:Ec; [|done].
    destruct (_ && _) eqn:Econd in Hsome; [|done].
    injection Hsome as <- <-.
    apply company_of_Some in Ec as [Hc Hid].
    apply andb_true_iff in Econd as [Econd _].
    apply andb_true_iff in Econd as [_ Hst]. simpl in Hst.
    unfold str_eqb in Hst. apply bool_decide_eq_true in Hst.
    exists c0. simpl. rewrite Hid. repeat split; try done.
  - assert (data s1 = data s) as Hd.
    { unfold mbind, M_bind, analyses_of_month, perform in Hraise.
      destruct (faulty s _); simpl in Hraise.
      - by injection Hraise as _ <-.
      - unfold mret, M_ret in Hraise. discriminate. }
    unfold get_gdelt_ranking_data_fallback in H.
    apply bind_Ok in H as (cs & s2 & Hsel & H).
    apply active_companies_Ok in Hsel as (-> & Hd2 & _).
    apply bind_Ok in H as (results & s3 & Hloop & Hret).
    apply ret_Ok in Hret as [-> _].
    destruct (sort_by_mentions_desc_sorted results) as [Hs Hp].
    split; [done|]. rewrite Hp.
    revert Hloop.
    apply (for_each_inv_elem (fun acc _ => Forall (row_of_active (data s)) acc));
      [|done].
    intros acc c s0 r s0' Hc Hacc Hbody.
    apply try_except_Ok in Hbody as [Hbody|(e' & s4 & _ & Hbody)].
    + apply bind_Ok in Hbody as (cur & s5 & _ & Hret).
      apply ret_Ok in Hret as [-> _].
      apply Forall_app. split; [done|]. constructor; [|done].
      rewrite Hd in Hc. apply selected_companies_active in Hc as [Hin Hst].
      exists c. done.
    + apply ret_Ok in Hbody as [-> _]. done.
Qed.

Lemma gdelt_ranking_sorted_and_active_witness :
  exists rows s',
    get_gdelt_ranking_data "2025-09" (fresh db_stored fault_stored_analyses)
      = (Ok rows, s')
    /\ StronglySorted
         (fun a b => get_mentions b "current_month_mentions"
                     <= get_mentions a "current_month_mentions") rows
    /\ Forall (row_of_active db_stored) rows.
Proof.
  eexists _, _. split; [vm_compute; reflexivity|].
  eapply (gdelt_ranking_sorted_and_active "2025-09"
            (fresh db_stored fault_stored_analyses)).
  vm_compute. reflexivity.
Defined.

End GdeltOrder.
(** ** The stored year-over-year row *)

Section UpsertFacts.
Import PyFloat PyDecimal ChangeMetric Storage PyMonth PeriodAnalyzer BatchSpec.
Import Demo Demo2.

Lemma perform_run {A : Type} (op : db_op) (run : database -> A * database)
    (s : session) :
  faulty s op = false ->
  perform op run s
  = (Ok (fst (run (data s))),
     mkSession (snd (run (data s))) (faulty s) (op :: log s)).
Proof.
  intros Hf. unfold perform. rewrite Hf. by destruct (run (data s)).
Qed.

Lemma find_map_same_key {A : Type} (P : A -> bool) (upd : A -> A) (l : list A)
    (old : A) :
  (forall r, P (upd r) = P r) ->
  List.find P l = Some old -> List.find P (map upd l) = Some (upd old).
Proof.
  intros Hkey. induction l as [|r l IH]; simpl; [done|].
  rewrite Hkey. destruct (P r); [by intros [= ->]|done].
Qed.

Lemma find_snoc_new {A : Type} (P : A -> bool) (l : list A) (new : A) :
  List.find P l = None -> P new = true ->
  List.find P (l ++ [new])%list = Some new.
Proof.
  intros Hnone Hnew. induction l as [|r l IH]; simpl in *; [by rewrite Hnew|].
  destruct (P r); [done|by apply IH].
Qed.

Lemma a_id_below_next (rows : list MonthlyAnalysis) (r : MonthlyAnalysis) :
  r ∈ rows -> a_id r < next_id rows.
Proof.
  unfold next_id. induction 1 as [r l|r r' l _ IH]; simpl; lia.
Qed.

Lemma is_row_of_self (company : Z) (month : string) (i current previous : Z)
    (pct : option decimal) (st : string) :
  is_row_of company month (mkAnalysis i company month current previous pct st)
  = true.
Proof.
  unfold is_row_of, str_eqb. simpl. rewrite Z.eqb_refl.
  by rewrite bool_decide_eq_true_2.
Qed.

Lemma upserted_find (rows : list MonthlyAnalysis) (company : Z) (month : string)
    (current previous : Z) (pct : decimal) :
  exists i,
    List.find (is_row_of company month)
      (upserted rows company month current previous pct)
    = Some (mkAnalysis i company month current previous (Some pct) "success").
Proof.
  unfold upserted.
  destruct (List.find (is_row_of company month) rows) as [old|] eqn:E.
  - exists (a_id old).
    erewrite find_map_same_key; [|by intros r; destruct (a_id r =? a_id old)|exact E].
    rewrite Z.eqb_refl. apply find_some in E as [_ Hkey].
    unfold is_row_of, str_eqb in Hkey. apply andb_true_iff in Hkey as [Hc Hm].
    apply Z.eqb_eq in Hc. apply bool_decide_eq_true in Hm. by rewrite Hc, Hm.
  - eexists. apply find_snoc_new; [done|apply is_row_of_self].
Qed.

Lemma upserted_idempotent (rows : list MonthlyAnalysis) (company : Z)
    (month : string) (current previous : Z) (pct : decimal) :
  upserted (upserted rows company month current previous pct)
    company month current previous pct
  = upserted rows company month current previous pct.
Proof.
  destruct (upserted_find rows company month current previous pct) as [i Hi].
  unfold upserted at 1. rewrite Hi. simpl.
  unfold upserted in *.
  destruct (List.find (is_row_of company month) rows) as [old|] eqn:E.
  - erewrite find_map_same_key in Hi;
      [|by intros r; destruct (a_id r =? a_id old)|exact E].
    rewrite Z.eqb_refl in Hi.
    apply (f_equal (fun o => a_id <$> o)) in Hi. simpl in Hi.
    injection Hi as <-.
    rewrite map_map. apply map_ext. intros r.
    destruct (a_id r =? a_id old) eqn:Er; simpl; by rewrite Er.
  - rewrite find_snoc_new in Hi; [|done|apply is_row_of_self].
    apply (f_equal (fun o => a_id <$> o)) in Hi. simpl in Hi.
    injection Hi as <-.
    rewrite map_app. simpl. rewrite Z.eqb_refl. f_equal.
    rewrite <- (map_id rows) at 2. apply map_ext_in. intros r Hr.
    apply list_elem_of_In, a_id_below_next in Hr.
    destruct (Z.eqb_spec (a_id r) (next_id rows)); [lia|done].
Qed.

(** What a completed calculation for one company returned and left in
    the store. *)
Lemma company_yoy_Ok (company : Company) (target previous : string)
    (s s' : session) (r : company_result) :
  _calculate_company_yoy company target previous s = (Ok r, s') ->
  let cid := company_id company in
  let current := count_or_0 (find_mention (data s) cid target []) in
  let before := count_or_0 (find_mention (data s) cid previous []) in
  exists pct,
    _calculate_percentage_change current before = Ok pct
    /\ r = ResultRow cid (cleaned_name company) target current before
             (shown_percentage (Some pct))
             (model_formatted_change (Some pct)) "success"
    /\ data s' = set_analysis_rows YoY
                   (upserted (monthly_yoy_analysis (data s)) cid target
                      current before pct) (data s)
    /\ faulty s' = faulty s
    /\ faulty s (SelectMention cid target []) = false
    /\ faulty s (SelectMention cid previous []) = false
    /\ faulty s (SelectAnalysis YoY cid target) = false
    /\ faulty s (UpsertAnalysis YoY cid target) = false.
Proof.
  unfold _calculate_company_yoy. intros H. simpl.
  apply bind_Ok in H as (cur & s1 & H1 & H).
  apply bind_Ok in H as (prev & s2 & H2 & H).
  apply bind_Ok in H as (pct & s3 & H3 & H).
  apply bind_Ok in H as (ex & s4 & H4 & H).
  apply bind_Ok in H as (u & s5 & H5 & H).
  apply ret_Ok in H as [-> ->].
  apply perform_Ok in H1 as (F1 & -> & ->). simpl in *.
  apply perform_Ok in H2 as (F2 & -> & ->). simpl in *.
  apply lift_Ok in H3 as [H3 ->].
  apply perform_Ok in H4 as (F4 & -> & ->). simpl in *.
  apply perform_Ok in H5 as (F5 & _ & ->). simpl in *.
  exists pct. repeat split; done.
Qed.

(** X11. What the year-over-year calculation returns for a company is
    what it leaves in the store: a later look-up of the row of (company,
    month) finds the same counts, percentage and status. *)
Theorem yoy_result_matches_stored_row
    (company : Company) (target previous : string) (s s' : session)
    (r : company_result) :
  _calculate_company_yoy company target previous s = (Ok r, s') ->
  exists row,
    List.find (is_row_of (company_id company) target)
      (monthly_yoy_analysis (data s')) = Some row
    /\ r = ResultRow (company_id company) (cleaned_name company) target
             (current_month_mentions row) (previous_mentions row)
             (shown_percentage (monthly_change_percentage row))
             (model_formatted_change (monthly_change_percentage row))
             (a_status row)
    /\ current_month_mentions row
       = count_or_0 (find_mention (data s) (company_id company) target [])
    /\ previous_mentions row
       = count_or_0 (find_mention (data s) (company_id company) previous []).
Proof.
  intros H. apply company_yoy_Ok in H as (pct & _ & -> & -> & _). simpl.
  destruct (upserted_find (monthly_yoy_analysis (data s)) (company_id company)
              target
              (count_or_0 (find_mention (data s) (company_id company) target []))
              (count_or_0 (find_mention (data s) (company_id company) previous []))
              pct) as [i Hi].
  eexists. split; [exact Hi|]. done.
Qed.

Lemma yoy_result_matches_stored_row_witness :
  exists r s' row,
    _calculate_company_yoy (mkCompany 1 "Acme" "active") "2025-09" "2024-09"
      (fresh db_stored no_fault) = (Ok r, s')
    /\ List.find (is_row_of 1 "2025-09") (monthly_yoy_analysis (data s'))
       = Some row
    /\ current_month_mentions row = 12.
Proof.
  assert (exists r s',
            _calculate_company_yoy (mkCompany 1 "Acme" "active") "2025-09"
              "2024-09" (fresh db_stored no_fault) = (Ok r, s'))
    as (r & s' & E) by (eexists _, _; vm_compute; reflexivity).
  destruct (yoy_result_matches_stored_row _ _ _ _ _ _ E)
    as (row & Hfind & _ & Hcur & _).
  exists r, s', row. split; [exact E|]. split; [exact Hfind|].
  rewrite Hcur. reflexivity.
Defined.

(** X12. Running the calculation for a company again changes nothing: the
    second run cannot fail, returns the same result, and leaves the store
    exactly as the first run left it, without a second row. *)
Theorem yoy_calculation_is_idempotent
    (company : Company) (target previous : string) (s s1 : session)
    (r : company_result) :
  _calculate_company_yoy company target previous s = (Ok r, s1) ->
  exists s2,
    _calculate_company_yoy company target previous s1 = (Ok r, s2)
    /\ data s2 = data s1.
Proof.
  intros H.
  apply company_yoy_Ok in H as (pct & Hpct & -> & Hd & Hf & F1 & F2 & F3 & F4).
  simpl in *.
  assert (monthly_mentions (data s1) = monthly_mentions (data s)) as Hm
    by (by rewrite Hd).
  assert (forall month, find_mention (data s1) (company_id company) month []
                        = find_mention (data s) (company_id company) month [])
    as Hfm by (intros; unfold find_mention; by rewrite Hm).
  unfold _calculate_company_yoy, first_mention, first_analysis, upsert_analysis.
  unfold mbind, M_bind.
  rewrite perform_run by (by rewrite Hf). simpl.
  rewrite perform_run by (by rewrite Hf). simpl.
  rewrite !Hfm. unfold lift. rewrite Hpct.
  rewrite perform_run by (by rewrite Hf). simpl.
  rewrite perform_run by (by rewrite Hf). simpl.
  eexists. split; [reflexivity|]. simpl.
  pose proof (upserted_idempotent (monthly_yoy_analysis (data s))
                (company_id company) target
                (count_or_0 (find_mention (data s) (company_id company) target []))
                (count_or_0 (find_mention (data s) (company_id company) previous []))
                pct) as Hidem.
  rewrite Hd. simpl. f_equal.
  unfold upserted, is_row_of in Hidem. exact Hidem.
Qed.

Lemma yoy_calculation_is_idempotent_witness :
  exists r s1 s2,
    _calculate_company_yoy (mkCompany 1 "Acme" "active") "2025-09" "2024-09"
      (fresh db_stored no_fault) = (Ok r, s1)
    /\ _calculate_company_yoy (mkCompany 1 "Acme" "active") "2025-09" "2024-09"
         s1 = (Ok r, s2)
    /\ data s2 = data s1.
Proof.
  assert (exists r s',
            _calculate_company_yoy (mkCompany 1 "Acme" "active") "2025-09"
              "2024-09" (fresh db_stored no_fault) = (Ok r, s'))
    as (r & s1 & E) by (eexists _, _; vm_compute; reflexivity).
  destruct (yoy_calculation_is_idempotent _ _ _ _ _ _ E) as (s2 & Hrun & Hd).
  exists r, s1, s2. split; [exact E|]. split; [exact Hrun|exact Hd].
Defined.

End UpsertFacts.
(** ** Reading stored results back; the fallback of the endpoint *)

Section StoredFacts.
Import PyFloat PyDecimal ChangeMetric Storage PyMonth PeriodAnalyzer BatchSpec.
Import FloatOrder Demo Demo3.

Lemma count_status_from (results : list stored_result) (ok ko : Z) :
  fold_left
    (fun acc r =>
       if str_eqb (sr_status r) "success" then (fst acc + 1, snd acc)
       else (fst acc, snd acc + 1))
    results (ok, ko)
  = (ok + Z.of_nat (length (filter (fun r => sr_status r = "success") results)),
     ko + Z.of_nat (length (filter (fun r => sr_status r <> "success") results))).
Proof.
  revert ok ko. induction results as [|r rest IH]; intros ok ko; simpl.
  { f_equal; lia. }
  rewrite !filter_cons. unfold str_eqb.
  destruct (decide (sr_status r = "success")) as [E|E].
  - rewrite bool_decide_eq_true_2 by done. simpl. rewrite IH.
    destruct (decide (sr_status r <> "success")); [done|]. simpl. f_equal; lia.
  - rewrite bool_decide_eq_false_2 by done. simpl. rewrite IH.
    destruct (decide (sr_status r <> "success")); [|done]. simpl. f_equal; lia.
Qed.

Lemma filter_split_length {A : Type} (P : A -> Prop) `{!forall x, Decision (P x)}
    (l : list A) :
  (length (filter P l) + length (filter (fun x => ~ P x) l) = length l)%nat.
Proof.
  induction l as [|x l IH]; [done|]. rewrite !filter_cons.
  destruct (decide (P x)), (decide (~ P x)); simpl; try lia; tauto.
Qed.

Lemma monthly_results_Ok
    (t : analysis_table) (month : string) (company_ids : option (list Z))
    (s s' : session) (summary : stored_summary) :
  get_monthly_results t month company_ids s = (Ok summary, s') ->
  exists analyses,
    fst (analyses_of_month t month company_ids false s) = Ok analyses
    /\ Permutation (ss_results summary) (map stored_of analyses)
    /\ Forall (fun r => sr_analysis_month r = month) (ss_results summary)
    /\ ss_total_companies summary = Z.of_nat (length (ss_results summary))
    /\ ss_successful_analyses summary
       = Z.of_nat (length (filter (fun r => sr_status r = "success")
                             (ss_results summary)))
    /\ ss_failed_analyses summary
       = Z.of_nat (length (filter (fun r => sr_status r <> "success")
                             (ss_results summary)))
    /\ ss_successful_analyses summary + ss_failed_analyses summary
       = ss_total_companies summary.
Proof.
  unfold get_monthly_results. intros H.
  apply bind_Ok in H as (analyses & s1 & Hq & H).
  exists analyses. rewrite Hq. split; [done|].
  unfold count_status in H. rewrite count_status_from in H.
  cbn [fst snd] in H.
  set (sorted := PySort.sort_by_float_desc sort_key (map stored_of analyses)) in *.
  assert (Permutation sorted (map stored_of analyses)) as Hperm
    by apply sort_stable_perm.
  apply ret_Ok in H as [-> _].
  cbn [ss_results ss_total_companies ss_successful_analyses ss_failed_analyses].
  assert (forall (P : stored_result -> Prop) `{!forall x, Decision (P x)},
            length (filter P sorted) = length (filter P (map stored_of analyses)))
    as Hcount by (intros; by rewrite Hperm).
  rewrite !Hcount.
  split; [done|]. split; [|split; [done|]].
  - rewrite Hperm. apply Forall_fmap, Forall_forall. intros [a c] Hac.
    apply perform_Ok in Hq as (_ & -> & _). simpl in Hac.
    apply list_elem_of_omap in Hac as (a0 & _ & Hsome).
    destruct (company_of (data s) (a_company_id a0)); [|done].
    destruct (_ && _) eqn:Econd in Hsome; [|done].
    injection Hsome as <- <-. simpl.
    apply andb_true_iff in Econd as [Econd _].
    apply andb_true_iff in Econd as [Hm _].
    unfold str_eqb in Hm. by apply bool_decide_eq_true in Hm.
  - split; [lia|]. split; [lia|].
    pose proof (filter_split_length (fun r => sr_status r = "success")
                  (map stored_of analyses)) as Hsplit.
    rewrite (Permutation_length Hperm). lia.
Qed.

(** X13. Reading the stored analyses of a month loses and invents nothing:
    the sorted results are a rearrangement of the rows the store returned,
    every result is of the month asked for, the total is their number, and
    the rows that do not report "success", whatever else they report, are
    counted as failed. *)
Theorem monthly_results_account_for_every_row
    (t : analysis_table) (month : string) (company_ids : option (list Z))
    (s s' : session) (summary : stored_summary) :
  get_monthly_results t month company_ids s = (Ok summary, s') ->
  exists analyses,
    fst (analyses_of_month t month company_ids false s) = Ok analyses
    /\ Permutation (ss_results summary) (map stored_of analyses)
    /\ Forall (fun r => sr_analysis_month r = month) (ss_results summary)
    /\ ss_total_companies summary = Z.of_nat (length (ss_results summary))
    /\ ss_successful_analyses summary
       = Z.of_nat (length (filter (fun r => sr_status r = "success")
                             (ss_results summary)))
    /\ ss_failed_analyses summary
       = Z.of_nat (length (filter (fun r => sr_status r <> "success")
                             (ss_results summary)))
    /\ ss_successful_analyses summary + ss_failed_analyses summary
       = ss_total_companies summary.
Proof.
  unfold get_monthly_results. intros H.
  apply bind_Ok in H as (analyses & s1 & Hq & H).
  exists analyses. rewrite Hq. split; [done|].
  unfold count_status in H. rewrite count_status_from in H.
  cbn [fst snd] in H.
  set (sorted := PySort.sort_by_float_desc sort_key (map stored_of analyses)) in *.
  assert (Permutation sorted (map stored_of analyses)) as Hperm
    by apply sort_stable_perm.
  apply ret_Ok in H as [-> _].
  cbn [ss_results ss_total_companies ss_successful_analyses ss_failed_analyses].
  assert (forall (P : stored_result -> Prop) `{!forall x, Decision (P x)},
            length (filter P sorted) = length (filter P (map stored_of analyses)))
    as Hcount by (intros; by rewrite Hperm).
  rewrite !Hcount.
  split; [done|]. split; [|split; [done|]].
  - rewrite Hperm. apply Forall_fmap, Forall_forall. intros [a c] Hac.
    apply perform_Ok in Hq as (_ & -> & _). simpl in Hac.
    apply list_elem_of_omap in Hac as (a0 & _ & Hsome).
    destruct (company_of (data s) (a_company_id a0)); [|done].
    destruct (_ && _) eqn:Econd in Hsome; [|done].
    injection Hsome as <- <-. simpl.
    apply andb_true_iff in Econd as [Econd _].
    apply andb_true_iff in Econd as [Hm _].
    unfold str_eqb in Hm. by apply bool_decide_eq_true in Hm.
  - split; [lia|]. split; [lia|].
    pose proof (filter_split_length (fun r => sr_status r = "success")
                  (map stored_of analyses)) as Hsplit.
    rewrite (Permutation_length Hperm). lia.
Qed.

Lemma monthly_results_account_for_every_row_witness :
  exists summary s' analyses,
    get_monthly_results MoM "2025-09" None (fresh db_stored no_fault)
      = (Ok summary, s')
    /\ fst (analyses_of_month MoM "2025-09" None false (fresh db_stored no_fault))
       = Ok analyses
    /\ Permutation (ss_results summary) (map stored_of analyses)
    /\ ss_successful_analyses summary + ss_failed_analyses summary
       = ss_total_companies summary.
Proof.
  assert (exists summary s',
            get_monthly_results MoM "2025-09" None (fresh db_stored no_fault)
            = (Ok summary, s'))
    as (summary & s' & E) by (eexists _, _; vm_compute; reflexivity).
  destruct (monthly_results_account_for_every_row _ _ _ _ _ _ E)
    as (analyses & Hq & Hperm & _ & _ & _ & _ & Hsum).
  exists summary, s', analyses. done.
Defined.

Lemma fallback_rows_facts (i : Z) (month : string) (companies : list Company) :
  map sr_company_id (fallback_rows i month companies) = map company_id companies
  /\ map sr_id (fallback_rows i month companies)
     = map (fun k => i + 1 + Z.of_nat k) (seq 0 (length companies))
  /\ Forall (fun r => sr_status r = "no_data" /\ sr_formatted_change r = "N/A"
                      /\ sr_analysis_month r = month
                      /\ sr_current_month_mentions r = 0
                      /\ sr_previous_mentions r = 0)
       (fallback_rows i month companies).
Proof.
  revert i. induction companies as [|c rest IH]; intros i; simpl; [done|].
  destruct (IH (i + 1)) as (H1 & H2 & H3).
  split; [by rewrite H1|]. split; [|by constructor].
  f_equal; [lia|]. rewrite H2, <- seq_shift, map_map.
  apply map_ext. intros k. lia.
Qed.

(** X14. When reading the stored month-over-month rows fails, the
    endpoint still answers: one row per selected company, in order,
    numbered from 1, each with status "no_data", zero counts and "N/A";
    no analysis counts as successful and all count as failed. *)
Theorem monthly_mom_falls_back_to_no_data
    (now : Z * Z) (month : option string) (company_ids : option (list Z))
    (s : session) (ym : Z * Z) :
  strptime_Y_m (month_or_now now month) = Ok ym ->
  faulty s (SelectAnalysesOfMonth MoM (month_or_now now month) company_ids false)
    = true ->
  faulty s (SelectActiveCompanies company_ids) = false ->
  (forall c m, faulty s (SelectHeat c m) = false) ->
  let selected := selected_companies (data s) company_ids in
  exists enhanced summary s',
    get_monthly_mom_analysis now month company_ids s
      = (Ok (enhanced, summary), s')
    /\ map base enhanced = ss_results summary
    /\ map sr_company_id (ss_results summary) = map company_id selected
    /\ map sr_id (ss_results summary)
       = map (fun k => 1 + Z.of_nat k) (seq 0 (length selected))
    /\ Forall (fun r => sr_status r = "no_data" /\ sr_formatted_change r = "N/A"
                        /\ sr_analysis_month r = month_or_now now month
                        /\ sr_current_month_mentions r = 0
                        /\ sr_previous_mentions r = 0)
         (ss_results summary)
    /\ ss_successful_analyses summary = 0
    /\ ss_failed_analyses summary = Z.of_nat (length selected)
    /\ ss_total_companies summary = Z.of_nat (length selected).
Proof.
  intros Hok Hfault Hsel Hheat selected.
  unfold get_monthly_mom_analysis. rewrite Hok.
  set (m := month_or_now now month) in *.
  unfold mbind at 1, M_bind at 1.
  unfold try_except, get_monthly_mom_results, get_monthly_results.
  unfold mbind at 1, M_bind at 1, analyses_of_month at 1, perform at 1.
  rewrite Hfault.
  unfold mbind at 1, M_bind at 1, active_companies, perform at 1. simpl.
  rewrite Hsel.
  unfold mret at 1, M_ret at 1. simpl.
  fold (selected_companies (data s) company_ids). fold selected.
  set (s1 := mkSession _ _ _).
  set (body := fun (acc : list enhanced_result) (item : stored_result) => _ ≫= _).
  destruct (for_each_total
              (fun done acc s0 => map base acc = done /\ faulty s0 = faulty s)
              body)
    with (items := fallback_rows 0 m selected) (done := @nil stored_result)
         (acc := @nil enhanced_result) (s := s1)
    as (acc & s2 & Hloop & Hacc & _).
  - intros done acc item s0 [Hacc Hf0]. subst body. simpl.
    unfold enhance_with_heat, first_heat, mbind, M_bind.
    rewrite perform_run by (rewrite Hf0; apply Hheat). simpl.
    eexists _, _. split; [reflexivity|]. simpl.
    split; [|done]. rewrite map_app, Hacc. simpl. f_equal.
    by destruct (List.find _ _).
  - done.
  - unfold mbind, M_bind. rewrite Hloop.
    eexists _, _, _. split; [reflexivity|]. simpl.
    destruct (fallback_rows_facts 0 m selected) as (H1 & H2 & H3).
    repeat split; try done.
Qed.

Lemma monthly_mom_falls_back_to_no_data_witness :
  exists enhanced summary s',
    get_monthly_mom_analysis (2025, 9) (Some "2025-09") None
      (fresh db_stored fault_stored_analyses) = (Ok (enhanced, summary), s')
    /\ map sr_company_id (ss_results summary) = [1; 2; 3]
    /\ ss_successful_analyses summary = 0
    /\ ss_failed_analyses summary = 3.
Proof.
  destruct (monthly_mom_falls_back_to_no_data (2025, 9) (Some "2025-09") None
              (fresh db_stored fault_stored_analyses) (2025, 9))
    as (enhanced & summary & s' & Hrun & _ & Hids & _ & _ & Hok & Hko & _).
  - vm_compute. reflexivity.
  - reflexivity.
  - reflexivity.
  - reflexivity.
  - exists enhanced, summary, s'. split; [exact Hrun|].
    split; [exact Hids|]. split; [exact Hok|exact Hko].
Defined.

End StoredFacts.
(** ** The sign of a percentage change *)

Section ChangeSign.
Import PyFloat PyDecimal ChangeMetric FloatOrder FloatSign.

Lemma binary_round_aux_sign (sx : bool) (mx ex : Z) (lx : location) :
  0 <= mx -> has_sign sx (binary_round_aux prec emax sx mx ex lx).
Proof.
  intros Hm. split; [by apply binary_round_aux_not_nan|].
  pose proof (binary_round_aux_not_nan sx mx ex lx Hm) as Hnan.
  unfold binary_round_aux in *.
  destruct (shr_fexp prec emax mx ex lx) as [mrs' e'].
  destruct (shr_fexp prec emax _ e' loc_Exact) as [mrs'' e''].
  destruct (shr_m mrs'') as [|p|p]; [done| |done].
  by destruct (e'' <=? emax - prec).
Qed.

Lemma div_core_sign (sx : bool) (pn pd : positive) :
  has_sign sx
    (let '(mz, ez, lz) := SFdiv_core_binary prec emax (Zpos pn) 0 (Zpos pd) 0 in
     binary_round_aux prec emax sx mz ez lz).
Proof.
  unfold SFdiv_core_binary.
  match goal with |- context [IntDef.Z.div_eucl ?a ?b] => set (A := a) end.
  assert (HA : 0 <= A).
  { unfold A. match goal with |- 0 <= match ?s with _ => _ end => destruct s end;
      [lia| apply Z.shiftl_nonneg; lia | lia]. }
  destruct (IntDef.Z.div_eucl A (Z.pos pd)) as [q r] eqn:E.
  assert (Hq : q = A / Z.pos pd).
  { unfold Z.div. change Z.div_eucl with IntDef.Z.div_eucl. by rewrite E. }
  apply binary_round_aux_sign. subst q. apply Z.div_pos; lia.
Qed.

Lemma of_ratio_sign (n d : Z) : 0 < d -> has_sign (n <? 0) (of_ratio n d).
Proof.
  intros Hd. unfold of_ratio.
  destruct d as [|pd|pd]; [lia| |lia].
  destruct n as [|pn|pn]; simpl; [done| |]; apply div_core_sign.
Qed.

Lemma fmul_sign (x y : float) :
  is_finite x = true -> is_finite y = true ->
  has_sign (xorb (sign_bit x) (sign_bit y)) (fmul x y).
Proof.
  unfold fmul.
  destruct x as [sx|sx| |sx mx ex]; destruct y as [sy|sy| |sy my ey];
    simpl; try done.
  intros _ _. apply binary_round_aux_sign. lia.
Qed.

Lemma change_float_sign (current previous : Z) (x : float) :
  0 < previous ->
  change_float current previous = Ok x -> has_sign (current <? previous) x.
Proof.
  unfold change_float. intros Hp H.
  destruct (is_finite (of_ratio (current - previous) previous)) eqn:Hfin; [|done].
  injection H as <-.
  destruct (of_ratio_sign (current - previous) previous Hp) as [_ Hs].
  pose proof (fmul_sign _ (of_int 100) Hfin eq_refl) as Hm.
  rewrite Hs in Hm. change (sign_bit (of_int 100)) with false in Hm.
  rewrite xorb_false_r in Hm.
  replace (current <? previous) with (current - previous <? 0); [done|].
  destruct (Z.ltb_spec (current - previous) 0), (Z.ltb_spec current previous);
    done || lia.
Qed.

Lemma repr_candidate_nonneg (s : bool) (m : positive) (e nd c sh : Z) :
  repr_candidate s m e nd = Some (c, sh) -> 0 <= c.
Proof.
  unfold repr_candidate, num_den.
  destruct (0 <=? e) eqn:He.
  - set (n := Z.pos m * 2 ^ e). assert (0 <= n) by (subst n; apply Z.mul_nonneg_nonneg; [lia|apply Z.pow_nonneg; lia]).
    set (sh0 := floor_log10 n 1 - nd + 1).
    set (lo := if 0 <=? sh0 then n / (1 * 10 ^ sh0) else n * 10 ^ (- sh0) / 1).
    assert (0 <= lo) as Hlo.
    { subst lo. destruct (0 <=? sh0) eqn:Hs.
      - apply Z.div_pos; [done|]. apply Z.leb_le in Hs.
        assert (0 < 10 ^ sh0) by (apply Z.pow_pos_nonneg; lia). lia.
      - apply Z.div_pos; [|lia]. apply Z.mul_nonneg_nonneg; [done|].
        apply Z.pow_nonneg; lia. }
    destruct (same _ _), (same _ _); try done;
      intros [= <- _]; try lia.
    destruct (_ ?= _); [destruct (Z.even lo)| |]; lia.
  - set (n := Z.pos m). set (d := 2 ^ (- e)).
    assert (0 < d) by (subst d; apply Z.pow_pos_nonneg; lia).
    set (sh0 := floor_log10 n d - nd + 1).
    set (lo := if 0 <=? sh0 then n / (d * 10 ^ sh0) else n * 10 ^ (- sh0) / d).
    assert (0 <= lo) as Hlo.
    { subst lo. destruct (0 <=? sh0) eqn:Hs.
      - apply Z.div_pos; [lia|]. apply Z.leb_le in Hs.
        assert (0 < 10 ^ sh0) by (apply Z.pow_pos_nonneg; lia). nia.
      - apply Z.div_pos; [|lia]. apply Z.mul_nonneg_nonneg; [lia|].
        apply Z.pow_nonneg; lia. }
    destruct (same _ _), (same _ _); try done;
      intros [= <- _]; try lia.
    destruct (_ ?= _); [destruct (Z.even lo)| |]; lia.
Qed.

Lemma repr_search_nonneg (fuel : nat) (s : bool) (m : positive) (e nd : Z) :
  0 <= fst (repr_search fuel s m e nd).
Proof.
  revert nd. induction fuel as [|f IH]; intros nd; simpl; [done|].
  destruct (repr_candidate s m e nd) as [[c sh]|] eqn:E; [|apply IH].
  simpl. by eapply repr_candidate_nonneg.
Qed.

Lemma of_float_str_sign (x : float) (d : decimal) :
  of_float_str x = Ok d -> dsign d = sign_bit x /\ 0 <= dcoeff d.
Proof.
  destruct x as [s|s| |s m e]; simpl; try done.
  - by intros [= <-].
  - pose proof (repr_search_nonneg 17 s m e 1) as Hc.
    unfold repr_digits. destruct (repr_search 17 s m e 1) as [c sh].
    simpl in Hc.
    destruct (_ && _) eqn:Hcond; intros [= <-]; simpl; [|done].
    split; [done|]. apply Z.mul_nonneg_nonneg; [done|]. apply Z.pow_nonneg; lia.
Qed.

Lemma quantize_sign (d d' : decimal) :
  quantize_tenths_half_up d = Ok d' ->
  dsign d' = dsign d /\ dexp d' = -1 /\ (0 <= dcoeff d -> 0 <= dcoeff d').
Proof.
  unfold quantize_tenths_half_up.
  destruct (context_prec <? _); [done|]. intros [= <-]. simpl.
  split; [done|]. split; [done|]. intros Hc.
  destruct (Z.leb_spec (-1) (dexp d)) as [He|He].
  - apply Z.mul_nonneg_nonneg; [done|]. apply Z.pow_nonneg; lia.
  - assert (0 < 10 ^ (-1 - dexp d)) by (apply Z.pow_pos_nonneg; lia).
    assert (0 <= dcoeff d / 10 ^ (-1 - dexp d)) by (apply Z.div_pos; lia).
    destruct (_ <=? _); lia.
Qed.

Lemma to_float_sign (d : decimal) :
  0 <= dcoeff d -> has_sign (dsign d) (to_float d).
Proof.
  intros Hc. unfold to_float, of_decimal.
  destruct (Z.eqb_spec (dcoeff d) 0) as [|Hne]; [done|].
  assert (forall n den, 0 < den ->
            has_sign (dsign d) (of_ratio (if dsign d then - n else n) den)
            \/ n <= 0) as Hsign.
  { intros n den Hden. destruct (Z.leb_spec n 0); [by right|left].
    pose proof (of_ratio_sign (if dsign d then - n else n) den Hden) as Hs.
    destruct (dsign d).
    - replace (- n <? 0) with true in Hs; [done|]. symmetry. apply Z.ltb_lt. lia.
    - replace (n <? 0) with false in Hs; [done|]. symmetry. apply Z.ltb_ge. lia. }
  destruct (Z.leb_spec 0 (dexp d)) as [He|He].
  - assert (0 < 10 ^ dexp d) by (apply Z.pow_pos_nonneg; lia).
    replace ((if dsign d then - dcoeff d else dcoeff d) * 10 ^ dexp d)
      with (if dsign d then - (dcoeff d * 10 ^ dexp d) else dcoeff d * 10 ^ dexp d)
      by (destruct (dsign d); lia).
    destruct (Hsign (dcoeff d * 10 ^ dexp d) 1) as [?|?]; [lia|done|nia].
  - destruct (Hsign (dcoeff d) (10 ^ (- dexp d))) as [?|?]; [|done|lia].
    apply Z.pow_pos_nonneg; lia.
Qed.

Lemma has_sign_false_not_below_zero (x : float) :
  has_sign false x -> flt x fzero = false.
Proof.
  intros [Hnan Hs]. destruct x as [s|s| |s m e]; simpl in *; try done; by subst.
Qed.

Lemma has_sign_true_not_above_zero (x : float) :
  has_sign true x -> fgt x fzero = false.
Proof.
  intros [Hnan Hs]. destruct x as [s|s| |s m e]; simpl in *; try done; by subst.
Qed.

(** X15. The direction of a change is never reversed by the arithmetic:
    the Decimal has exactly one fractional digit, it is not negative when
    the count did not fall and not positive when it fell, and the string
    shows a "+" only for the former and a "-" only for the latter. *)
Theorem percentage_change_keeps_direction
    (current previous : Z) (d : decimal) :
  0 <= current -> 0 <= previous ->
  _calculate_percentage_change current previous = Ok d ->
  dexp d = -1
  /\ (previous <= current ->
      0 <= tenths d
      /\ (_format_percentage_change (Some d) = "0.0%"
          \/ exists rest,
               _format_percentage_change (Some d) = String "+" rest))
  /\ (current < previous ->
      tenths d <= 0
      /\ (_format_percentage_change (Some d) = "0.0%"
          \/ exists rest,
               _format_percentage_change (Some d) = String "-" rest)).
Proof.
  intros Hc Hp H.
  assert (dexp d = -1 /\ 0 <= dcoeff d /\ dsign d = (current <? previous))
    as (Hexp & Hcoeff & Hsign).
  { unfold _calculate_percentage_change in H.
    destruct (Z.eqb_spec previous 0) as [->|Hne].
    - replace (current <? 0) with false by (symmetry; apply Z.ltb_ge; lia).
      destruct (current =? 0); injection H as <-; done.
    - destruct (change_float current previous) as [x|] eqn:Ex; [|done].
      apply change_float_sign in Ex as [_ Hx]; [|lia].
      destruct (of_float_str x) as [d0|] eqn:Ed; [|done].
      apply of_float_str_sign in Ed as [Hs0 Hc0].
      apply quantize_sign in H as (Hs & He & Hcf).
      split; [done|]. split; [by apply Hcf|]. congruence. }
  pose proof (to_float_sign d Hcoeff) as Hval.
  destruct (format_percentage_change_sign d) as (Hplus & Hminus & Hzero).
  split; [done|]. split; intros Hdir.
  - replace (current <? previous) with false in Hsign
      by (symmetry; apply Z.ltb_ge; lia).
    rewrite Hsign in Hval. unfold tenths. rewrite Hsign. split; [done|].
    pose proof (has_sign_false_not_below_zero _ Hval) as Hlt.
    destruct (fgt (to_float d) fzero) eqn:Hgt.
    + right. destruct (Hplus eq_refl) as [-> _]. by eexists.
    + left. by apply Hzero.
  - replace (current <? previous) with true in Hsign
      by (symmetry; apply Z.ltb_lt; lia).
    rewrite Hsign in Hval. unfold tenths. rewrite Hsign. split; [lia|].
    pose proof (has_sign_true_not_above_zero _ Hval) as Hgt.
    destruct (flt (to_float d) fzero) eqn:Hlt.
    + right. destruct (Hminus eq_refl) as [-> [rest ->]]. by eexists.
    + left. by apply Hzero.
Qed.

Lemma percentage_change_keeps_direction_witness :
  exists d,
    _calculate_percentage_change 150 200 = Ok d
    /\ dexp d = -1 /\ tenths d <= 0
    /\ (_format_percentage_change (Some d) = "0.0%"
        \/ exists rest, _format_percentage_change (Some d) = String "-" rest).
Proof.
  assert (exists d, _calculate_percentage_change 150 200 = Ok d) as [d E]
    by (eexists; vm_compute; reflexivity).
  destruct (percentage_change_keeps_direction 150 200 d) as (He & _ & Hfall);
    [lia|lia|exact E|].
  destruct Hfall as [Ht Hs]; [lia|].
  exists d. split; [exact E|]. split; [exact He|]. split; [exact Ht|exact Hs].
Defined.

(** X16. Equal counts give exactly zero on every path: the Decimal
    [0.0], the float [0.0] and the string "0.0%", whatever the count. *)
Theorem equal_counts_give_exact_zero (n : Z) :
  0 <= n ->
  _calculate_percentage_change n n = Ok dec_0_0
  /\ _format_percentage_change (Some dec_0_0) = "0.0%"
  /\ newsapi_service_change n n = Ok (mkNewsapiChange (S754_zero false) "0.0%")
  /\ newsapi_endpoint_change n n = Ok (mkNewsapiChange (S754_zero false) "0.0%").
Proof.
  intros Hn.
  assert (n = 0 \/ change_float n n = Ok (S754_zero false)) as Hcf.
  { destruct n as [|p|p]; [by left|right|lia].
    unfold change_float, of_ratio. rewrite Z.sub_diag. simpl.
    reflexivity. }
  unfold newsapi_endpoint_change, newsapi_service_change, newsapi_inline_change,
    _calculate_percentage_change.
  destruct Hcf as [->|Hcf]; [by repeat split|].
  destruct (Z.eqb_spec n 0) as [->|Hne]; [by repeat split|].
  rewrite Hcf. repeat split; reflexivity.
Qed.

Lemma equal_counts_give_exact_zero_witness :
  _calculate_percentage_change 100 100 = Ok dec_0_0
  /\ _format_percentage_change (Some dec_0_0) = "0.0%"
  /\ newsapi_service_change 100 100
     = Ok (mkNewsapiChange (S754_zero false) "0.0%")
  /\ newsapi_endpoint_change 100 100
     = Ok (mkNewsapiChange (S754_zero false) "0.0%").
Proof. apply (equal_counts_give_exact_zero 100). lia. Defined.

End ChangeSign.
(** ** Month keys: what the validator accepts and what the parsers read *)

Section MonthKeys.
Import PyStr PyMonth MonthSpec.

Lemma digit_facts (c : ascii) :
  is_digit c = true ->
  is_space c = false /\ is_char c "-" = false /\ is_char c "+" = false
  /\ is_char c "_" = false /\ 0 <= digit_val c <= 9.
Proof.
  unfold is_digit, is_space, is_char, digit_val.
  change (nat_of_ascii "-") with 45%nat. change (nat_of_ascii "+") with 43%nat.
  change (nat_of_ascii "_") with 95%nat.
  set (n := nat_of_ascii c). intros H.
  apply andb_true_iff in H as [H1 H2].
  apply Nat.leb_le in H1, H2.
  repeat split; try lia.
  - apply orb_false_iff. split; [apply orb_false_iff; split|].
    + apply andb_false_iff. right. apply Nat.leb_gt. lia.
    + apply andb_false_iff. right. apply Nat.leb_gt. lia.
    + apply Nat.eqb_neq. lia.
  - apply Nat.eqb_neq. lia.
  - apply Nat.eqb_neq. lia.
  - apply Nat.eqb_neq. lia.
Qed.

Lemma is_char_eq (c d : ascii) : is_char c d = true -> c = d.
Proof.
  unfold is_char. intros H. apply Nat.eqb_eq in H.
  rewrite <- (ascii_nat_embedding c), <- (ascii_nat_embedding d). by rewrite H.
Qed.

Lemma is_char_zero (c : ascii) :
  is_digit c = true -> is_char c "0" = false -> 1 <= digit_val c.
Proof.
  unfold is_digit, is_char, digit_val. change (nat_of_ascii "0") with 48%nat.
  set (n := nat_of_ascii c). intros H H0.
  apply andb_true_iff in H as [H1 H2]. apply Nat.leb_le in H1, H2.
  apply Nat.eqb_neq in H0. lia.
Qed.

(** The strings that the month directive consumes entirely. *)
Lemma match_month_all (rest : list ascii) (m : Z) :
  match_month rest = Some (m, []) ->
  1 <= m <= 12
  /\ ((exists c, rest = [c] /\ is_digit c = true /\ m = digit_val c)
      \/ (exists c d, rest = [c; d] /\ is_digit c = true /\ is_digit d = true
                      /\ m = 10 * digit_val c + digit_val d)).
Proof.
  unfold match_month.
  destruct rest as [|c [|d r]].
  - done.
  - destruct (is_digit c) eqn:Hc; simpl; [|done].
    destruct (is_char c "0") eqn:H0; simpl; [done|].
    intros [= <-]. pose proof (is_char_zero c Hc H0).
    destruct (digit_facts c Hc) as (_ & _ & _ & _ & ?).
    split; [lia|]. left. by exists c.
  - destruct (is_char c "1" && is_digit d && (digit_val d <=? 2)) eqn:H1.
    + intros [= <- <-].
      apply andb_true_iff in H1 as [H1 H2]. apply andb_true_iff in H1 as [H1 Hd].
      apply is_char_eq in H1 as ->. apply Z.leb_le in H2.
      destruct (digit_facts d Hd) as (_ & _ & _ & _ & ?).
      change (digit_val "1") with 1 in *.
      split; [lia|]. right. exists "1"%char, d. repeat split; done || lia.
    + destruct (is_char c "0" && is_digit d && negb (is_char d "0")) eqn:H2.
      * intros [= <- <-].
        apply andb_true_iff in H2 as [H2 H3]. apply andb_true_iff in H2 as [H2 Hd].
        apply is_char_eq in H2 as ->. apply negb_true_iff in H3.
        pose proof (is_char_zero d Hd H3).
        destruct (digit_facts d Hd) as (_ & _ & _ & _ & ?).
        split; [lia|]. right. exists "0"%char, d.
        change (digit_val "0") with 0. repeat split; done || lia.
      * destruct (is_digit c && negb (is_char c "0")); [|done].
        by intros [= _ ?].
Qed.

Lemma py_int_digits_1 (c : ascii) :
  is_digit c = true -> py_int (String c EmptyString) = Ok (digit_val c).
Proof.
  intros Hc. destruct (digit_facts c Hc) as (Hs & Hm & Hp & _ & _).
  unfold py_int, strip.
  repeat progress (simpl; rewrite ?Hs, ?Hm, ?Hp, ?Hc). done.
Qed.

Lemma py_int_digits_2 (c d : ascii) :
  is_digit c = true -> is_digit d = true ->
  py_int (String c (String d EmptyString)) = Ok (10 * digit_val c + digit_val d).
Proof.
  intros Hc Hd.
  destruct (digit_facts c Hc) as (Hs & Hm & Hp & _ & _).
  destruct (digit_facts d Hd) as (Hs' & _ & _ & _ & _).
  unfold py_int, strip.
  repeat progress (simpl; rewrite ?Hs, ?Hs', ?Hm, ?Hp, ?Hc, ?Hd).
  first [done | f_equal; lia].
Qed.

Lemma py_int_digits_4 (a b c d : ascii) :
  is_digit a = true -> is_digit b = true -> is_digit c = true ->
  is_digit d = true ->
  py_int (String a (String b (String c (String d EmptyString))))
  = Ok (1000 * digit_val a + 100 * digit_val b + 10 * digit_val c + digit_val d).
Proof.
  intros Ha Hb Hc Hd.
  destruct (digit_facts a Ha) as (Hs & Hm & Hp & _ & _).
  destruct (digit_facts b Hb) as (Hsb & _ & _ & _ & _).
  destruct (digit_facts c Hc) as (Hsc & _ & _ & _ & _).
  destruct (digit_facts d Hd) as (Hsd & _ & _ & _ & _).
  unfold py_int, strip.
  repeat progress (simpl; rewrite ?Hs, ?Hsb, ?Hsc, ?Hsd, ?Hm, ?Hp, ?Ha, ?Hb, ?Hc, ?Hd).
  first [done | f_equal; lia].
Qed.

(** What both readers make of four digits, a hyphen and a month. *)
Lemma month_key_read (y1 y2 y3 y4 : ascii) (rest : list ascii) (m : Z) :
  is_digit y1 = true -> is_digit y2 = true -> is_digit y3 = true ->
  is_digit y4 = true ->
  match_month rest = Some (m, []) ->
  let key := String y1 (String y2 (String y3 (String y4
               (String "-" (string_of_list_ascii rest))))) in
  let year := 1000 * digit_val y1 + 100 * digit_val y2
              + 10 * digit_val y3 + digit_val y4 in
  parse_year_month key = Ok (year, m)
  /\ (year <> 0 -> strptime_Y_m key = Ok (year, m)).
Proof.
  intros H1 H2 H3 H4 Hm key year.
  destruct (digit_facts y1 H1) as (_ & D1 & _).
  destruct (digit_facts y2 H2) as (_ & D2 & _).
  destruct (digit_facts y3 H3) as (_ & D3 & _).
  destruct (digit_facts y4 H4) as (_ & D4 & _).
  split.
  - unfold parse_year_month, key. simpl. rewrite D1, D2, D3, D4.
    destruct (match_month_all rest m Hm) as [_ [(c & -> & Hc & ->)|(c & d & -> & Hc & Hd & ->)]].
    + destruct (digit_facts c Hc) as (_ & Dc & _). simpl. rewrite Dc.
      rewrite py_int_digits_4, py_int_digits_1 by done. done.
    + destruct (digit_facts c Hc) as (_ & Dc & _).
      destruct (digit_facts d Hd) as (_ & Dd & _). simpl. rewrite Dc, Dd.
      rewrite py_int_digits_4, py_int_digits_2 by done. done.
  - intros Hy. unfold strptime_Y_m, key. simpl.
    rewrite list_ascii_of_string_of_list_ascii, H1, H2, H3, H4, Hm. simpl.
    fold year. destruct (Z.eqb_spec year 0); done.
Qed.

Lemma strptime_Ok (key : string) (year month : Z) :
  strptime_Y_m key = Ok (year, month) ->
  1 <= month <= 12 /\ 1 <= year <= 9999
  /\ parse_year_month key = Ok (year, month).
Proof.
  intros H.
  rewrite <- (string_of_list_ascii_of_string key).
  unfold strptime_Y_m in H.
  destruct (list_ascii_of_string key) as [|y1 [|y2 [|y3 [|y4 [|dash rest]]]]];
    try done.
  destruct (is_digit y1) eqn:H1; [|done]. destruct (is_digit y2) eqn:H2; [|done].
  destruct (is_digit y3) eqn:H3; [|done]. destruct (is_digit y4) eqn:H4; [|done].
  destruct (is_char dash "-") eqn:Hd; [|done]. simpl in H.
  apply is_char_eq in Hd as ->.
  destruct (match_month rest) as [[m [|x r]]|] eqn:Hm; try done.
  destruct (Z.eqb_spec (1000 * digit_val y1 + 100 * digit_val y2
                        + 10 * digit_val y3 + digit_val y4) 0) as [|Hne]; [done|].
  injection H as <- <-.
  destruct (match_month_all rest m Hm) as [Hb _].
  destruct (digit_facts y1 H1) as (_ & _ & _ & _ & ?).
  destruct (digit_facts y2 H2) as (_ & _ & _ & _ & ?).
  destruct (digit_facts y3 H3) as (_ & _ & _ & _ & ?).
  destruct (digit_facts y4 H4) as (_ & _ & _ & _ & ?).
  split; [done|]. split; [lia|].
  simpl. by apply month_key_read.
Qed.

(** X17. Every ASCII key that the validating endpoints accept names a
    calendar month, and the services that split the key at the hyphen read
    the same year and month from it. *)
Theorem accepted_month_key_is_a_calendar_month
    (key : string) (year month : Z) :
  isascii key = true ->
  strptime_Y_m key = Ok (year, month) ->
  1 <= month <= 12 /\ 1 <= year <= 9999
  /\ parse_year_month key = Ok (year, month).
Proof.
  intros _ H.
  rewrite <- (string_of_list_ascii_of_string key).
  unfold strptime_Y_m in H.
  destruct (list_ascii_of_string key) as [|y1 [|y2 [|y3 [|y4 [|dash rest]]]]];
    try done.
  destruct (is_digit y1) eqn:H1; [|done]. destruct (is_digit y2) eqn:H2; [|done].
  destruct (is_digit y3) eqn:H3; [|done]. destruct (is_digit y4) eqn:H4; [|done].
  destruct (is_char dash "-") eqn:Hd; [|done]. simpl in H.
  apply is_char_eq in Hd as ->.
  destruct (match_month rest) as [[m [|x r]]|] eqn:Hm; try done.
  destruct (Z.eqb_spec (1000 * digit_val y1 + 100 * digit_val y2
                        + 10 * digit_val y3 + digit_val y4) 0) as [|Hne]; [done|].
  injection H as <- <-.
  destruct (match_month_all rest m Hm) as [Hb _].
  destruct (digit_facts y1 H1) as (_ & _ & _ & _ & ?).
  destruct (digit_facts y2 H2) as (_ & _ & _ & _ & ?).
  destruct (digit_facts y3 H3) as (_ & _ & _ & _ & ?).
  destruct (digit_facts y4 H4) as (_ & _ & _ & _ & ?).
  split; [done|]. split; [lia|].
  simpl. by apply month_key_read.
Qed.

Lemma accepted_month_key_is_a_calendar_month_witness :
  1 <= 9 <= 12 /\ 1 <= 2025 <= 9999
  /\ parse_year_month "2025-9" = Ok (2025, 9).
Proof.
  apply (accepted_month_key_is_a_calendar_month "2025-9" 2025 9).
  - reflexivity.
  - vm_compute. reflexivity.
Defined.

End MonthKeys.

Section MonthRoundTrip.
Import PyStr PyMonth MonthSpec.

Lemma four_digits_all :
  forallb four_digits_of (map Z.of_nat (seq 1 (Z.to_nat 9999))) = true.
Proof. vm_compute. reflexivity. Qed.

Lemma month_digits_all :
  forallb month_digits_of (map Z.of_nat (seq 1 12)) = true.
Proof. vm_compute. reflexivity. Qed.

Lemma in_range (n : nat) (z : Z) :
  1 <= z <= Z.of_nat n -> In z (map Z.of_nat (seq 1 n)).
Proof.
  intros H. apply in_map_iff. exists (Z.to_nat z). split; [lia|].
  apply in_seq. lia.
Qed.

Lemma format_round_trip (year month : Z) :
  1 <= year <= 9999 -> 1 <= month <= 12 ->
  strptime_Y_m (format_year_month year month) = Ok (year, month)
  /\ parse_year_month (format_year_month year month) = Ok (year, month).
Proof.
  intros Hy Hm.
  pose proof (proj1 (forallb_forall _ _) four_digits_all year
                (in_range (Z.to_nat 9999) year ltac:(lia))) as H4.
  pose proof (proj1 (forallb_forall _ _) month_digits_all month
                (in_range 12 month Hm)) as H2.
  unfold four_digits_of in H4. unfold month_digits_of in H2.
  unfold format_year_month.
  rewrite <- (string_of_list_ascii_of_string (format_0d 4 year)).
  rewrite <- (string_of_list_ascii_of_string (format_0d 2 month)).
  destruct (list_ascii_of_string (format_0d 4 year))
    as [|a [|b [|c [|d [|x r]]]]]; try done.
  apply andb_true_iff in H4 as [H4 Hv]. apply Z.eqb_eq in Hv.
  apply andb_true_iff in H4 as [H4 Hd]. apply andb_true_iff in H4 as [H4 Hc].
  apply andb_true_iff in H4 as [Ha Hb].
  destruct (match_month (list_ascii_of_string (format_0d 2 month)))
    as [[m' [|x r]]|] eqn:Em; try done.
  apply Z.eqb_eq in H2. subst m'.
  destruct (month_key_read a b c d _ month Ha Hb Hc Hd Em) as [Hparse Hstrp].
  rewrite Hv in Hparse, Hstrp. simpl.
  split; [apply Hstrp; lia|exact Hparse].
Qed.

(** X18. A month key written by the analyses reads back: for every year
    from 1 to 9999 and month from 1 to 12 the validator accepts the
    formatted key and both readers return the year and month it was
    made from. *)
Theorem formatted_month_key_round_trip (year month : Z) :
  1 <= year <= 9999 -> 1 <= month <= 12 ->
  strptime_Y_m (format_year_month year month) = Ok (year, month)
  /\ parse_year_month (format_year_month year month) = Ok (year, month).
Proof.
  intros Hy Hm.
  pose proof (proj1 (forallb_forall _ _) four_digits_all year
                (in_range (Z.to_nat 9999) year ltac:(lia))) as H4.
  pose proof (proj1 (forallb_forall _ _) month_digits_all month
                (in_range 12 month Hm)) as H2.
  unfold four_digits_of in H4. unfold month_digits_of in H2.
  unfold format_year_month.
  rewrite <- (string_of_list_ascii_of_string (format_0d 4 year)).
  rewrite <- (string_of_list_ascii_of_string (format_0d 2 month)).
  destruct (list_ascii_of_string (format_0d 4 year))
    as [|a [|b [|c [|d [|x r]]]]]; try done.
  apply andb_true_iff in H4 as [H4 Hv]. apply Z.eqb_eq in Hv.
  apply andb_true_iff in H4 as [H4 Hd]. apply andb_true_iff in H4 as [H4 Hc].
  apply andb_true_iff in H4 as [Ha Hb].
  destruct (match_month (list_ascii_of_string (format_0d 2 month)))
    as [[m' [|x r]]|] eqn:Em; try done.
  apply Z.eqb_eq in H2. subst m'.
  destruct (month_key_read a b c d _ month Ha Hb Hc Hd Em) as [Hparse Hstrp].
  rewrite Hv in Hparse, Hstrp. simpl.
  split; [apply Hstrp; lia|exact Hparse].
Qed.

Lemma formatted_month_key_round_trip_witness :
  strptime_Y_m (format_year_month 2025 9) = Ok (2025, 9)
  /\ parse_year_month (format_year_month 2025 9) = Ok (2025, 9).
Proof. apply (formatted_month_key_round_trip 2025 9); lia. Defined.

(** X19. The comparison months are well formed: the month before a valid
    month is again a valid key, exactly one month earlier with the year
    rolling over in January, and the key of the same month one year back
    reads as that month. *)
Theorem comparison_months_are_valid (year month : Z) :
  2 <= year <= 9999 -> 1 <= month <= 12 ->
  (exists py pm,
     strptime_Y_m (previous_month_of year month) = Ok (py, pm)
     /\ parse_year_month (previous_month_of year month) = Ok (py, pm)
     /\ 12 * py + pm = 12 * year + month - 1)
  /\ strptime_Y_m (format_year_month (year - 1) month) = Ok (year - 1, month)
  /\ parse_year_month (format_year_month (year - 1) month)
     = Ok (year - 1, month).
Proof.
  intros Hy Hm. split.
  - unfold previous_month_of. destruct (Z.eqb_spec month 1) as [->|Hne].
    + exists (year - 1), 12.
      destruct (format_round_trip (year - 1) 12) as [H1 H2]; [lia|lia|].
      split; [done|]. split; [done|lia].
    + exists year, (month - 1).
      destruct (format_round_trip year (month - 1)) as [H1 H2]; [lia|lia|].
      split; [done|]. split; [done|lia].
  - apply format_round_trip; lia.
Qed.

Lemma comparison_months_are_valid_witness :
  (exists py pm,
     strptime_Y_m (previous_month_of 2025 1) = Ok (py, pm)
     /\ parse_year_month (previous_month_of 2025 1) = Ok (py, pm)
     /\ 12 * py + pm = 12 * 2025 + 1 - 1)
  /\ strptime_Y_m (format_year_month (2025 - 1) 1) = Ok (2025 - 1, 1)
  /\ parse_year_month (format_year_month (2025 - 1) 1) = Ok (2025 - 1, 1).
Proof. apply (comparison_months_are_valid 2025 1); lia. Defined.

End MonthRoundTrip.
(** ** The heat levels follow the heat index *)

Section HeatOrder.
Import PyFloat FloatOrder HeatIndexReducer HeatSpec.

Lemma lex_lt_dec (a b : Z * Z * Z) : lex_lt a b \/ ~ lex_lt a b.
Proof. destruct a as [[a1 a2] a3], b as [[b1 b2] b3]. unfold lex_lt. lia. Qed.

Lemma lex_lt_trans_le (a b c : Z * Z * Z) :
  ~ lex_lt a c -> ~ lex_lt b a -> ~ lex_lt b c.
Proof.
  destruct a as [[a1 a2] a3], b as [[b1 b2] b3], c as [[c1 c2] c3].
  unfold lex_lt. lia.
Qed.

Lemma lex_lt_le_trans (a b c : Z * Z * Z) :
  lex_lt c a -> ~ lex_lt b a -> lex_lt c b.
Proof.
  destruct a as [[a1 a2] a3], b as [[b1 b2] b3], c as [[c1 c2] c3].
  unfold lex_lt. lia.
Qed.

Lemma fge_threshold_mono (x y c : float) :
  not_nan x -> not_nan y -> not_nan c ->
  fle x y = true -> fge x c = true -> fge y c = true.
Proof.
  intros Hx Hy Hc Hle Hge.
  change (fle x y) with (fge y x) in Hle.
  apply fge_order_key in Hle; [|done..]. apply fge_order_key in Hge; [|done..].
  apply fge_order_key; [done..|]. by eapply lex_lt_trans_le.
Qed.

Lemma fgt_zero_mono (x y : float) :
  not_nan x -> not_nan y ->
  fle x y = true -> fgt x fzero = true -> fgt y fzero = true.
Proof.
  intros Hx Hy Hle Hgt.
  change (fle x y) with (fge y x) in Hle. unfold fgt in *.
  apply fge_order_key in Hle; [|done..]. apply flt_order_key in Hgt; [|done..].
  apply flt_order_key; [done..|]. by eapply lex_lt_le_trans.
Qed.

Lemma level_values :
  level_order "极热" = 5 /\ level_order "很热" = 4 /\ level_order "较热" = 3
  /\ level_order "温热" = 2 /\ level_order "微热" = 1 /\ level_order "冷门" = 0.
Proof. repeat split; vm_compute; reflexivity. Qed.

Lemma heat_level_mono (x y : float) :
  not_nan x -> not_nan y -> fle x y = true ->
  level_order (heat_level x) <= level_order (heat_level y).
Proof.
  intros Hx Hy Hle.
  destruct level_values as (L5 & L4 & L3 & L2 & L1 & L0).
  pose proof (fun c Hc => fge_threshold_mono x y c Hx Hy Hc Hle) as Hmono.
  assert (not_nan f_1_0 /\ not_nan f_0_5 /\ not_nan f_0_2 /\ not_nan f_0_1)
    as (N1 & N5 & N2 & N01) by (repeat split; apply of_ratio_not_nan; lia).
  unfold heat_level.
  destruct (fge x f_1_0) eqn:X1.
  { rewrite (Hmono _ N1 X1). lia. }
  destruct (fge x f_0_5) eqn:X5.
  { rewrite (Hmono _ N5 X5). destruct (fge y f_1_0); lia. }
  destruct (fge x f_0_2) eqn:X2.
  { rewrite (Hmono _ N2 X2). destruct (fge y f_1_0), (fge y f_0_5); lia. }
  destruct (fge x f_0_1) eqn:X01.
  { rewrite (Hmono _ N01 X01).
    destruct (fge y f_1_0), (fge y f_0_5), (fge y f_0_2); lia. }
  destruct (fgt x fzero) eqn:X0.
  { rewrite (fgt_zero_mono x y Hx Hy Hle X0).
    destruct (fge y f_1_0), (fge y f_0_5), (fge y f_0_2), (fge y f_0_1); lia. }
  destruct (fge y f_1_0), (fge y f_0_5), (fge y f_0_2), (fge y f_0_1),
    (fgt y fzero); lia.
Qed.

(** X20. The heat level never goes against the heat index: of two indexes
    the larger one gets the same or a hotter level. *)
Theorem heat_level_is_monotone (x y : float) :
  not_nan x -> not_nan y -> fle x y = true ->
  level_order (heat_level x) <= level_order (heat_level y).
Proof.
  intros Hx Hy Hle.
  destruct level_values as (L5 & L4 & L3 & L2 & L1 & L0).
  pose proof (fun c Hc => fge_threshold_mono x y c Hx Hy Hc Hle) as Hmono.
  assert (not_nan f_1_0 /\ not_nan f_0_5 /\ not_nan f_0_2 /\ not_nan f_0_1)
    as (N1 & N5 & N2 & N01) by (repeat split; apply of_ratio_not_nan; lia).
  unfold heat_level.
  destruct (fge x f_1_0) eqn:X1.
  { rewrite (Hmono _ N1 X1). lia. }
  destruct (fge x f_0_5) eqn:X5.
  { rewrite (Hmono _ N5 X5). destruct (fge y f_1_0); lia. }
  destruct (fge x f_0_2) eqn:X2.
  { rewrite (Hmono _ N2 X2). destruct (fge y f_1_0), (fge y f_0_5); lia. }
  destruct (fge x f_0_1) eqn:X01.
  { rewrite (Hmono _ N01 X01).
    destruct (fge y f_1_0), (fge y f_0_5), (fge y f_0_2); lia. }
  destruct (fgt x fzero) eqn:X0.
  { rewrite (fgt_zero_mono x y Hx Hy Hle X0).
    destruct (fge y f_1_0), (fge y f_0_5), (fge y f_0_2), (fge y f_0_1); lia. }
  destruct (fge y f_1_0), (fge y f_0_5), (fge y f_0_2), (fge y f_0_1),
    (fgt y fzero); lia.
Qed.

Lemma heat_level_is_monotone_witness :
  level_order (heat_level (of_ratio 15 100))
  <= level_order (heat_level (of_ratio 25 100)).
Proof.
  apply heat_level_is_monotone.
  - apply of_ratio_not_nan. lia.
  - apply of_ratio_not_nan. lia.
  - vm_compute. reflexivity.
Defined.

End HeatOrder.
(** ** The month window of the heat query *)

Section MonthWindow.
Import PyDate HeatStore.

Lemma days_before_next_year (year : Z) :
  _days_before_year (year + 1)
  = _days_before_year year + 365 + (if _is_leap year then 1 else 0).
Proof.
  unfold _days_before_year, _is_leap. cbv zeta.
  replace (year + 1 - 1) with year by lia.
  destruct (Z.eqb_spec (year mod 4) 0) as [H4|H4];
    destruct (Z.eqb_spec (year mod 100) 0) as [H100|H100];
    destruct (Z.eqb_spec (year mod 400) 0) as [H400|H400]; simpl;
    Z.div_mod_to_equations; lia.
Qed.

Lemma month_cases (month : Z) :
  1 <= month <= 12 ->
  month = 1 \/ month = 2 \/ month = 3 \/ month = 4 \/ month = 5 \/ month = 6
  \/ month = 7 \/ month = 8 \/ month = 9 \/ month = 10 \/ month = 11
  \/ month = 12.
Proof. lia. Qed.

Lemma days_in_month_bounds (year month : Z) :
  1 <= month <= 12 -> 28 <= _days_in_month year month <= 31.
Proof.
  intros H. unfold _days_in_month.
  destruct (month_cases month H) as [->|[->|[->|[->|[->|[->|[->|[->|[->|[->|[->| ->]]]]]]]]]]];
    simpl; try lia.
  destruct (_is_leap year); simpl; lia.
Qed.

Lemma next_month_starts_after (year month : Z) :
  1 <= month <= 11 ->
  _days_before_month year (month + 1)
  = _days_before_month year month + _days_in_month year month.
Proof.
  intros H. unfold _days_before_month, _days_in_month.
  assert (1 <= month <= 12) as H' by lia.
  destruct (month_cases month H') as [->|[->|[->|[->|[->|[->|[->|[->|[->|[->|[->| ->]]]]]]]]]]];
    simpl; try lia; destruct (_is_leap year); simpl; lia.
Qed.

Lemma datetime_Ok (year month day ord : Z) :
  datetime year month day = Ok ord ->
  1 <= year <= 9999 /\ 1 <= month <= 12
  /\ 1 <= day <= _days_in_month year month
  /\ ord = _ymd2ord year month day.
Proof.
  unfold datetime.
  destruct (Z.leb_spec 1 year), (Z.leb_spec year 9999); simpl; try done.
  destruct (Z.leb_spec 1 month), (Z.leb_spec month 12); simpl; try done.
  destruct (Z.leb_spec 1 day), (Z.leb_spec day (_days_in_month year month));
    simpl; try done.
  intros [= <-]. lia.
Qed.

Lemma datetime_first (year month : Z) :
  1 <= year <= 9999 -> 1 <= month <= 12 ->
  datetime year month 1 = Ok (_ymd2ord year month 1).
Proof.
  intros Hy Hm. pose proof (days_in_month_bounds year month Hm).
  unfold datetime.
  destruct (Z.leb_spec 1 year), (Z.leb_spec year 9999); simpl; try lia.
  destruct (Z.leb_spec 1 month), (Z.leb_spec month 12); simpl; try lia.
  destruct (Z.leb_spec 1 1), (Z.leb_spec 1 (_days_in_month year month));
    simpl; try lia.
  done.
Qed.

Lemma days_before_year_nonneg (year : Z) : 1 <= year -> 0 <= _days_before_year year.
Proof.
  intros H. unfold _days_before_year. cbv zeta.
  Z.div_mod_to_equations. lia.
Qed.

Lemma days_before_month_nonneg (year month : Z) :
  1 <= month <= 12 -> 0 <= _days_before_month year month.
Proof.
  intros H. unfold _days_before_month.
  destruct (month_cases month H) as [->|[->|[->|[->|[->|[->|[->|[->|[->|[->|[->| ->]]]]]]]]]]];
    simpl; destruct (_is_leap year); simpl; lia.
Qed.

(** The window of a month, when it can be computed. *)
Lemma month_range_Ok (year month start_date end_date : Z) :
  month_range year month = Ok (start_date, end_date) ->
  1 <= year <= 9999 /\ 1 <= month <= 12
  /\ start_date = _ymd2ord year month 1
  /\ days_between start_date end_date + 1 = _days_in_month year month.
Proof.
  unfold month_range. intros H.
  destruct (datetime year month 1) as [s0|] eqn:E1; [|done].
  apply datetime_Ok in E1 as (Hy & Hm & _ & ->).
  destruct (if month =? 12 then _ else _) as [n0|] eqn:E2; [|done].
  destruct (minus_days n0 1) as [e0|] eqn:E3; [|done].
  injection H as <- <-.
  unfold minus_days in E3. destruct (n0 - 1 <? 1); [done|].
  injection E3 as <-.
  split; [done|]. split; [done|]. split; [done|].
  unfold days_between.
  destruct (Z.eqb_spec month 12) as [->|Hne].
  - apply datetime_Ok in E2 as (_ & _ & _ & ->).
    unfold _ymd2ord. rewrite days_before_next_year.
    unfold _days_before_month, _days_in_month. simpl.
    destruct (_is_leap year); simpl; lia.
  - apply datetime_Ok in E2 as (_ & _ & _ & ->).
    unfold _ymd2ord. rewrite next_month_starts_after by lia. lia.
Qed.

(** X21. Whatever month the heat calculation is asked for, the window it
    hands to the GDELT query runs from the first to the last day of that
    month, and the query always asks for the timespan "1month".  The
    window exists for every month from January of year 1 to November
    9999. *)
Theorem heat_query_window_is_the_month (year month : Z) :
  (1 <= year <= 9999 -> 1 <= month <= 12 -> 12 * year + month < 12 * 9999 + 12 ->
   exists start_date end_date,
     month_range year month = Ok (start_date, end_date))
  /\ (forall start_date end_date,
        month_range year month = Ok (start_date, end_date) ->
        1 <= year <= 9999 /\ 1 <= month <= 12
        /\ start_date = _ymd2ord year month 1
        /\ days_between start_date end_date + 1 = _days_in_month year month
        /\ heat_timespan start_date end_date = "1month").
Proof.
  split.
  - intros Hy Hm Hlast. unfold month_range.
    rewrite datetime_first by done.
    assert (exists n, (if month =? 12 then datetime (year + 1) 1 1
                       else datetime year (month + 1) 1) = Ok n /\ 2 <= n)
      as (n & -> & Hn).
    { destruct (Z.eqb_spec month 12) as [->|Hne].
      - rewrite datetime_first by lia. eexists. split; [done|].
        unfold _ymd2ord. rewrite days_before_next_year.
        pose proof (days_before_year_nonneg year).
        change (_days_before_month (year + 1) 1) with 0.
        destruct (_is_leap year); lia.
      - rewrite datetime_first by lia. eexists. split; [done|].
        unfold _ymd2ord.
        pose proof (days_before_year_nonneg year).
        rewrite next_month_starts_after by lia.
        pose proof (days_before_month_nonneg year month Hm).
        pose proof (days_in_month_bounds year month Hm). lia. }
    unfold minus_days. destruct (Z.ltb_spec (n - 1) 1); [lia|]. by eexists _, _.
  - intros s e H. apply month_range_Ok in H as (Hy & Hm & Hs & Hd).
    repeat split; try done; try lia.
    pose proof (days_in_month_bounds year month Hm).
    unfold heat_timespan.
    destruct (Z.leb_spec (days_between s e) 1); [lia|].
    destruct (Z.leb_spec (days_between s e) 7); [lia|].
    destruct (Z.leb_spec (days_between s e) 30); [done|lia].
Qed.

Lemma heat_query_window_is_the_month_witness :
  exists start_date end_date,
    month_range 2024 2 = Ok (start_date, end_date)
    /\ days_between start_date end_date + 1 = 29
    /\ heat_timespan start_date end_date = "1month".
Proof.
  destruct (heat_query_window_is_the_month 2024 2) as [Hex Hall].
  destruct Hex as (s & e & Hr); [lia|lia|lia|].
  destruct (Hall s e Hr) as (_ & _ & _ & Hd & Ht).
  exists s, e. split; [exact Hr|]. split; [exact Hd|exact Ht].
Defined.

End MonthWindow.
(** ** The heat-index service *)

Section HeatService.
Import PyFloat FloatOrder PyMonth PyDate Storage HeatIndexReducer HeatStore.
Import BatchSpec HeatSpec Demo Demo4 Demo5.

Variable fails : heat_op -> bool.
Variable gdelt : string -> string -> py_result (option (list (string * json))).

Lemma Forall2_impl_elem {A B : Type} (P Q : A -> B -> Prop) (l : list A)
    (k : list B) :
  Forall2 P l k -> (forall x y, y ∈ k -> P x y -> Q x y) -> Forall2 Q l k.
Proof.
  induction 1 as [|x y l k Hxy _ IH]; intros HPQ; constructor.
  - apply HPQ; [apply list_elem_of_here|done].
  - apply IH. intros x' y' Hy'. apply HPQ. by apply list_elem_of_further.
Qed.

Lemma batch_query_fold (names : list string) (s e : Z)
    (m : gmap string heat_response) (name : string) :
  fold_left
    (fun results n => <[n := query_company_heat_index gdelt n s e]> results)
    names m !! name
  = if bool_decide (name ∈ names)
    then Some (query_company_heat_index gdelt name s e)
    else m !! name.
Proof.
  revert m. induction names as [|n rest IH]; intros m; cbn [fold_left].
  { rewrite bool_decide_eq_false_2; [done|]. apply not_elem_of_nil. }
  rewrite IH. repeat case_bool_decide; try done.
  - exfalso. by apply H0, list_elem_of_further.
  - apply elem_of_cons in H0 as [->|?]; [|done]. by rewrite lookup_insert_eq.
  - rewrite lookup_insert_ne; [done|]. intros ->. apply H0, list_elem_of_here.
Qed.

Lemma batch_query_lookup (names : list string) (s e : Z) (name : string) :
  name ∈ names ->
  batch_query_heat_index gdelt names s e !! name
  = Some (query_company_heat_index gdelt name s e).
Proof.
  intros Hin. unfold batch_query_heat_index. rewrite batch_query_fold.
  by rewrite bool_decide_eq_true_2.
Qed.

Lemma store_heat_index_row (ym : string) (heat_results : gmap string heat_response)
    (c : Company) (heat heat' : list HeatIndex) (r : heat_row) :
  store_heat_index fails ym heat_results c heat = (Ok r, heat') ->
  row_company_id r = company_id c
  /\ (row_success r = true ->
      exists resp, heat_results !! cleaned_name c = Some resp
                   /\ success resp = true
                   /\ fails (SelectHeatRow (company_id c) ym) = false
                   /\ fails (CommitHeat (company_id c) ym) = false).
Proof.
  unfold store_heat_index.
  destruct (fails (SelectHeatRow _ _)); [by intros [= <- _]|].
  destruct (fails (CommitHeat _ _)); [done|].
  destruct (List.find _ heat); intros [= <- _]; simpl; (split; [done|]);
    destruct (heat_results !! cleaned_name c) as [resp|]; try done;
    intros Hs; by exists resp.
Qed.

Lemma store_heat_index_outcome (ym : string)
    (heat_results : gmap string heat_response) (c : Company)
    (heat : list HeatIndex) :
  (fails (SelectHeatRow (company_id c) ym) = false
   /\ fails (CommitHeat (company_id c) ym) = true
   /\ store_heat_index fails ym heat_results c heat
      = (Raise pending_rollback_error, heat))
  \/ ((fails (SelectHeatRow (company_id c) ym) = true
       \/ fails (CommitHeat (company_id c) ym) = false)
      /\ exists r heat',
           store_heat_index fails ym heat_results c heat = (Ok r, heat')).
Proof.
  unfold store_heat_index.
  destruct (fails (SelectHeatRow _ _)); [right; split; [by left|by eauto]|].
  destruct (fails (CommitHeat _ _)); [by left|right].
  split; [by right|]. destruct (List.find _ heat); by eauto.
Qed.

Lemma heat_loop_rows (ym : string) (heat_results : gmap string heat_response)
    (companies : list Company) (rows : list heat_row) (heat : list HeatIndex) :
  (forall c, c ∈ companies ->
     fails (SelectHeatRow (company_id c) ym) = true
     \/ fails (CommitHeat (company_id c) ym) = false) ->
  exists new heat_after,
    store_heat_indices fails ym heat_results companies rows heat
    = (Ok (rows ++ new)%list, heat_after)
    /\ map row_company_id new = map company_id companies
    /\ Forall2 (fun r c =>
                  row_success r = true ->
                  exists resp, heat_results !! cleaned_name c = Some resp
                               /\ success resp = true) new companies.
Proof.
  revert rows heat. induction companies as [|c rest IH]; intros rows heat Hall;
    cbn [store_heat_indices].
  { exists [], heat. by rewrite app_nil_r. }
  destruct (store_heat_index_outcome ym heat_results c heat)
    as [(F1 & F2 & _)|(_ & r & heat' & Hr)].
  { destruct (Hall c (list_elem_of_here _ _)); congruence. }
  rewrite Hr. apply store_heat_index_row in Hr as [Hid Hok].
  destruct (IH (rows ++ [r])%list heat') as (new & heat2 & Hout & Hids & Hrows).
  { intros c' Hc'. apply Hall. by apply list_elem_of_further. }
  exists (r :: new), heat2. rewrite Hout.
  rewrite <- app_assoc. split; [done|]. simpl. rewrite Hid, Hids.
  split; [done|]. constructor; [|done].
  intros Hs. destruct (Hok Hs) as (resp & ? & ? & _). by exists resp.
Qed.

Lemma heat_loop_aborts (ym : string) (heat_results : gmap string heat_response)
    (companies : list Company) (rows : list heat_row) (heat : list HeatIndex)
    (c : Company) :
  c ∈ companies ->
  fails (SelectHeatRow (company_id c) ym) = false ->
  fails (CommitHeat (company_id c) ym) = true ->
  exists heat_after,
    store_heat_indices fails ym heat_results companies rows heat
    = (Raise pending_rollback_error, heat_after).
Proof.
  intros Hc F1 F2. revert rows heat.
  induction companies as [|c1 rest IH]; intros rows heat.
  { by apply elem_of_nil in Hc. }
  cbn [store_heat_indices].
  destruct (store_heat_index_outcome ym heat_results c1 heat)
    as [(_ & _ & ->)|(Hor & r & heat' & ->)]; [by eauto|].
  apply elem_of_cons in Hc as [->|Hc].
  - destruct Hor; congruence.
  - by apply IH.
Qed.

(** X22. Once the companies are read and the month is a calendar month,
    the heat calculation returns when no commit fails: a company whose
    record cannot be read gets a failed row and the loop goes on.  There
    is then one row per selected company, in order; only the heat table
    can differ afterwards; and a row counts as successful only if GDELT
    answered for that company name.  A commit that fails ends the
    calculation instead: when the record of a selected company is read and
    cannot be committed, the calculation raises [PendingRollbackError],
    and again only the heat table can differ. *)
Theorem heat_batch_accounts_for_every_company
    (year month : Z) (company_ids : option (list Z)) (d : database)
    (start_date end_date : Z) :
  fails (SelectActive company_ids) = false ->
  month_range year month = Ok (start_date, end_date) ->
  selected_companies d company_ids <> [] ->
  let ym := format_year_month year month in
  ((forall c, c ∈ selected_companies d company_ids ->
      fails (SelectHeatRow (company_id c) ym) = true
      \/ fails (CommitHeat (company_id c) ym) = false) ->
   exists results d',
     calculate_monthly_heat_index fails gdelt year month company_ids d
     = (Ok (Calculated ym
              (Z.of_nat (length results))
              (Z.of_nat (length (filter (fun r => row_success r = true) results)))
              results), d')
     /\ map row_company_id results
        = map company_id (selected_companies d company_ids)
     /\ d' = set_heat_indices (heat_indices d') d
     /\ Forall2 (fun r c =>
                   row_success r = true ->
                   success (query_company_heat_index gdelt (cleaned_name c)
                              start_date end_date) = true)
          results (selected_companies d company_ids))
  /\ (forall c, c ∈ selected_companies d company_ids ->
        fails (SelectHeatRow (company_id c) ym) = false ->
        fails (CommitHeat (company_id c) ym) = true ->
        exists d',
          calculate_monthly_heat_index fails gdelt year month company_ids d
          = (Raise pending_rollback_error, d')
          /\ d' = set_heat_indices (heat_indices d') d).
Proof.
  intros Hf Hrange Hsel ym. unfold calculate_monthly_heat_index.
  rewrite Hf, Hrange. fold (selected_companies d company_ids). fold ym.
  destruct (selected_companies d company_ids) as [|c0 rest] eqn:Ec; [done|].
  set (companies := c0 :: rest).
  set (heat_results := batch_query_heat_index gdelt (map cleaned_name companies)
                         start_date end_date).
  split.
  - intros Hall.
    destruct (heat_loop_rows ym heat_results companies [] (heat_indices d) Hall)
      as (new & heat & Hout & Hids & Hrows).
    rewrite Hout. simpl.
    exists new, (set_heat_indices heat d). split; [done|]. split; [done|].
    split; [done|].
    eapply Forall2_impl_elem; [exact Hrows|].
    intros r c Hc Hrc Hs. destruct (Hrc Hs) as (resp & Hl & Hok).
    unfold heat_results in Hl. rewrite batch_query_lookup in Hl.
    + by injection Hl as <-.
    + apply list_elem_of_fmap. by exists c.
  - intros c Hc F1 F2.
    destruct (heat_loop_aborts ym heat_results companies [] (heat_indices d)
                c Hc F1 F2) as (heat & Hout).
    rewrite Hout. by exists (set_heat_indices heat d).
Qed.

Lemma update_first_find_same (P : HeatIndex -> bool) (f : HeatIndex -> HeatIndex)
    (l : list HeatIndex) (old : HeatIndex) :
  List.find P l = Some old -> P (f old) = true ->
  List.find P (update_first P f l) = Some (f old).
Proof.
  intros Hfind Hkey. induction l as [|r l IH]; simpl in *; [done|].
  destruct (P r) eqn:E.
  - injection Hfind as ->. simpl. by rewrite Hkey.
  - simpl. rewrite E. by apply IH.
Qed.

Lemma update_first_find_other (P Q : HeatIndex -> bool)
    (f : HeatIndex -> HeatIndex) (l : list HeatIndex) :
  (forall r, Q r = true -> P r = false /\ P (f r) = false) ->
  List.find P (update_first Q f l) = List.find P l.
Proof.
  intros HQ. induction l as [|r l IH]; simpl; [done|].
  destruct (Q r) eqn:E; simpl.
  - destruct (HQ r E) as [-> ->]. done.
  - rewrite IH. done.
Qed.

Lemma find_snoc_other {A : Type} (P : A -> bool) (l : list A) (new : A) :
  P new = false -> List.find P (l ++ [new])%list = List.find P l.
Proof.
  intros Hnew. induction l as [|r l IH]; simpl; [by rewrite Hnew|].
  by destruct (P r).
Qed.

Lemma is_heat_of_self (company : Z) (month : string) (x y z : float) :
  is_heat_of company month (mkHeat company month x y z) = true.
Proof.
  unfold is_heat_of, str_eqb. simpl. rewrite Z.eqb_refl.
  by rewrite bool_decide_eq_true_2.
Qed.

Lemma is_heat_of_other (cid : Z) (month : string) (r : HeatIndex) :
  h_company_id r <> cid -> is_heat_of cid month r = false.
Proof.
  intros Hne. unfold is_heat_of. destruct (Z.eqb_spec (h_company_id r) cid); done.
Qed.

Lemma is_heat_of_true (cid : Z) (month : string) (r : HeatIndex) :
  is_heat_of cid month r = true -> h_company_id r = cid /\ h_year_month r = month.
Proof.
  unfold is_heat_of, str_eqb. intros H. apply andb_true_iff in H as [H1 H2].
  apply Z.eqb_eq in H1. by apply bool_decide_eq_true in H2.
Qed.

(** The value the loop stores for a company. *)
Let stored_value (heat_results : gmap string heat_response) (c : Company)
  : float :=
  match heat_results !! cleaned_name c with
  | Some r => timelinevol_value r
  | None => fzero
  end.

Lemma store_heat_index_sets (ym : string)
    (heat_results : gmap string heat_response) (c : Company)
    (heat : list HeatIndex) :
  fails (SelectHeatRow (company_id c) ym) = false ->
  fails (CommitHeat (company_id c) ym) = false ->
  List.find (is_heat_of (company_id c) ym)
    (snd (store_heat_index fails ym heat_results c heat))
  = Some (mkHeat (company_id c) ym (stored_value heat_results c)
            (stored_value heat_results c) fzero).
Proof.
  intros F1 F2. unfold store_heat_index. rewrite F1, F2.
  destruct (List.find _ heat) as [old|] eqn:E; simpl.
  - erewrite update_first_find_same; [|exact E|].
    + apply find_some in E as [_ Hk]. apply is_heat_of_true in Hk as [-> ->].
      done.
    + apply find_some in E as [_ Hk]. apply is_heat_of_true in Hk as [Hc Hm].
      rewrite Hc, Hm. apply is_heat_of_self.
  - apply (find_snoc_new (is_heat_of (company_id c) ym)); [done|].
    apply is_heat_of_self.
Qed.

Lemma store_heat_index_other (ym : string)
    (heat_results : gmap string heat_response) (c : Company) (cid : Z)
    (heat : list HeatIndex) :
  company_id c <> cid ->
  List.find (is_heat_of cid ym)
    (snd (store_heat_index fails ym heat_results c heat))
  = List.find (is_heat_of cid ym) heat.
Proof.
  intros Hne. unfold store_heat_index.
  destruct (fails (SelectHeatRow _ _)); [done|].
  destruct (fails (CommitHeat _ _)); [done|].
  destruct (List.find _ heat) as [old|]; simpl.
  - apply update_first_find_other. intros r Hr.
    apply is_heat_of_true in Hr as [Hc _].
    split; apply is_heat_of_other; simpl; congruence.
  - apply find_snoc_other. apply is_heat_of_other. simpl. exact Hne.
Qed.

Lemma heat_loop_keeps (ym : string) (heat_results : gmap string heat_response)
    (companies : list Company) (rows : list heat_row) (heat : list HeatIndex)
    (cid : Z) :
  cid ∉ map company_id companies ->
  List.find (is_heat_of cid ym)
    (snd (store_heat_indices fails ym heat_results companies rows heat))
  = List.find (is_heat_of cid ym) heat.
Proof.
  revert rows heat. induction companies as [|c2 cs IH]; intros rows heat Hout;
    cbn [store_heat_indices]; [done|].
  pose proof (store_heat_index_other ym heat_results c2 cid heat) as Hother.
  destruct (store_heat_index fails ym heat_results c2 heat) as [[row|e] heat1];
    cbn [snd] in *.
  - rewrite IH.
    + apply Hother. intros Heq. apply Hout. rewrite <- Heq. simpl.
      apply list_elem_of_here.
    + intros Hin. apply Hout. simpl. by apply list_elem_of_further.
  - apply Hother. intros Heq. apply Hout. rewrite <- Heq. simpl.
    apply list_elem_of_here.
Qed.

Lemma heat_loop_stores (ym : string) (heat_results : gmap string heat_response)
    (companies : list Company) (rows rows' : list heat_row)
    (heat heat' : list HeatIndex) (c : Company) :
  NoDup (map company_id companies) -> c ∈ companies ->
  fails (SelectHeatRow (company_id c) ym) = false ->
  fails (CommitHeat (company_id c) ym) = false ->
  store_heat_indices fails ym heat_results companies rows heat
    = (Ok rows', heat') ->
  List.find (is_heat_of (company_id c) ym) heat'
  = Some (mkHeat (company_id c) ym (stored_value heat_results c)
            (stored_value heat_results c) fzero).
Proof.
  intros Hnd Hc F1 F2.
  revert rows heat. induction companies as [|c1 rest IH]; intros rows heat.
  { by apply elem_of_nil in Hc. }
  cbn [store_heat_indices]. simpl in Hnd. apply NoDup_cons in Hnd as [Hout Hnd].
  apply elem_of_cons in Hc as [->|Hc].
  - pose proof (store_heat_index_sets ym heat_results c1 heat F1 F2) as Hset.
    destruct (store_heat_index fails ym heat_results c1 heat)
      as [[row|e] heat1]; [|done].
    cbn [snd] in Hset. intros Hloop.
    pose proof (heat_loop_keeps ym heat_results rest (rows ++ [row])%list heat1
                  (company_id c1) Hout) as Hkeep.
    rewrite Hloop in Hkeep. cbn [snd] in Hkeep. by rewrite Hkeep.
  - destruct (store_heat_index fails ym heat_results c1 heat)
      as [[row|e] heat1]; [|done].
    by apply IH.
Qed.

(** X23. After the heat calculation, the record of a company whose store
    operations went through holds what GDELT answered for its name: heat
    index and average are the value of the answer, the peak is 0.0.  A
    failed GDELT request therefore overwrites the stored heat with 0.0. *)
Theorem heat_record_holds_the_gdelt_value
    (year month : Z) (company_ids : option (list Z)) (d d' : database)
    (ym : string) (total successful : Z) (results : list heat_row)
    (c : Company) :
  calculate_monthly_heat_index fails gdelt year month company_ids d
    = (Ok (Calculated ym total successful results), d') ->
  NoDup (map company_id (selected_companies d company_ids)) ->
  c ∈ selected_companies d company_ids ->
  fails (SelectHeatRow (company_id c) ym) = false ->
  fails (CommitHeat (company_id c) ym) = false ->
  exists row start_date end_date,
    month_range year month = Ok (start_date, end_date)
    /\ List.find (is_heat_of (company_id c) ym) (heat_indices d') = Some row
    /\ heat_index row
       = timelinevol_value
           (query_company_heat_index gdelt (cleaned_name c) start_date end_date)
    /\ avg_volume_percent row = heat_index row
    /\ peak_volume_percent row = fzero
    /\ (forall e, gdelt (cleaned_name c) "1month" = Raise e ->
          heat_index row = fzero).
Proof.
  unfold calculate_monthly_heat_index. intros H Hnd Hc F1 F2.
  destruct (fails (SelectActive company_ids)); [done|].
  fold (selected_companies d company_ids) in H.
  destruct (selected_companies d company_ids) as [|c0 rest] eqn:Ec.
  { by apply elem_of_nil in Hc. }
  destruct (month_range year month) as [[s e]|] eqn:Er; [|done].
  set (companies := c0 :: rest) in *.
  set (heat_results := batch_query_heat_index gdelt (map cleaned_name companies)
                         s e) in *.
  destruct (store_heat_indices fails (format_year_month year month) heat_results
              companies [] (heat_indices d)) as [[rs|err] heat] eqn:El; [|done].
  injection H as <- _ _ _ <-.
  pose proof (heat_loop_stores _ _ _ _ _ _ _ c Hnd Hc F1 F2 El) as Hst.
  assert (stored_value heat_results c
          = timelinevol_value (query_company_heat_index gdelt (cleaned_name c) s e))
    as Hval.
  { unfold stored_value, heat_results. rewrite batch_query_lookup; [done|].
    apply list_elem_of_fmap. by exists c. }
  rewrite Hval in Hst.
  eexists _, s, e. split; [done|]. split; [exact Hst|]. simpl.
  split; [done|]. split; [done|]. split; [done|].
  intros err Herr. unfold query_company_heat_index.
  apply month_range_Ok in Er as (Hy & Hm & -> & Hd).
  pose proof (days_in_month_bounds year month Hm).
  assert (heat_timespan (_ymd2ord year month 1) e = "1month") as ->.
  { unfold heat_timespan.
    destruct (Z.leb_spec (days_between (_ymd2ord year month 1) e) 1); [lia|].
    destruct (Z.leb_spec (days_between (_ymd2ord year month 1) e) 7); [lia|].
    destruct (Z.leb_spec (days_between (_ymd2ord year month 1) e) 30); [done|lia]. }
  by rewrite Herr.
Qed.


End HeatService.
(** ** The heat rankings *)

Section HeatRankings.
Import PyFloat FloatOrder PyMonth PyDate Storage HeatIndexReducer HeatStore.
Import BatchSpec HeatSpec MonthSpec.

Variable fails : heat_op -> bool.

Lemma StronglySorted_take {A : Type} (R : A -> A -> Prop) (n : nat) (l : list A) :
  StronglySorted R l -> StronglySorted R (take n l).
Proof.
  intros H. revert n. induction H as [|x l Hl IH Hx]; intros [|n]; simpl;
    try constructor; [apply IH|].
  by apply Forall_take.
Qed.

Lemma imap_ranks {A B : Type} (f : nat -> A -> B) (g : B -> Z) (k : nat)
    (l : list A) :
  (forall i x, g (f i x) = Z.of_nat (k + i) + 1) ->
  map g (imap f l) = map (fun i => Z.of_nat i + 1) (seq k (length l)).
Proof.
  revert f k. induction l as [|x l IH]; intros f k Hg; simpl; [done|].
  rewrite Hg, Nat.add_0_r. f_equal. apply IH. intros i y. simpl.
  rewrite Hg. f_equal. lia.
Qed.

Lemma imap_Forall {A B : Type} (f : nat -> A -> B) (P : A -> Prop)
    (Q : B -> Prop) (l : list A) :
  (forall i x, P x -> Q (f i x)) -> Forall P l -> Forall Q (imap f l).
Proof.
  intros HPQ H. revert f HPQ. induction H as [|x l Hx _ IH]; intros f HPQ; simpl;
    constructor; [by apply HPQ|].
  apply IH. intros i y. apply HPQ.
Qed.

Lemma imap_StronglySorted {A B : Type} (f : nat -> A -> B) (R : A -> A -> Prop)
    (R' : B -> B -> Prop) (l : list A) :
  (forall i j x y, R x y -> R' (f i x) (f j y)) ->
  StronglySorted R l -> StronglySorted R' (imap f l).
Proof.
  intros HR H. revert f HR. induction H as [|x l Hl IH Hx]; intros f HR; simpl;
    constructor.
  - apply IH. intros i j. apply HR.
  - eapply imap_Forall; [|exact Hx]. intros i y. apply HR.
Qed.

(** X25. The heat rankings of a month, as the service returns them: the
    rows are numbered 1, 2, 3, ... without gaps, there are no more than a
    non-negative limit, each row is a stored record of that month with its
    own heat level, and neither the heat index nor the heat level ever
    increases down the list.  The endpoint hands these rows on with their
    number; for an ASCII key it answers only when the key names a calendar
    month. *)
Theorem heat_rankings_are_ordered
    (year_month : string) (limit : Z) (d : database) :
  Forall (fun h => not_nan (heat_index h)) (heat_indices d) ->
  (forall rows,
     get_monthly_heat_rankings fails year_month limit d = Ok rows ->
     (0 <= limit -> Z.of_nat (length rows) <= limit)
     /\ map rk_rank rows = map (fun i => Z.of_nat i + 1) (seq 0 (length rows))
     /\ StronglySorted (fun a b => fge (rk_heat_index a) (rk_heat_index b) = true)
          rows
     /\ StronglySorted
          (fun a b => level_order (rk_heat_level b) <= level_order (rk_heat_level a))
          rows
     /\ Forall (fun r => exists h, h ∈ heat_indices d
                                   /\ h_year_month h = year_month
                                   /\ h_company_id h = rk_company_id r
                                   /\ heat_index h = rk_heat_index r
                                   /\ rk_heat_level r = heat_level (heat_index h))
          rows)
  /\ (isascii year_month = true ->
      forall resp,
        get_heat_rankings fails year_month limit d = Ok resp ->
        (exists y m, strptime_Y_m year_month = Ok (y, m) /\ 1 <= m <= 12)
        /\ get_monthly_heat_rankings fails year_month limit d
           = Ok (rankings resp)
        /\ rr_year_month resp = year_month
        /\ total_rankings resp = Z.of_nat (length (rankings resp))).
Proof.
  intros Hnan. split; cycle 1.
  { intros Hascii resp H. unfold get_heat_rankings in H.
    destruct (strptime_Y_m year_month) as [[y m]|] eqn:Ekey; [|done].
    destruct (get_monthly_heat_rankings fails year_month limit d) as [rows|]
      eqn:Er; [|done].
    injection H as <-. simpl.
    split; [|done]. exists y, m. split; [done|].
    by apply strptime_Ok in Ekey as [? _]. }
  intros rows Er.
  unfold get_monthly_heat_rankings in Er.
  destruct (fails _); [done|]. injection Er as <-.
  set (joined := omap _ (heat_indices d)).
  set (ordered := PySort.sort_by_float_desc _ joined).
  set (picked := if limit <? 0 then ordered else take (Z.to_nat limit) ordered).
  assert (Forall (fun hc : HeatIndex * Company =>
                    fst hc ∈ heat_indices d /\ h_year_month (fst hc) = year_month
                    /\ company_id (snd hc) = h_company_id (fst hc)
                    /\ not_nan (heat_index (fst hc))) joined) as Hjoined.
  { apply Forall_forall. intros [h c] Hhc. subst joined.
    apply list_elem_of_omap in Hhc as (h0 & Hh0 & Hsome).
    destruct (company_of d (h_company_id h0)) as [c0|] eqn:Ec; [|done].
    destruct (str_eqb (h_year_month h0) year_month) eqn:Em; [|done].
    injection Hsome as <- <-. simpl.
    apply company_of_Some in Ec as [_ Hid].
    unfold str_eqb in Em. apply bool_decide_eq_true in Em.
    repeat split; try done.
    by apply (proj1 (Forall_forall _ _) Hnan). }
  destruct (sort_by_float_desc_sorted (fun hc : HeatIndex * Company =>
                                         heat_index (fst hc)) joined)
    as [Hsorted Hperm].
  { eapply Forall_impl; [exact Hjoined|]. by intros hc (_ & _ & _ & ?). }
  fold ordered in Hsorted, Hperm.
  assert (Forall (fun hc : HeatIndex * Company =>
                    fst hc ∈ heat_indices d /\ h_year_month (fst hc) = year_month
                    /\ company_id (snd hc) = h_company_id (fst hc)
                    /\ not_nan (heat_index (fst hc))) ordered) as Hordered
    by (by rewrite Hperm).
  assert (StronglySorted
            (fun a b : HeatIndex * Company =>
               fge (heat_index (fst a)) (heat_index (fst b)) = true) picked
          /\ Forall (fun hc : HeatIndex * Company =>
                       fst hc ∈ heat_indices d
                       /\ h_year_month (fst hc) = year_month
                       /\ company_id (snd hc) = h_company_id (fst hc)
                       /\ not_nan (heat_index (fst hc))) picked
          /\ (0 <= limit -> Z.of_nat (length picked) <= limit))
    as (Hps & Hpf & Hpl).
  { subst picked. destruct (Z.ltb_spec limit 0).
    - split; [done|]. split; [done|lia].
    - split; [by apply StronglySorted_take|]. split; [by apply Forall_take|].
      intros _. rewrite length_take. lia. }
  rewrite length_imap.
  split; [done|]. split.
  { apply (imap_ranks _ rk_rank 0). intros i x. simpl. done. }
  split.
  { eapply imap_StronglySorted; [|exact Hps]. intros i j a b Hab. exact Hab. }
  split.
  { assert (StronglySorted
              (fun a b : HeatIndex * Company =>
                 fge (heat_index (fst a)) (heat_index (fst b)) = true
                 /\ not_nan (heat_index (fst a))
                 /\ not_nan (heat_index (fst b))) picked) as Hps'.
    { clear -Hps Hpf. induction Hps as [|x l Hl IH Hx]; [constructor|].
      apply Forall_cons in Hpf as [Hxf Hlf]. constructor; [by apply IH|].
      apply Forall_forall. intros z Hz.
      split; [by apply (proj1 (Forall_forall _ _) Hx)|].
      split; [by destruct Hxf as (_ & _ & _ & ?)|].
      by destruct (proj1 (Forall_forall _ _) Hlf z Hz) as (_ & _ & _ & ?). }
    eapply imap_StronglySorted; [|exact Hps'].
    intros i j a b (Hab & Ha & Hb). simpl. by apply heat_level_mono. }
  eapply imap_Forall; [|exact Hpf].
  intros i [h c] (Hin & Hm & Hid & _). simpl in *. exists h. done.
Qed.

End HeatRankings.

Section HeatWitnesses.
Import PyFloat FloatOrder PyMonth PyDate Storage HeatIndexReducer HeatStore.
Import BatchSpec HeatSpec Demo4 Demo5.

Lemma heat_batch_accounts_for_every_company_witness :
  (exists results d' start_date end_date,
     month_range 2025 9 = Ok (start_date, end_date)
     /\ calculate_monthly_heat_index fault_select_3 gdelt_answers 2025 9 None
          db_heat
        = (Ok (Calculated (format_year_month 2025 9)
                 (Z.of_nat (length results))
                 (Z.of_nat (length (filter (fun r => row_success r = true)
                                      results)))
                 results), d')
     /\ map row_company_id results
        = map company_id (selected_companies db_heat None))
  /\ (exists d',
        calculate_monthly_heat_index fault_commit_3 gdelt_answers 2025 9 None
          db_heat
        = (Raise pending_rollback_error, d')).
Proof.
  assert (exists s e, month_range 2025 9 = Ok (s, e)) as (s & e & Hr)
    by (eexists _, _; vm_compute; reflexivity).
  split.
  - destruct (heat_batch_accounts_for_every_company fault_select_3 gdelt_answers
                2025 9 None db_heat s e) as [Hall _].
    + reflexivity.
    + exact Hr.
    + vm_compute. discriminate.
    + destruct Hall as (results & d' & Hrun & Hids & _).
      * intros c Hc. right. reflexivity.
      * exists results, d', s, e.
        split; [exact Hr|]. split; [exact Hrun|exact Hids].
  - destruct (heat_batch_accounts_for_every_company fault_commit_3 gdelt_answers
                2025 9 None db_heat s e) as [_ Habort].
    + reflexivity.
    + exact Hr.
    + vm_compute. discriminate.
    + destruct (Habort (mkCompany 3 "Core" "active")) as (d' & Hrun & _).
      * apply list_elem_of_In. vm_compute. tauto.
      * reflexivity.
      * reflexivity.
      * exists d'. exact Hrun.
Defined.

Lemma heat_record_holds_the_gdelt_value_witness :
  exists ym total successful results d' row,
    calculate_monthly_heat_index no_heat_fault gdelt_answers 2025 9 None db_heat
      = (Ok (Calculated ym total successful results), d')
    /\ List.find (is_heat_of 2 ym) (heat_indices d') = Some row
    /\ heat_index row = fzero.
Proof.
  assert (exists ym total successful results d',
            calculate_monthly_heat_index no_heat_fault gdelt_answers 2025 9 None
              db_heat
            = (Ok (Calculated ym total successful results), d'))
    as (ym & total & successful & results & d' & Hrun)
    by (eexists _, _, _, _, _; vm_compute; reflexivity).
  destruct (heat_record_holds_the_gdelt_value no_heat_fault gdelt_answers
              2025 9 None db_heat d' ym total successful results
              (mkCompany 2 "Bolt" "active") Hrun)
    as (row & s & e & _ & Hfind & _ & _ & _ & Hzero).
  - apply (bool_decide_unpack _). vm_compute. exact I.
  - apply list_elem_of_In. vm_compute. tauto.
  - reflexivity.
  - reflexivity.
  - exists ym, total, successful, results, d', row.
    split; [exact Hrun|]. split; [exact Hfind|].
    apply (Hzero (ValueError "request failed")). reflexivity.
Defined.


Lemma heat_rankings_are_ordered_witness :
  exists resp,
    get_heat_rankings no_heat_fault "2025-09" 2 db_heat = Ok resp
    /\ total_rankings resp = 2
    /\ map rk_rank (rankings resp) = [1; 2]
    /\ map rk_company_id (rankings resp) = [2; 1]
    /\ StronglySorted
         (fun a b => fge (rk_heat_index a) (rk_heat_index b) = true)
         (rankings resp).
Proof.
  assert (exists resp,
            get_heat_rankings no_heat_fault "2025-09" 2 db_heat = Ok resp
            /\ length (rankings resp) = 2%nat
            /\ map rk_company_id (rankings resp) = [2; 1])
    as (resp & Hrun & Hlen & Hids)
    by (eexists; split; [vm_compute; reflexivity|split; vm_compute; reflexivity]).
  destruct (heat_rankings_are_ordered no_heat_fault "2025-09" 2 db_heat)
    as (Hrows & Hresp).
  - repeat constructor; apply of_ratio_not_nan; lia.
  - destruct (Hresp eq_refl resp Hrun) as (_ & Hservice & _ & Htotal).
    destruct (Hrows (rankings resp) Hservice) as (_ & Hranks & Hsorted & _).
    exists resp. split; [exact Hrun|].
    rewrite Hlen in Hranks, Htotal.
    split; [exact Htotal|]. split; [exact Hranks|].
    split; [exact Hids|exact Hsorted].
Defined.

End HeatWitnesses.
(** ** The year-over-year endpoint *)

Section YoYEndpoint.
Import PyMonth Storage PeriodAnalyzer AnalysisApi MonthSpec Demo.

(** X26. The year-over-year endpoint, given an ASCII key, serves calendar
    months only: a key the validator refuses is answered with status 400
    before the store is touched, and an answer is always for a key that
    reads as a month from 1 to 12, holds results of that month only with
    counters that add up, and comes from reading alone: no write is sent
    and the data is left as it was. *)
Theorem yoy_endpoint_serves_calendar_months_only
    (now : Z * Z) (month : option string) (company_ids : option (list Z))
    (s : session) :
  isascii (month_or_now now month) = true ->
  (forall e,
     strptime_Y_m (month_or_now now month) = Raise e ->
     get_monthly_yoy_analysis now month company_ids s
     = (Raise (HTTPException 400 "月份格式错误，应为YYYY-MM"), s))
  /\ (forall key summary s',
        get_monthly_yoy_analysis now month company_ids s
        = (Ok (key, summary), s') ->
        key = month_or_now now month
        /\ (exists y m, parse_year_month key = Ok (y, m)
                        /\ 1 <= m <= 12 /\ 1 <= y <= 9999)
        /\ Forall (fun r => sr_analysis_month r = key) (ss_results summary)
        /\ ss_successful_analyses summary + ss_failed_analyses summary
           = ss_total_companies summary
        /\ (exists ops, log s' = (ops ++ log s)%list
                        /\ Forall (fun op => is_write op = false) ops)
        /\ data s' = data s).
Proof.
  intros _. unfold get_monthly_yoy_analysis. split.
  - intros e He. by rewrite He.
  - intros key summary s' H.
    destruct (strptime_Y_m (month_or_now now month)) as [[y m]|] eqn:Ekey;
      [|done].
    apply bind_Ok in H as (result & s1 & Hres & Hret).
    apply ret_Ok in Hret as [[= -> ->] ->].
    split; [done|].
    apply strptime_Ok in Ekey as (Hm & Hy & Hparse).
    split. { exists y, m. split; [exact Hparse|]. split; [exact Hm|exact Hy]. }
    pose proof Hres as Hres'.
    apply monthly_results_Ok in Hres' as (analyses & _ & _ & Hall & _ & _ & _ & Hsum).
    split; [done|]. split; [done|].
    unfold get_monthly_yoy_results, get_monthly_results in Hres.
    apply bind_Ok in Hres as (rows & s2 & Hq & Hret).
    destruct (count_status (map stored_of rows)) as [ok ko].
    apply ret_Ok in Hret as [_ ->].
    apply perform_Ok in Hq as (_ & _ & ->). split; [|done].
    eexists [_]. split; [reflexivity|]. by repeat constructor.
Qed.

Lemma yoy_endpoint_serves_calendar_months_only_witness :
  get_monthly_yoy_analysis (2025, 9) (Some "2025-13") None
    (fresh db_stored no_fault)
  = (Raise (HTTPException 400 "月份格式错误，应为YYYY-MM"),
     fresh db_stored no_fault)
  /\ exists summary s',
       get_monthly_yoy_analysis (2025, 9) (Some "2025-09") None
         (fresh db_stored no_fault) = (Ok ("2025-09", summary), s')
       /\ ss_successful_analyses summary + ss_failed_analyses summary
          = ss_total_companies summary
       /\ data s' = db_stored.
Proof.
  split.
  - destruct (yoy_endpoint_serves_calendar_months_only (2025, 9)
                (Some "2025-13") None (fresh db_stored no_fault) eq_refl)
      as [Hbad _].
    apply (Hbad (ValueError "unconverted data remains")). reflexivity.
  - assert (exists summary s',
              get_monthly_yoy_analysis (2025, 9) (Some "2025-09") None
                (fresh db_stored no_fault) = (Ok ("2025-09", summary), s'))
      as (summary & s' & Hrun)
      by (eexists _, _; vm_compute; reflexivity).
    destruct (yoy_endpoint_serves_calendar_months_only (2025, 9)
                (Some "2025-09") None (fresh db_stored no_fault) eq_refl)
      as [_ Hok].
    destruct (Hok _ _ _ Hrun) as (_ & _ & _ & Hsum & _ & Hdata).
    exists summary, s'. split; [exact Hrun|]. split; [exact Hsum|exact Hdata].
Defined.

End YoYEndpoint.
